(** * Legal case management server: route handlers and their contracts

    A shallow embedding of the Express route handlers of the server
    (routes/invoices.js, routes/cases.js, routes/tasks.js,
    routes/clients.js, routes/auth.js), of the Mongoose schemas they
    use and of the response helpers of utils/apiResponse.js, followed by
    the properties of these handlers.

    Conventions.
    - A JavaScript number is an IEEE 754 binary64 value, [spec_float]
      with precision 53 and maximal exponent 1024.
    - A JavaScript string is a [string]: a sequence of code units below 256.
    - A value taken from a JSON request body is a [JS.value]; only the
      scalar JSON values are represented.
    - A collection is a finite map from ObjectIds to documents; a handler
      is a function from the database (and the request) to a response
      and the new database.  One request runs at a time. *)

From Stdlib Require Import ZArith NArith String Ascii List Bool Lia.
From Stdlib Require Import DecimalString DecimalNat.
From Stdlib Require Import Floats.SpecFloat.
From stdpp Require Import base option list gmap strings.

Local Open Scope string_scope.

(** ** JavaScript values and the built-in operations the handlers use *)

Module JS.

Definition prec : Z := 53.
Definition emax : Z := 1024.

Definition number : Type := spec_float.

Definition nan : number := S754_nan.
Definition zero : number := S754_zero false.
Definition infinity : number := S754_infinity false.

(** The number with the integer value [z] (rounded to nearest even when
    [z] has more than 53 significant bits). *)
Definition of_Z (z : Z) : number := binary_normalize prec emax z 0 false.

Definition valid (x : number) : bool := valid_binary prec emax x.

Definition is_nan (x : number) : bool :=
  match x with S754_nan => true | _ => false end.

Definition is_zero (x : number) : bool :=
  match x with S754_zero _ => true | _ => false end.

(** [x + y] and [x - y]. *)
Definition add (x y : number) : number := SFadd prec emax x y.
Definition sub (x y : number) : number := SFsub prec emax x y.

(** The four relational operators on numbers; each is false when an
    operand is NaN. *)
Definition lt (x y : number) : bool :=
  match SFcompare x y with Some Lt => true | _ => false end.
Definition gt (x y : number) : bool :=
  match SFcompare x y with Some Gt => true | _ => false end.
Definition le (x y : number) : bool :=
  match SFcompare x y with Some (Lt | Eq) => true | _ => false end.
Definition ge (x y : number) : bool :=
  match SFcompare x y with Some (Gt | Eq) => true | _ => false end.
(** [x == y] on numbers. *)
Definition eq (x y : number) : bool :=
  match SFcompare x y with Some Eq => true | _ => false end.

(** Above zero: a positive finite number or [+Infinity]. *)
Definition positive_number (x : number) : bool :=
  match x with
  | S754_finite false _ _ | S754_infinity false => true
  | _ => false
  end.

(** A scalar value of a JSON body; [Undefined] is an absent property. *)
Inductive value : Type :=
| Undefined
| Null
| Boolean (b : bool)
| Num (n : number)
| Str (s : string).

(** [!!v] *)
Definition ToBoolean (v : value) : bool :=
  match v with
  | Undefined | Null => false
  | Boolean b => b
  | Num n => negb (is_zero n || is_nan n)
  | Str s => negb (String.eqb s "")
  end.

(** White space and line terminators among the code units below 256:
    TAB, LF, VT, FF, CR, SP and NBSP. *)
Definition is_white (c : ascii) : bool :=
  let n := N_of_ascii c in
  ((9 <=? n) && (n <=? 13) || (n =? 32) || (n =? 160))%N.

Fixpoint trimStart (s : string) : string :=
  match s with
  | EmptyString => EmptyString
  | String c s' => if is_white c then trimStart s' else s
  end.

Fixpoint trimEnd (s : string) : string :=
  match s with
  | EmptyString => EmptyString
  | String c s' =>
      let r := trimEnd s' in
      if is_white c && String.eqb r "" then EmptyString else String c r
  end.

(** [String.prototype.trim] *)
Definition trim (s : string) : string := trimEnd (trimStart s).

(** *** Numeric literals *)

Definition digit_of (base : N) (c : ascii) : option N :=
  let n := N_of_ascii c in
  let d :=
    if ((48 <=? n) && (n <=? 57))%N then Some (n - 48)%N
    else if ((97 <=? n) && (n <=? 102))%N then Some (n - 87)%N
    else if ((65 <=? n) && (n <=? 70))%N then Some (n - 55)%N
    else None in
  match d with
  | Some k => if (k <? base)%N then Some k else None
  | None => None
  end.

(** Reads the longest run of digits of [base] at the head of [s]; returns
    the value accumulated from [acc], the number of digits read, and the
    rest of the string. *)
Fixpoint digits (base : N) (acc : N) (count : nat) (s : string)
  : N * nat * string :=
  match s with
  | EmptyString => (acc, count, s)
  | String c s' =>
      match digit_of base c with
      | Some d => digits base (acc * base + d)%N (S count) s'
      | None => (acc, count, s)
      end
  end.

(** The number nearest to [m * 10^e10], with the sign [neg]. *)
Definition of_decimal (neg : bool) (m : N) (e10 : Z) : number :=
  match m with
  | N0 => S754_zero neg
  | Npos p =>
      match e10 with
      | Z0 => binary_round prec emax neg p 0
      | Zpos k => binary_round prec emax neg (p * Pos.pow 10 k) 0
      | Zneg k =>
          let '(q, e, l) :=
            SFdiv_core_binary prec emax (Zpos p) 0 (Zpos (Pos.pow 10 k)) 0 in
          binary_round_aux prec emax neg q e l
      end
  end.

Definition read_sign (s : string) : bool * string :=
  match s with
  | String "-" s' => (true, s')
  | String "+" s' => (false, s')
  | _ => (false, s)
  end.

(** The exponent part [e[+-]ddd] at the head of [s], when there is one. *)
Definition read_exponent (s : string) : Z * string :=
  match s with
  | String c s' =>
      if Ascii.eqb c "e" || Ascii.eqb c "E" then
        let '(neg, s'') := read_sign s' in
        let '(v, k, rest) := digits 10 0 0 s'' in
        match k with
        | O => (0%Z, s)
        | S _ => ((if neg then - Z.of_N v else Z.of_N v)%Z, rest)
        end
      else (0%Z, s)
  | EmptyString => (0%Z, s)
  end.

(** The longest prefix of [s] that is a StrDecimalLiteral, with its
    value and the rest of the string; [None] when no prefix is one. *)
Definition read_decimal (s : string) : option (number * string) :=
  let '(neg, s1) := read_sign s in
  if String.prefix "Infinity" s1 then
    Some (S754_infinity neg, String.substring 8 (String.length s1 - 8) s1)
  else
    let '(int_part, ni, s2) := digits 10 0 0 s1 in
    let '(mant, nf, s3) :=
      match s2 with
      | String "." s2' =>
          let '(m, n, r) := digits 10 int_part 0 s2' in
          match ni, n with
          | O, O => (int_part, O, s2)
          | _, _ => (m, n, r)
          end
      | _ => (int_part, O, s2)
      end in
    match ni, nf with
    | O, O => None
    | _, _ =>
        let '(e, rest) := read_exponent s3 in
        Some (of_decimal neg mant (e - Z.of_nat nf), rest)
    end.

(** A whole string of digits of [base], as a number. *)
Definition read_radix (base : N) (s : string) : number :=
  match digits base 0 0 s with
  | (v, S _, EmptyString) => of_Z (Z.of_N v)
  | _ => nan
  end.

(** StringToNumber: the whole trimmed string must be a numeric literal;
    the empty string is 0. *)
Definition StringToNumber (s : string) : number :=
  let t := trim s in
  match t with
  | EmptyString => zero
  | String "0" (String c r) =>
      if Ascii.eqb c "x" || Ascii.eqb c "X" then read_radix 16 r
      else if Ascii.eqb c "o" || Ascii.eqb c "O" then read_radix 8 r
      else if Ascii.eqb c "b" || Ascii.eqb c "B" then read_radix 2 r
      else match read_decimal t with
           | Some (v, EmptyString) => v
           | _ => nan
           end
  | _ => match read_decimal t with
         | Some (v, EmptyString) => v
         | _ => nan
         end
  end.

(** [Number(v)] *)
Definition ToNumber (v : value) : number :=
  match v with
  | Undefined => nan
  | Null => zero
  | Boolean b => if b then of_Z 1 else zero
  | Num n => n
  | Str s => StringToNumber s
  end.

(** The global [isNaN]. *)
Definition isNaN (v : value) : bool := is_nan (ToNumber v).

(** [parseFloat] of a string: the value of the longest decimal prefix
    after leading white space. *)
Definition parseFloat_string (s : string) : number :=
  match read_decimal (trimStart s) with
  | Some (v, _) => v
  | None => nan
  end.

(** [parseFloat(v)] converts [v] to a string first.  The string that
    [Number::toString] gives for a number reads back as that number, "0"
    for both zeros, "NaN" and "Infinity" for these. *)
Definition parseFloat (v : value) : number :=
  match v with
  | Undefined => parseFloat_string "undefined"
  | Null => parseFloat_string "null"
  | Boolean b => parseFloat_string (if b then "true" else "false")
  | Num n => if is_zero n then zero else n
  | Str s => parseFloat_string s
  end.

(** The decimal digits of a natural number, as [String(n)] prints an
    integer below 10^21. *)
Definition decimal (n : nat) : string :=
  NilEmpty.string_of_uint (Nat.to_uint n).

(** [s.padStart(width, c)] for a one-character filler. *)
Definition padStart (width : nat) (c : ascii) (s : string) : string :=
  string_of_list_ascii (repeat c (width - String.length s)) ++ s.

End JS.

(** ** ObjectIds

    An ObjectId is a 12-byte value.  A route parameter or a token field
    carries it as a string of 24 hexadecimal digits, which Mongoose casts
    before it queries. *)

Module ObjectId.

Definition t : Type := N.

(** The cast of a string: 24 hexadecimal digits, of either case. *)
Definition ofString (s : string) : option t :=
  match JS.digits 16 0 0 s with
  | (v, 24%nat, EmptyString) => Some v
  | _ => None
  end.

(** [mongoose.Types.ObjectId.isValid] on a string. *)
Definition isValid (s : string) : bool :=
  match ofString s with Some _ => true | None => false end.

Definition hex_char (d : N) : ascii :=
  ascii_of_N (if (d <? 10)%N then d + 48 else d + 87)%N.

Fixpoint hex (k : nat) (n : N) (acc : string) : string :=
  match k with
  | O => acc
  | S k' => hex k' (n / 16)%N (String (hex_char (n mod 16)%N) acc)
  end.

(** [toString()]: 24 lower-case hexadecimal digits. *)
Definition toString (o : t) : string := hex 24 o "".

End ObjectId.

(** What Mongoose throws, by the name of the error. *)
Inductive error : Type :=
| CastError (path : string) (value : string)
| ValidationError (paths : list string)
| DuplicateKey (path : string)
| TypeError.

(** A computation that may throw. *)
Definition throwing (A : Type) : Type := (error + A)%type.

Definition and_then {A B : Type} (x : throwing A) (f : A -> throwing B)
    : throwing B :=
  match x with inl e => inl e | inr a => f a end.

Notation "'let*' x ':=' e 'in' k" := (and_then e (fun x => k))
  (at level 10, x name, e at level 100, k at level 200).

(** An HTTP response: the status code and the JSON body. *)
Record response (B : Type) : Type := Response { code : nat; body : B }.
Arguments Response {B} code body.
Arguments code {B} r.
Arguments body {B} r.

(** ** Schemas *)

(** models/Invoice.js *)
Module Invoice.

Record item : Type := Item {
  service : option ObjectId.t;
  description : string;
  quantity : JS.number;
  rate : JS.number;
  amount : JS.number
}.

Record t : Type := Make {
  invoiceNo : string;
  clientId : ObjectId.t;
  clientName : string;
  issueDate : JS.number;
  dueDate : JS.number;
  items : list item;
  subtotal : JS.number;
  taxRate : JS.number;
  taxAmount : JS.number;
  total : JS.number;
  paid : JS.number;
  status : string;
  clientStatus : string;
  notes : option string;
  createdBy : option ObjectId.t;
  createdAt : JS.number;
  updatedAt : JS.number
}.

(** The virtual [balanceDue]. *)
Definition balanceDue (i : t) : JS.number := JS.sub (total i) (paid i).

(** What [toJSON] gives ([virtuals: true]): the stored paths and the
    virtual. *)
Record json : Type := Json {
  _id : ObjectId.t;
  doc : t;
  json_balanceDue : JS.number
}.

Definition toJSON (id : ObjectId.t) (i : t) : json :=
  {| _id := id; doc := i; json_balanceDue := balanceDue i |}.

(** A number path holds no NaN: the cast of NaN to Number fails. *)
Definition castable (x : JS.number) : bool := negb (JS.is_nan x).

Definition status_enum : list string :=
  ["Paid"; "Partially Paid"; "Unpaid"; "Overdue"].
Definition clientStatus_enum : list string := ["Viewed"; "Not Viewed"].

Definition check (path : string) (ok : bool) : list string :=
  if ok then [] else [path].

Definition one_of (l : list string) (s : string) : bool :=
  existsb (String.eqb s) l.

(** The validators of one path each; the result lists the failing paths.
    [required] refuses the empty string; [min] and [max] compare numbers,
    and a NaN fails them as it fails the cast. *)
Definition validate_item (k : nat) (it : item) : list string :=
  let p := "items." ++ JS.decimal k ++ "." in
  check (p ++ "description") (negb (String.eqb (description it) "")) ++
  check (p ++ "quantity") (JS.ge (quantity it) (JS.of_Z 1)) ++
  check (p ++ "rate") (JS.ge (rate it) JS.zero) ++
  check (p ++ "amount") (JS.ge (amount it) JS.zero).

Definition validate_invoiceNo (s : string) : list string :=
  check "invoiceNo" (negb (String.eqb s "")).
Definition validate_clientName (s : string) : list string :=
  check "clientName" (negb (String.eqb s "")).
Definition validate_issueDate (d : JS.number) : list string :=
  check "issueDate" (castable d).
Definition validate_dueDate (d : JS.number) : list string :=
  check "dueDate" (castable d).
Definition validate_items (l : list item) : list string :=
  concat (imap validate_item l).
Definition validate_subtotal (x : JS.number) : list string :=
  check "subtotal" (JS.ge x JS.zero).
Definition validate_taxRate (x : JS.number) : list string :=
  check "taxRate" (JS.ge x JS.zero && JS.le x (JS.of_Z 100)).
Definition validate_taxAmount (x : JS.number) : list string :=
  check "taxAmount" (JS.ge x JS.zero).
Definition validate_total (x : JS.number) : list string :=
  check "total" (JS.ge x JS.zero).
Definition validate_paid (x : JS.number) : list string :=
  check "paid" (JS.ge x JS.zero).
Definition validate_status (s : string) : list string :=
  check "status" (one_of status_enum s).
Definition validate_clientStatus (s : string) : list string :=
  check "clientStatus" (one_of clientStatus_enum s).

(** Validation of a whole document, as [save] runs it. *)
Definition validate (i : t) : list string :=
  validate_invoiceNo (invoiceNo i) ++
  validate_clientName (clientName i) ++
  validate_issueDate (issueDate i) ++
  validate_dueDate (dueDate i) ++
  validate_items (items i) ++
  validate_subtotal (subtotal i) ++
  validate_taxRate (taxRate i) ++
  validate_taxAmount (taxAmount i) ++
  validate_total (total i) ++
  validate_paid (paid i) ++
  validate_status (status i) ++
  validate_clientStatus (clientStatus i).

End Invoice.

(** models/Task.js *)
Module Task.

Record t : Type := Make {
  title : string;
  description : string;
  dueDate : JS.number;
  startDate : JS.number;
  status : string;
  priority : string;
  completed : bool;
  userId : ObjectId.t;
  relatedTo_name : option string;
  relatedTo_caseNumber : option string;
  createdAt : JS.number;
  updatedAt : JS.number
}.

Definition status_enum : list string := ["Pending"; "In Progress"; "Completed"].
Definition priority_enum : list string := ["Low"; "Medium"; "High"].

Definition validate_title (s : string) : list string :=
  Invoice.check "title" (negb (String.eqb s "")).
Definition validate_dueDate (d : JS.number) : list string :=
  Invoice.check "dueDate" (Invoice.castable d).
Definition validate_status (s : string) : list string :=
  Invoice.check "status" (Invoice.one_of status_enum s).
Definition validate_priority (s : string) : list string :=
  Invoice.check "priority" (Invoice.one_of priority_enum s).

(** The validators of the required paths. *)
Definition validate_required (d : t) : list string :=
  validate_title (title d) ++ validate_dueDate (dueDate d).

(** Validation of a whole document, as [save] runs it on a loaded
    document: the validators of every path that has one. *)
Definition validate (d : t) : list string :=
  validate_required d ++
  validate_status (status d) ++
  validate_priority (priority d).

End Task.

(** models/Appointment.js *)
Module Appointment.

Record t : Type := Make {
  title : string;
  clientId : ObjectId.t;
  dateTime : JS.number;
  duration : JS.number;
  location : string;
  description : string;
  status : string;
  createdBy : ObjectId.t;
  createdAt : JS.number;
  updatedAt : JS.number
}.

End Appointment.

(** models/Case.js *)
Module Case.

Record document : Type := Document {
  doc_title : string;
  fileUrl : string;
  uploadedAt : JS.number;
  uploadedBy : ObjectId.t
}.

Record event : Type := Event {
  date : JS.number;
  event_description : string;
  addedBy : ObjectId.t
}.

Record note : Type := Note {
  content : string;
  note_createdAt : JS.number;
  note_createdBy : ObjectId.t
}.

Record t : Type := Make {
  clientNo : string;
  clientName : string;
  caseType : string;
  court : string;
  courtNo : option string;
  magistrate : option string;
  petitioner : string;
  respondent : string;
  nextDate : option JS.number;
  status : string;
  isImportant : bool;
  isArchived : bool;
  assignedTo : ObjectId.t;
  createdBy : ObjectId.t;
  documents : list document;
  appointments : list ObjectId.t;
  timeline : list event;
  notes : list note;
  createdAt : JS.number;
  updatedAt : JS.number;
  (** The schema declares no [clientId] path, so a document saved
      through the model has none; the stored document may still carry
      the field, and the client routes filter on it. *)
  clientId : option string
}.

Definition status_enum : list string :=
  ["Pending"; "On-Trial"; "Completed"; "Dismissed"].

(** The validators of the schema, by path; the result lists the failing
    paths.  [required] refuses the empty string. *)
Definition required (path value : string) : list string :=
  Invoice.check path (negb (String.eqb value "")).

Definition validate_required (d : t) : list string :=
  required "clientNo" (clientNo d) ++
  required "clientName" (clientName d) ++
  required "caseType" (caseType d) ++
  required "court" (court d) ++
  required "petitioner" (petitioner d) ++
  required "respondent" (respondent d).

Definition validate_status (s : string) : list string :=
  Invoice.check "status" (Invoice.one_of status_enum s).

Definition validate_document (k : nat) (x : document) : list string :=
  required ("documents." ++ JS.decimal k ++ ".title") (doc_title x) ++
  required ("documents." ++ JS.decimal k ++ ".fileUrl") (fileUrl x).

Definition validate_event (k : nat) (x : event) : list string :=
  required ("timeline." ++ JS.decimal k ++ ".description") (event_description x).

Definition validate_note (k : nat) (x : note) : list string :=
  required ("notes." ++ JS.decimal k ++ ".content") (content x).

(** Validation of a whole document, as [save] runs it, on a new
    document and on a loaded one alike: the validators of every path,
    the unmodified ones too. *)
Definition validate (d : t) : list string :=
  validate_required d ++
  validate_status (status d) ++
  concat (imap validate_document (documents d)) ++
  concat (imap validate_event (timeline d)) ++
  concat (imap validate_note (notes d)).

End Case.

(** models/Client.js *)
Module Client.

(** Modelled from the spec: models/Client.js is not among the sources.
    The fields are those of section 3 of the specification (name, unique
    email, mobile, address, company, notes, boolean status, list of Case
    references, creator) with the creation and update timestamps that
    every entity has there; the client routes sort on [createdAt] and the
    front end's [Client] interface lists both. *)
Record t : Type := Make {
  name : string;
  email : string;
  mobile : option string;
  address : option string;
  company : option string;
  notes : option string;
  status : bool;
  cases : list ObjectId.t;
  createdBy : option ObjectId.t;
  createdAt : JS.number;
  updatedAt : JS.number
}.

End Client.

(** models/User.js *)
Module User.

(** Modelled from the spec: models/User.js is not among the sources.
    The fields are those of section 3 of the specification and those the
    auth routes read and write; [password] is the stored hash. *)
Record t : Type := Make {
  name : string;
  email : string;
  password : string;
  role : string;
  phone : option string;
  clientId : option ObjectId.t
}.

End User.

(** ** The database: one collection per model *)

Record database : Type := Database {
  users : gmap ObjectId.t User.t;
  clients : gmap ObjectId.t Client.t;
  cases : gmap ObjectId.t Case.t;
  invoices : gmap ObjectId.t Invoice.t;
  appointments : gmap ObjectId.t Appointment.t;
  tasks : gmap ObjectId.t Task.t
}.

Definition with_invoices (f : gmap ObjectId.t Invoice.t -> gmap ObjectId.t Invoice.t)
    (db : database) : database :=
  {| users := users db; clients := clients db; cases := cases db;
     invoices := f (invoices db);
     appointments := appointments db; tasks := tasks db |}.

Definition with_tasks (f : gmap ObjectId.t Task.t -> gmap ObjectId.t Task.t)
    (db : database) : database :=
  {| users := users db; clients := clients db; cases := cases db;
     invoices := invoices db;
     appointments := appointments db; tasks := f (tasks db) |}.

Definition with_clients (f : gmap ObjectId.t Client.t -> gmap ObjectId.t Client.t)
    (db : database) : database :=
  {| users := users db; clients := f (clients db); cases := cases db;
     invoices := invoices db;
     appointments := appointments db; tasks := tasks db |}.

Definition with_cases (f : gmap ObjectId.t Case.t -> gmap ObjectId.t Case.t)
    (db : database) : database :=
  {| users := users db; clients := clients db; cases := f (cases db);
     invoices := invoices db;
     appointments := appointments db; tasks := tasks db |}.

(** [Model.findById(id)]: the cast of [id] may throw. *)
Definition findById {A : Type} (m : gmap ObjectId.t A) (id : string)
    : error + option (ObjectId.t * A) :=
  match ObjectId.ofString id with
  | None => inl (CastError "_id" id)
  | Some o =>
      match m !! o with
      | Some d => inr (Some (o, d))
      | None => inr None
      end
  end.

(** [Model.countDocuments()] *)
Definition countDocuments {A : Type} (m : gmap ObjectId.t A) : nat := size m.

(** [Model.countDocuments(filter)] *)
Definition countWhere {A : Type} (f : A -> bool) (m : gmap ObjectId.t A) : nat :=
  length (filter (fun kv => f kv.2 = true) (map_to_list m)).

(** ** routes/invoices.js *)

Module Invoices.

Import JS.

Inductive content : Type :=
| Message (message : string)
| Failure (message : string) (e : error)
| Invalid (message : string) (errors : list string)
| One (j : Invoice.json)
| Many (l : list Invoice.json)
| Nothing.

(** The part of the request that is not the body: the [userId] of the
    verified token, the clock, and the ObjectId that the driver would
    give to a new document. *)
Record context : Type := Context {
  userId : string;
  now : JS.number;
  fresh : ObjectId.t
}.

Definition truthy (o : option string) : bool :=
  match o with Some s => negb (String.eqb s "") | None => false end.

(** The stored invoices as a response shows them.  The joins of the read
    routes ([populate]) put the documents that [clientId], [items.service]
    and [createdBy] name in the place of these references; they touch no
    other path and are left out. *)
Definition all_json (m : gmap ObjectId.t Invoice.t) : list Invoice.json :=
  map (fun kv => Invoice.toJSON kv.1 kv.2) (map_to_list m).

(** GET / *)
Definition list_invoices (db : database) : response content :=
  Response 200 (Many (all_json (invoices db))).

(** GET /:id *)
Definition get_invoice (db : database) (id : string) : response content :=
  match findById (invoices db) id with
  | inl e => Response 500 (Failure "Error fetching invoice" e)
  | inr None => Response 404 (Message "Invoice not found")
  | inr (Some (o, i)) => Response 200 (One (Invoice.toJSON o i))
  end.

(** [sort({ issueDate: -1 })] *)
Fixpoint insert_desc (j : Invoice.json) (l : list Invoice.json) : list Invoice.json :=
  match l with
  | [] => [j]
  | k :: l' =>
      if JS.ge (Invoice.issueDate (Invoice.doc j)) (Invoice.issueDate (Invoice.doc k))
      then j :: l else k :: insert_desc j l'
  end.

Definition sort_desc (l : list Invoice.json) : list Invoice.json :=
  foldr insert_desc [] l.

(** GET /client/:clientId *)
Definition get_client_invoices (db : database) (clientId : string)
  : response content :=
  match ObjectId.ofString clientId with
  | None =>
      Response 500 (Failure "Error fetching client invoices"
                      (CastError "clientId" clientId))
  | Some c =>
      Response 200
        (Many (sort_desc
                 (filter (fun j => Invoice.clientId (Invoice.doc j) = c)
                    (all_json (invoices db)))))
  end.

(** *** POST / *)

Record item_input : Type := ItemInput {
  in_description : option string;
  in_quantity : value;
  in_rate : value;
  in_amount : value
}.

(** The body of a creation request.  The string properties are optional
    strings; [items] is [None] when the property is falsy or no array,
    and an element is [None] when it is [null]. *)
Record create_body : Type := CreateBody {
  clientId : option string;
  clientName : option string;
  issueDate : value;
  dueDate : value;
  items : option (list (option item_input));
  subtotal : value;
  taxRate : value;
  taxAmount : value;
  total : value;
  notes : option string
}.

Definition check_item (it : item_input) : option string :=
  if negb (truthy (in_description it)) then
    Some "Item description is required"
  else if isNaN (in_quantity it) || le (ToNumber (in_quantity it)) zero then
    Some "Item quantity must be a positive number"
  else if isNaN (in_rate it) || lt (ToNumber (in_rate it)) zero then
    Some "Item rate must be a non-negative number"
  else if isNaN (in_amount it) || lt (ToNumber (in_amount it)) zero then
    Some "Item amount must be a non-negative number"
  else None.

(** The loop over the items: the first complaint, or the TypeError of
    reading a property of [null]. *)
Fixpoint check_items (l : list (option item_input)) : error + option string :=
  match l with
  | [] => inr None
  | None :: _ => inl TypeError
  | Some it :: l' =>
      match check_item it with
      | Some m => inr (Some m)
      | None => check_items l'
      end
  end.

Definition make_item (it : option item_input) : Invoice.item :=
  match it with
  | Some it =>
      {| Invoice.service := None;
         Invoice.description := default "" (in_description it);
         Invoice.quantity := ToNumber (in_quantity it);
         Invoice.rate := ToNumber (in_rate it);
         Invoice.amount := ToNumber (in_amount it) |}
  | None =>
      {| Invoice.service := None; Invoice.description := "";
         Invoice.quantity := nan; Invoice.rate := nan; Invoice.amount := nan |}
  end.

(** [v || 0] *)
Definition or_zero (v : value) : value :=
  if ToBoolean v then v else Num zero.

(** The invoice number from the number of stored invoices. *)
Definition invoiceNo_of (count : nat) : string :=
  "INV-" ++ padStart 6 "0" (decimal (count + 1)).

Definition invoiceNo_taken (no : string) (m : gmap ObjectId.t Invoice.t) : bool :=
  existsb (fun kv => String.eqb (Invoice.invoiceNo kv.2) no) (map_to_list m).

(** The [catch] of the creation route. *)
Definition create_catch (e : error) : response content :=
  match e with
  | ValidationError paths => Response 400 (Invalid "Validation error" paths)
  | CastError path v => Response 400 (Message ("Invalid " ++ path ++ ": " ++ v))
  | _ => Response 400 (Failure "Error creating invoice" e)
  end.

Section WithDate.

(** [new Date(v).getTime()]: the time value of the date made from [v],
    NaN when there is none. *)
Variable Date_new : value -> JS.number.

(** The paths whose cast to ObjectId fails when the document is made:
    [clientId] of the body and [createdBy] of the token. *)
Definition failed_casts (client user : option ObjectId.t) : list string :=
  (match client with Some _ => [] | None => ["clientId"] end ++
   match user with Some _ => [] | None => ["createdBy"] end)%list.

(** [new Invoice(data).save()]: cast, validate, insert.  The validation
    error names every failing path: those whose cast failed and those
    whose validators fail. *)
Definition save_new (ctx : context) (db : database) (no : string)
    (b : create_body) (l : list (option item_input))
  : error + (Invoice.t * database) :=
  let client := ObjectId.ofString (default "" (clientId b)) in
  let user := ObjectId.ofString (userId ctx) in
  let d :=
    {| Invoice.invoiceNo := no;
       Invoice.clientId := default 0%N client;
       Invoice.clientName := default "" (clientName b);
       Invoice.issueDate := Date_new (issueDate b);
       Invoice.dueDate := Date_new (dueDate b);
       Invoice.items := map make_item l;
       Invoice.subtotal := ToNumber (subtotal b);
       Invoice.taxRate := ToNumber (or_zero (taxRate b));
       Invoice.taxAmount := ToNumber (or_zero (taxAmount b));
       Invoice.total := ToNumber (total b);
       Invoice.paid := zero;
       Invoice.status := "Unpaid";
       Invoice.clientStatus := "Not Viewed";
       Invoice.notes := notes b;
       Invoice.createdBy := user;
       Invoice.createdAt := now ctx;
       Invoice.updatedAt := now ctx |} in
  match (failed_casts client user ++ Invoice.validate d)%list with
  | [] =>
      if invoiceNo_taken no (invoices db) then inl (DuplicateKey "invoiceNo")
      else match invoices db !! fresh ctx with
           | Some _ => inl (DuplicateKey "_id")
           | None => inr (d, with_invoices (insert (fresh ctx) d) db)
           end
  | paths => inl (ValidationError paths)
  end.

Definition create_invoice (ctx : context) (db : database) (b : create_body)
  : response content * database :=
  if negb (truthy (clientId b)) then
    (Response 400 (Message "Client ID is required"), db)
  else if negb (truthy (clientName b)) then
    (Response 400 (Message "Client name is required"), db)
  else if is_nan (Date_new (issueDate b)) then
    (Response 400 (Message "Invalid issue date format"), db)
  else if is_nan (Date_new (dueDate b)) then
    (Response 400 (Message "Invalid due date format"), db)
  else
    match items b with
    | None | Some [] =>
        (Response 400 (Message "At least one invoice item is required"), db)
    | Some l =>
        match check_items l with
        | inl e => (create_catch e, db)
        | inr (Some m) => (Response 400 (Message m), db)
        | inr None =>
            if isNaN (subtotal b) || lt (ToNumber (subtotal b)) zero then
              (Response 400 (Message "Subtotal must be a non-negative number"), db)
            else if isNaN (total b) || lt (ToNumber (total b)) zero then
              (Response 400 (Message "Total must be a non-negative number"), db)
            else
              let count := countDocuments (invoices db) in
              let invoiceNo := invoiceNo_of count in
              match save_new ctx db invoiceNo b l with
              | inl e => (create_catch e, db)
              | inr (d, db') =>
                  (Response 201 (One (Invoice.toJSON (fresh ctx) d)), db')
              end
        end
    end.

End WithDate.

(** *** PUT /:id *)

(** An update that sets paths, after Mongoose has cast it to the schema
    types and dropped what the schema does not declare: the paths to
    set.  The updates that the routes make themselves are of this kind;
    the body of a PUT request may carry update operators besides (see
    [put_invoice]). *)
Record patch : Type := Patch {
  p_invoiceNo : option string;
  p_clientId : option ObjectId.t;
  p_clientName : option string;
  p_issueDate : option JS.number;
  p_dueDate : option JS.number;
  p_items : option (list Invoice.item);
  p_subtotal : option JS.number;
  p_taxRate : option JS.number;
  p_taxAmount : option JS.number;
  p_total : option JS.number;
  p_paid : option JS.number;
  p_status : option string;
  p_clientStatus : option string;
  p_notes : option string;
  p_createdBy : option ObjectId.t
}.

Definition on {A : Type} (f : A -> list string) (o : option A) : list string :=
  match o with Some x => f x | None => [] end.

(** [runValidators: true]: the validators of the paths that are set. *)
Definition validate_patch (p : patch) : list string :=
  on Invoice.validate_invoiceNo (p_invoiceNo p) ++
  on Invoice.validate_clientName (p_clientName p) ++
  on Invoice.validate_issueDate (p_issueDate p) ++
  on Invoice.validate_dueDate (p_dueDate p) ++
  on Invoice.validate_items (p_items p) ++
  on Invoice.validate_subtotal (p_subtotal p) ++
  on Invoice.validate_taxRate (p_taxRate p) ++
  on Invoice.validate_taxAmount (p_taxAmount p) ++
  on Invoice.validate_total (p_total p) ++
  on Invoice.validate_paid (p_paid p) ++
  on Invoice.validate_status (p_status p) ++
  on Invoice.validate_clientStatus (p_clientStatus p).

Definition apply_patch (t : JS.number) (p : patch) (i : Invoice.t) : Invoice.t :=
  {| Invoice.invoiceNo := default (Invoice.invoiceNo i) (p_invoiceNo p);
     Invoice.clientId := default (Invoice.clientId i) (p_clientId p);
     Invoice.clientName := default (Invoice.clientName i) (p_clientName p);
     Invoice.issueDate := default (Invoice.issueDate i) (p_issueDate p);
     Invoice.dueDate := default (Invoice.dueDate i) (p_dueDate p);
     Invoice.items := default (Invoice.items i) (p_items p);
     Invoice.subtotal := default (Invoice.subtotal i) (p_subtotal p);
     Invoice.taxRate := default (Invoice.taxRate i) (p_taxRate p);
     Invoice.taxAmount := default (Invoice.taxAmount i) (p_taxAmount p);
     Invoice.total := default (Invoice.total i) (p_total p);
     Invoice.paid := default (Invoice.paid i) (p_paid p);
     Invoice.status := default (Invoice.status i) (p_status p);
     Invoice.clientStatus := default (Invoice.clientStatus i) (p_clientStatus p);
     Invoice.notes :=
       match p_notes p with Some n => Some n | None => Invoice.notes i end;
     Invoice.createdBy :=
       match p_createdBy p with
       | Some u => Some u
       | None => Invoice.createdBy i
       end;
     Invoice.createdAt := Invoice.createdAt i;
     Invoice.updatedAt := t |}.

Definition status_patch (status : option string) : patch :=
  {| p_invoiceNo := None; p_clientId := None; p_clientName := None;
     p_issueDate := None; p_dueDate := None; p_items := None;
     p_subtotal := None; p_taxRate := None; p_taxAmount := None;
     p_total := None; p_paid := None; p_status := status;
     p_clientStatus := None; p_notes := None; p_createdBy := None |}.

Definition viewed_patch : patch :=
  {| p_invoiceNo := None; p_clientId := None; p_clientName := None;
     p_issueDate := None; p_dueDate := None; p_items := None;
     p_subtotal := None; p_taxRate := None; p_taxAmount := None;
     p_total := None; p_paid := None; p_status := None;
     p_clientStatus := Some "Viewed"; p_notes := None;
     p_createdBy := None |}.

Definition payment_patch (paid : JS.number) (status : string) : patch :=
  {| p_invoiceNo := None; p_clientId := None; p_clientName := None;
     p_issueDate := None; p_dueDate := None; p_items := None;
     p_subtotal := None; p_taxRate := None; p_taxAmount := None;
     p_total := None; p_paid := Some paid; p_status := Some status;
     p_clientStatus := None; p_notes := None; p_createdBy := None |}.

(** The number paths that an update sets, by name. *)
Definition numbers (p : patch) : list (string * JS.number) :=
  omap (fun x => match x.2 with Some n => Some (x.1, n) | None => None end)
    [("subtotal", p_subtotal p); ("taxRate", p_taxRate p);
     ("taxAmount", p_taxAmount p); ("total", p_total p); ("paid", p_paid p)].

(** [Invoice.findByIdAndUpdate(id, update, { new: true })]: the cast of
    the id and of the numbers of the update (a NaN fails it, and the
    error names its path), the validators when [runValidators] is set,
    then the write; the answer is the updated document, or [None] when
    there is no document with this id. *)
Definition findByIdAndUpdate (runValidators : bool) (t : JS.number)
    (db : database) (id : string) (p : patch)
  : error + (option (ObjectId.t * Invoice.t) * database) :=
  match ObjectId.ofString id with
  | None => inl (CastError "_id" id)
  | Some o =>
      match filter (fun x => is_nan x.2 = true) (numbers p) with
      | (path, _) :: _ => inl (CastError path "NaN")
      | [] =>
          match (if runValidators then validate_patch p else []) with
          | (_ :: _) as paths => inl (ValidationError paths)
          | [] =>
              match invoices db !! o with
              | None => inr (None, db)
              | Some i =>
                  let taken :=
                    match p_invoiceNo p with
                    | Some no =>
                        invoiceNo_taken no (delete o (invoices db))
                    | None => false
                    end in
                  if taken then inl (DuplicateKey "invoiceNo")
                  else
                    let i' := apply_patch t p i in
                    inr (Some (o, i'), with_invoices (insert o i') db)
              end
          end
      end
  end.

(** PUT /:id, for the paths that the body sets. *)
Definition update_invoice (ctx : context) (db : database) (id : string) (p : patch)
  : response content * database :=
  match findByIdAndUpdate true (now ctx) db id p with
  | inl e => (Response 400 (Failure "Error updating invoice" e), db)
  | inr (None, _) => (Response 404 (Message "Invoice not found"), db)
  | inr (Some (o, i), db') => (Response 200 (One (Invoice.toJSON o i)), db')
  end.

(** DELETE /:id *)
Definition delete_invoice (db : database) (id : string)
  : response content * database :=
  match findById (invoices db) id with
  | inl e => (Response 400 (Failure "Error deleting invoice" e), db)
  | inr None => (Response 404 (Message "Invoice not found"), db)
  | inr (Some (o, _)) =>
      (Response 200 (Message "Invoice deleted successfully"),
       with_invoices (delete o) db)
  end.

(** PATCH /:id/status *)
Definition update_status (ctx : context) (db : database) (id : string)
    (status : option string) : response content * database :=
  if negb (truthy status) then
    (Response 400 (Message "Status is required"), db)
  else
    match findByIdAndUpdate false (now ctx) db id (status_patch status) with
    | inl e => (Response 400 (Failure "Error updating invoice status" e), db)
    | inr (None, _) => (Response 404 (Message "Invoice not found"), db)
    | inr (Some (o, i), db') => (Response 200 (One (Invoice.toJSON o i)), db')
    end.

(** PATCH /:id/mark-viewed *)
Definition mark_viewed (ctx : context) (db : database) (id : string)
  : response content * database :=
  match findByIdAndUpdate false (now ctx) db id viewed_patch with
  | inl e => (Response 400 (Failure "Error marking invoice as viewed" e), db)
  | inr (None, _) => (Response 404 (Message "Invoice not found"), db)
  | inr (Some (o, i), db') => (Response 200 (One (Invoice.toJSON o i)), db')
  end.

(** *** POST /:id/payments *)

(** The status that follows from the new cumulative paid amount. *)
Definition payment_status (newPaidAmount total : JS.number) : string :=
  if ge newPaidAmount total then "Paid"
  else if gt newPaidAmount zero then "Partially Paid"
  else "Unpaid".

Definition record_payment (ctx : context) (db : database) (id : string)
    (amount : value) : response content * database :=
  if negb (ToBoolean amount) || isNaN amount || le (ToNumber amount) zero then
    (Response 400 (Message "Valid payment amount is required"), db)
  else
    match findById (invoices db) id with
    | inl e => (Response 400 (Failure "Error recording payment" e), db)
    | inr None => (Response 404 (Message "Invoice not found"), db)
    | inr (Some (_, invoice)) =>
        let newPaidAmount := add (Invoice.paid invoice) (parseFloat amount) in
        let status := payment_status newPaidAmount (Invoice.total invoice) in
        match findByIdAndUpdate false (now ctx) db id
                (payment_patch newPaidAmount status) with
        | inl e => (Response 400 (Failure "Error recording payment" e), db)
        | inr (None, db') => (Response 200 Nothing, db')
        | inr (Some (o, i), db') => (Response 200 (One (Invoice.toJSON o i)), db')
        end
    end.

(** *** What a client observes *)

(** A shown invoice whose [balanceDue] is its [total] minus its [paid]. *)
Definition consistent (j : Invoice.json) : Prop :=
  Invoice.json_balanceDue j =
    sub (Invoice.total (Invoice.doc j)) (Invoice.paid (Invoice.doc j)).

(** The invoices that a response shows. *)
Definition views (c : content) : list Invoice.json :=
  match c with
  | One j => [j]
  | Many l => l
  | Message _ | Failure _ _ | Invalid _ _ | Nothing => []
  end.

(** The responses of the routes of this router on a database. *)
Inductive answer (Date_new : value -> JS.number) (db : database)
  : response content -> Prop :=
| answer_list : answer Date_new db (list_invoices db)
| answer_get id : answer Date_new db (get_invoice db id)
| answer_client id : answer Date_new db (get_client_invoices db id)
| answer_create ctx b : answer Date_new db (create_invoice Date_new ctx db b).1
| answer_update ctx id p : answer Date_new db (update_invoice ctx db id p).1
| answer_delete id : answer Date_new db (delete_invoice db id).1
| answer_status ctx id st : answer Date_new db (update_status ctx db id st).1
| answer_viewed ctx id : answer Date_new db (mark_viewed ctx db id).1
| answer_payment ctx id a : answer Date_new db (record_payment ctx db id a).1.

End Invoices.

(** ** utils/apiResponse.js *)

Module ApiResponse.

(** The envelopes [{success: true, message, data}] and
    [{success: false, message, errors?}]; [errors] is a map from field
    names to messages, in insertion order. *)
Inductive envelope (D : Type) : Type :=
| Success (message : string) (data : D)
| Error (message : string) (errors : option (list (string * string)))
| Thrown (message : string) (e : error).
Arguments Success {D} message data.
Arguments Error {D} message errors.
Arguments Thrown {D} message e.

Definition successResponse {D : Type} (data : D) (message : string) (status : nat)
  : response (envelope D) :=
  Response status (Success message data).

(** [errorResponse(res, message, status)] *)
Definition errorResponse {D : Type} (message : string) (status : nat)
  : response (envelope D) :=
  Response status (Error message None).

(** [errorResponse] with a message that ends in the message of a caught
    error: [`${message}${error.message}`]. *)
Definition errorResponse_of {D : Type} (message : string) (e : error) (status : nat)
  : response (envelope D) :=
  Response status (Thrown message e).

Definition validationErrorResponse {D : Type} (errors : list (string * string))
  : response (envelope D) :=
  Response 422 (Error "Validation Error" (Some errors)).

End ApiResponse.

(** ** routes/cases.js: validation and creation *)

Module Cases.

Import JS ApiResponse.

(** The entries of the arrays of a body after the cast; a property is
    [None] when the entry has none. *)
Record document_input : Type := DocumentInput {
  in_title : option string;
  in_fileUrl : option string;
  in_uploadedAt : option JS.number;
  in_uploadedBy : option ObjectId.t
}.

Record event_input : Type := EventInput {
  in_date : option JS.number;
  in_description : option string;
  in_addedBy : option ObjectId.t
}.

Record note_input : Type := NoteInput {
  in_content : option string;
  in_createdAt : option JS.number;
  in_createdBy : option ObjectId.t
}.

(** The body of a creation request: the six required properties as they
    come, the other properties after the cast.  The arrays are empty
    when the body has none. *)
Record create_body : Type := CreateBody {
  clientName : value;
  clientNo : value;
  caseType : value;
  court : value;
  petitioner : value;
  respondent : value;
  courtNo : option string;
  magistrate : option string;
  nextDate : option JS.number;
  status : option string;
  isImportant : option bool;
  isArchived : option bool;
  assignedTo : option string;
  documents : list document_input;
  body_appointments : list ObjectId.t;
  timeline : list event_input;
  notes : list note_input
}.

(** [if (!v?.trim()) errors[key] = message]: an absent or null [v] stops
    the chain at [undefined]; a string is trimmed; any other value has
    no [trim] method and the call throws. *)
Definition require (v : value) (key message : string)
    (errors : list (string * string)) : throwing (list (string * string)) :=
  match v with
  | Undefined | Null => inr (errors ++ [(key, message)])%list
  | Str s =>
      if String.eqb (trim s) "" then inr (errors ++ [(key, message)])%list
      else inr errors
  | Boolean _ | Num _ => inl TypeError
  end.

Definition validateCaseData (data : create_body)
  : throwing (option (list (string * string))) :=
  let* errors := require (clientName data) "clientName" "Client name is required" [] in
  let* errors := require (clientNo data) "clientNo" "Client number is required" errors in
  let* errors := require (caseType data) "caseType" "Case type is required" errors in
  let* errors := require (court data) "court" "Court is required" errors in
  let* errors := require (petitioner data) "petitioner" "Petitioner is required" errors in
  let* errors := require (respondent data) "respondent" "Respondent is required" errors in
  inr (match errors with [] => None | _ :: _ => Some errors end).

(** The six required properties, by name. *)
Definition fields (data : create_body) : list (string * value) :=
  [("clientName", clientName data); ("clientNo", clientNo data);
   ("caseType", caseType data); ("court", court data);
   ("petitioner", petitioner data); ("respondent", respondent data)].

(** Absent ([undefined] or [null]) or blank after trimming. *)
Definition blank (v : value) : bool :=
  match v with
  | Undefined | Null => true
  | Str s => String.eqb (trim s) ""
  | Boolean _ | Num _ => false
  end.


(** The names of the required properties that are absent or blank. *)
Definition missing_fields (data : create_body) : list string :=
  map fst (filter (fun kv => blank kv.2 = true) (fields data)).

Record context : Type := Context {
  userId : string;
  now : JS.number;
  fresh : ObjectId.t
}.

Definition text (v : value) : string :=
  match v with Str s => s | _ => "" end.

Definition clientNo_taken (no : string) (m : gmap ObjectId.t Case.t) : bool :=
  existsb (fun kv => String.eqb (Case.clientNo kv.2) no) (map_to_list m).

(** The documents that the entries of the body make: [uploadedAt] and
    [createdAt] default to the time of the request; a missing string is
    empty and fails [required]; the other required properties that are
    missing are listed by [missing]. *)
Definition make_document (t : JS.number) (x : document_input) : Case.document :=
  {| Case.doc_title := default "" (in_title x);
     Case.fileUrl := default "" (in_fileUrl x);
     Case.uploadedAt := default t (in_uploadedAt x);
     Case.uploadedBy := default 0%N (in_uploadedBy x) |}.

Definition make_event (x : event_input) : Case.event :=
  {| Case.date := default nan (in_date x);
     Case.event_description := default "" (in_description x);
     Case.addedBy := default 0%N (in_addedBy x) |}.

Definition make_note (t : JS.number) (x : note_input) : Case.note :=
  {| Case.content := default "" (in_content x);
     Case.note_createdAt := default t (in_createdAt x);
     Case.note_createdBy := default 0%N (in_createdBy x) |}.

Definition absent {A : Type} (path : string) (o : option A) : list string :=
  match o with Some _ => [] | None => [path] end.

Definition missing (b : create_body) : list string :=
  (concat (imap (fun k x =>
                   absent ("documents." ++ decimal k ++ ".uploadedBy")
                     (in_uploadedBy x)) (documents b)) ++
   concat (imap (fun k x =>
                   (absent ("timeline." ++ decimal k ++ ".date") (in_date x) ++
                    absent ("timeline." ++ decimal k ++ ".addedBy")
                      (in_addedBy x))%list)
             (timeline b)) ++
   concat (imap (fun k x =>
                   absent ("notes." ++ decimal k ++ ".createdBy") (in_createdBy x))
             (notes b)))%list.

(** [new Case({...req.body, createdBy, assignedTo}).save()]: cast,
    validate, insert.  The validation error names every failing path. *)
Definition save_new (ctx : context) (db : database) (b : create_body)
  : throwing (Case.t * database) :=
  let user := ObjectId.ofString (userId ctx) in
  let assigned :=
    ObjectId.ofString
      (match assignedTo b with
       | Some a => if String.eqb a "" then userId ctx else a
       | None => userId ctx
       end) in
  let d :=
    {| Case.clientNo := text (clientNo b);
       Case.clientName := text (clientName b);
       Case.caseType := text (caseType b);
       Case.court := text (court b);
       Case.courtNo := courtNo b;
       Case.magistrate := magistrate b;
       Case.petitioner := text (petitioner b);
       Case.respondent := text (respondent b);
       Case.nextDate := nextDate b;
       Case.status := default "Pending" (status b);
       Case.isImportant := default false (isImportant b);
       Case.isArchived := default false (isArchived b);
       Case.assignedTo := default 0%N assigned;
       Case.createdBy := default 0%N user;
       Case.documents := map (make_document (now ctx)) (documents b);
       Case.appointments := body_appointments b;
       Case.timeline := map make_event (timeline b);
       Case.notes := map (make_note (now ctx)) (notes b);
       Case.createdAt := now ctx;
       Case.updatedAt := now ctx;
       Case.clientId := None |} in
  match (absent "createdBy" user ++ absent "assignedTo" assigned ++
         missing b ++ Case.validate d)%list with
  | (_ :: _) as paths => inl (ValidationError paths)
  | [] =>
      if clientNo_taken (Case.clientNo d) (cases db) then
        inl (DuplicateKey "clientNo")
      else match cases db !! fresh ctx with
           | Some _ => inl (DuplicateKey "_id")
           | None => inr (d, with_cases (insert (fresh ctx) d) db)
           end
  end.

(** The second [save], after the first timeline entry is set. *)
Definition add_timeline (ctx : context) (u : ObjectId.t) (d : Case.t) : Case.t :=
  {| Case.clientNo := Case.clientNo d; Case.clientName := Case.clientName d;
     Case.caseType := Case.caseType d; Case.court := Case.court d;
     Case.courtNo := Case.courtNo d; Case.magistrate := Case.magistrate d;
     Case.petitioner := Case.petitioner d; Case.respondent := Case.respondent d;
     Case.nextDate := Case.nextDate d; Case.status := Case.status d;
     Case.isImportant := Case.isImportant d; Case.isArchived := Case.isArchived d;
     Case.assignedTo := Case.assignedTo d; Case.createdBy := Case.createdBy d;
     Case.documents := Case.documents d; Case.appointments := Case.appointments d;
     Case.timeline :=
       (Case.timeline d ++
        [{| Case.date := now ctx; Case.event_description := "Case created";
            Case.addedBy := u |}])%list;
     Case.notes := Case.notes d;
     Case.createdAt := Case.createdAt d; Case.updatedAt := now ctx;
     Case.clientId := Case.clientId d |}.

Definition content : Type := envelope (ObjectId.t * Case.t).

(** POST / *)
Definition create_case (ctx : context) (db : database) (b : create_body)
  : response content * database :=
  match validateCaseData b with
  | inl e => (errorResponse_of "Error creating case: " e 400, db)
  | inr (Some errors) => (validationErrorResponse errors, db)
  | inr None =>
      match save_new ctx db b with
      | inl e => (errorResponse_of "Error creating case: " e 400, db)
      | inr (d, db') =>
          let d' := add_timeline ctx (Case.createdBy d) d in
          (successResponse (fresh ctx, d') "Case created successfully" 201,
           with_cases (insert (fresh ctx) d') db')
      end
  end.

End Cases.

(** ** routes/tasks.js: update, delete, toggle *)

Module Tasks.

Inductive content : Type :=
| Message (message : string)
| Failure (message : string) (e : error)
| One (id : ObjectId.t) (t : Task.t)
| Nothing.

(** The identity that the auth middleware takes from the token, and the
    clock. *)
Record context : Type := Context {
  userId : string;
  now : JS.number
}.

(** The body of an update after the cast to the schema types: the paths
    to set.  The nested [relatedTo] is set path by path, as a body does
    with the dotted keys [relatedTo.name] and [relatedTo.caseNumber]; a
    body that gives the key [relatedTo] itself, which replaces the whole
    nested object, is not among these. *)
Record patch : Type := Patch {
  p_title : option string;
  p_description : option string;
  p_dueDate : option JS.number;
  p_startDate : option JS.number;
  p_status : option string;
  p_priority : option string;
  p_completed : option bool;
  p_userId : option ObjectId.t;
  p_relatedTo_name : option string;
  p_relatedTo_caseNumber : option string
}.

Definition validate_patch (p : patch) : list string :=
  Invoices.on Task.validate_title (p_title p) ++
  Invoices.on Task.validate_dueDate (p_dueDate p) ++
  Invoices.on Task.validate_status (p_status p) ++
  Invoices.on Task.validate_priority (p_priority p).

Definition or_else {A : Type} (o : option A) (old : option A) : option A :=
  match o with Some x => Some x | None => old end.

Definition apply_patch (t : JS.number) (p : patch) (d : Task.t) : Task.t :=
  {| Task.title := default (Task.title d) (p_title p);
     Task.description := default (Task.description d) (p_description p);
     Task.dueDate := default (Task.dueDate d) (p_dueDate p);
     Task.startDate := default (Task.startDate d) (p_startDate p);
     Task.status := default (Task.status d) (p_status p);
     Task.priority := default (Task.priority d) (p_priority p);
     Task.completed := default (Task.completed d) (p_completed p);
     Task.userId := default (Task.userId d) (p_userId p);
     Task.relatedTo_name := or_else (p_relatedTo_name p) (Task.relatedTo_name d);
     Task.relatedTo_caseNumber :=
       or_else (p_relatedTo_caseNumber p) (Task.relatedTo_caseNumber d);
     Task.createdAt := Task.createdAt d;
     Task.updatedAt := t |}.

(** [Task.findByIdAndUpdate(id, body, { new: true, runValidators: true })] *)
Definition findByIdAndUpdate (t : JS.number) (db : database) (id : string)
    (p : patch) : throwing (option (ObjectId.t * Task.t) * database) :=
  match ObjectId.ofString id with
  | None => inl (CastError "_id" id)
  | Some o =>
      match validate_patch p with
      | (_ :: _) as paths => inl (ValidationError paths)
      | [] =>
          match tasks db !! o with
          | None => inr (None, db)
          | Some d =>
              let d' := apply_patch t p d in
              inr (Some (o, d'), with_tasks (insert o d') db)
          end
      end
  end.

(** PUT /:id *)
Definition update_task (ctx : context) (db : database) (id : string) (p : patch)
  : response content * database :=
  match findById (tasks db) id with
  | inl e => (Response 400 (Failure "Error updating task" e), db)
  | inr None => (Response 404 (Message "Task not found"), db)
  | inr (Some (_, task)) =>
      if negb (String.eqb (ObjectId.toString (Task.userId task)) (userId ctx)) then
        (Response 403 (Message "Not authorized to update this task"), db)
      else
        match findByIdAndUpdate (now ctx) db id p with
        | inl e => (Response 400 (Failure "Error updating task" e), db)
        | inr (None, db') => (Response 200 Nothing, db')
        | inr (Some (o, d), db') => (Response 200 (One o d), db')
        end
  end.

(** DELETE /:id *)
Definition delete_task (ctx : context) (db : database) (id : string)
  : response content * database :=
  match findById (tasks db) id with
  | inl e => (Response 400 (Failure "Error deleting task" e), db)
  | inr None => (Response 404 (Message "Task not found"), db)
  | inr (Some (o, task)) =>
      if negb (String.eqb (ObjectId.toString (Task.userId task)) (userId ctx)) then
        (Response 403 (Message "Not authorized to delete this task"), db)
      else
        (Response 200 (Message "Task deleted successfully"),
         with_tasks (delete o) db)
  end.

(** The patch that sets nothing. *)
Definition untouched : patch :=
  Patch None None None None None None None None None None.

(** [task.save()] of a loaded document after the toggle: the validators
    of every path of the document, the unmodified ones too, then the
    write with a new [updatedAt]. *)
Definition save (t : JS.number) (db : database) (o : ObjectId.t) (d : Task.t)
  : throwing (Task.t * database) :=
  match Task.validate d with
  | (_ :: _) as paths => inl (ValidationError paths)
  | [] =>
      let d' := apply_patch t untouched d in
      inr (d', with_tasks (insert o d') db)
  end.

(** [task.completed = !task.completed;
     task.status = task.completed ? 'Completed' : 'In Progress'] *)
Definition flip (task : Task.t) : Task.t :=
  let completed := negb (Task.completed task) in
  {| Task.title := Task.title task;
     Task.description := Task.description task;
     Task.dueDate := Task.dueDate task;
     Task.startDate := Task.startDate task;
     Task.status := if completed then "Completed" else "In Progress";
     Task.priority := Task.priority task;
     Task.completed := completed;
     Task.userId := Task.userId task;
     Task.relatedTo_name := Task.relatedTo_name task;
     Task.relatedTo_caseNumber := Task.relatedTo_caseNumber task;
     Task.createdAt := Task.createdAt task;
     Task.updatedAt := Task.updatedAt task |}.

(** PATCH /:id/toggle *)
Definition toggle_task (ctx : context) (db : database) (id : string)
  : response content * database :=
  match findById (tasks db) id with
  | inl e => (Response 400 (Failure "Error toggling task" e), db)
  | inr None => (Response 404 (Message "Task not found"), db)
  | inr (Some (o, task)) =>
      if negb (String.eqb (ObjectId.toString (Task.userId task)) (userId ctx)) then
        (Response 403 (Message "Not authorized to modify this task"), db)
      else
        match save (now ctx) db o (flip task) with
        | inl e => (Response 400 (Failure "Error toggling task" e), db)
        | inr (d, db') => (Response 200 (One o d), db')
        end
  end.

End Tasks.

(** ** routes/clients.js: deletion *)

Module Clients.

Import ApiResponse.

Record context : Type := Context {
  now : JS.number
}.

(** Every answer of the deletion route carries [null] data. *)
Definition content : Type := envelope unit.

Inductive entity : Type := CaseEntity | InvoiceEntity | AppointmentEntity.

Definition entity_name (e : entity) : string :=
  match e with
  | CaseEntity => "cases"
  | InvoiceEntity => "invoices"
  | AppointmentEntity => "appointments"
  end.

Definition advice (e : entity) : string :=
  match e with
  | CaseEntity => "Please remove or reassign all cases first."
  | InvoiceEntity => "Please remove all invoices first."
  | AppointmentEntity => "Please remove all appointments first."
  end.

(** The conflict message of a count check:
    [`Cannot delete client with ${count} related cases. Please ...`]. *)
Definition conflict_message (e : entity) (count : nat) : string :=
  "Cannot delete client with " ++ JS.decimal count ++ " related " ++
  entity_name e ++ ". " ++ advice e.

(** The message of the check on the client's own list of cases. *)
Definition active_cases_message : string :=
  "Cannot delete client with active cases. Please remove or reassign all cases first.".

(** [Case.countDocuments({ clientId: id })]: the Case schema has no such
    path, and the filter reaches the collection as it is. *)
Definition relatedCases (db : database) (id : string) : nat :=
  countWhere
    (fun c => match Case.clientId c with
              | Some s => String.eqb s id
              | None => false
              end) (cases db).

(** [Invoice.countDocuments({ clientId: id })] *)
Definition relatedInvoices (db : database) (o : ObjectId.t) : nat :=
  countWhere (fun i => N.eqb (Invoice.clientId i) o) (invoices db).

(** [Appointment.countDocuments({ clientId: id })] *)
Definition relatedAppointments (db : database) (o : ObjectId.t) : nat :=
  countWhere (fun a => N.eqb (Appointment.clientId a) o) (appointments db).

(** The three counts in the order Case, Invoice, Appointment, and the
    first of them that is not zero. *)
Definition related_counts (db : database) (id : string) (o : ObjectId.t)
  : list (entity * nat) :=
  [(CaseEntity, relatedCases db id);
   (InvoiceEntity, relatedInvoices db o);
   (AppointmentEntity, relatedAppointments db o)].

Definition first_blocker (counts : list (entity * nat)) : option (entity * nat) :=
  List.find (fun en => (0 <? en.2)%nat) counts.

(** Two client documents that agree on every path but [status] and
    [updatedAt]. *)
Definition same_profile (c c' : Client.t) : Prop :=
  Client.name c' = Client.name c /\
  Client.email c' = Client.email c /\
  Client.mobile c' = Client.mobile c /\
  Client.address c' = Client.address c /\
  Client.company c' = Client.company c /\
  Client.notes c' = Client.notes c /\
  Client.cases c' = Client.cases c /\
  Client.createdBy c' = Client.createdBy c /\
  Client.createdAt c' = Client.createdAt c.

(** Two databases that differ at most in the client [o]. *)
Definition same_but_client (o : ObjectId.t) (db db' : database) : Prop :=
  users db' = users db /\
  cases db' = cases db /\
  invoices db' = invoices db /\
  appointments db' = appointments db /\
  tasks db' = tasks db /\
  forall o', o' <> o -> clients db' !! o' = clients db !! o'.

(** [client.save()] after [client.status = false]: when the assignment
    changed the document, the write sets the path and refreshes
    [updatedAt]; otherwise nothing is written. *)
Definition deactivate (t : JS.number) (c : Client.t) : Client.t :=
  if Client.status c then
    {| Client.name := Client.name c; Client.email := Client.email c;
       Client.mobile := Client.mobile c; Client.address := Client.address c;
       Client.company := Client.company c; Client.notes := Client.notes c;
       Client.status := false;
       Client.cases := Client.cases c; Client.createdBy := Client.createdBy c;
       Client.createdAt := Client.createdAt c; Client.updatedAt := t |}
  else c.

(** DELETE /:id, with the query parameter [soft]. *)
Definition delete_client (ctx : context) (db : database) (id : string)
    (soft : option string) : response content * database :=
  if negb (ObjectId.isValid id) then
    (errorResponse "Invalid Client ID" 400, db)
  else
    let softDelete :=
      match soft with Some s => String.eqb s "true" | None => false end in
    match findById (clients db) id with
    | inl _ => (errorResponse "Error deleting client" 400, db)
    | inr None => (errorResponse "Client not found" 404, db)
    | inr (Some (o, client)) =>
        if softDelete then
          (successResponse tt "Client deactivated successfully" 200,
           with_clients (insert o (deactivate (now ctx) client)) db)
        else
          match Client.cases client with
          | _ :: _ => (errorResponse active_cases_message 409, db)
          | [] =>
              let relatedCasesCount := relatedCases db id in
              if (0 <? relatedCasesCount)%nat then
                (errorResponse (conflict_message CaseEntity relatedCasesCount) 409, db)
              else
                let relatedInvoicesCount := relatedInvoices db o in
                if (0 <? relatedInvoicesCount)%nat then
                  (errorResponse
                     (conflict_message InvoiceEntity relatedInvoicesCount) 409, db)
                else
                  let relatedAppointmentsCount := relatedAppointments db o in
                  if (0 <? relatedAppointmentsCount)%nat then
                    (errorResponse
                       (conflict_message AppointmentEntity relatedAppointmentsCount)
                       409, db)
                  else
                    (successResponse tt "Client deleted successfully" 200,
                     with_clients (delete o) db)
          end
    end.

End Clients.

(** ** routes/auth.js: login *)

Module Auth.

Record login_body : Type := LoginBody {
  email : option string;
  password : option string
}.

(** The payload of a token. *)
Record payload : Type := Payload {
  payload_userId : ObjectId.t;
  payload_role : string;
  payload_clientId : option ObjectId.t
}.

Record profile : Type := Profile {
  id : ObjectId.t;
  name : string;
  profile_email : string;
  role : string;
  clientId : option ObjectId.t
}.

Inductive content : Type :=
| Message (message : string)
| Session (token : string) (user : profile).

(** [Model.findOne({ email })] *)
Definition findOne {A : Type} (email_of : A -> string) (e : string)
    (m : gmap ObjectId.t A) : option (ObjectId.t * A) :=
  find (fun kv => String.eqb (email_of kv.2) e) (map_to_list m).

Section WithCrypto.

(** [user.comparePassword(candidate)], on the stored hash, and
    [jwt.sign(payload, secret, { expiresIn: '24h' })]. *)
Variable comparePassword : string -> string -> bool.
Variable sign : payload -> string.

(** POST /login *)
Definition login (db : database) (b : login_body) : response content :=
  if negb (Invoices.truthy (email b)) || negb (Invoices.truthy (password b)) then
    Response 400 (Message "Please enter all fields")
  else
    match findOne User.email (default "" (email b)) (users db) with
    | None => Response 400 (Message "User does not exist")
    | Some (uid, user) =>
        if negb (comparePassword (User.password user) (default "" (password b))) then
          Response 400 (Message "Invalid credentials")
        else
          let checked : response content + option ObjectId.t :=
            if String.eqb (User.role user) "client" then
              match findOne Client.email (User.email user) (clients db) with
              | None => inl (Response 400 (Message "Client account not found"))
              | Some (cid, client) =>
                  if negb (Client.status client) then
                    inl (Response 403
                           (Message "Your account is currently inactive. Please contact support."))
                  else inr (Some cid)
              end
            else inr (User.clientId user) in
          match checked with
          | inl r => r
          | inr clientId =>
              let token :=
                sign {| payload_userId := uid;
                        payload_role := User.role user;
                        payload_clientId := clientId |} in
              Response 200
                (Session token
                   {| id := uid; name := User.name user;
                      profile_email := User.email user;
                      role := User.role user; clientId := clientId |})
          end
    end.

End WithCrypto.

End Auth.

(** ** A small database, for the examples *)

Module Sample.

Import JS.

Definition alice : string := "64b7f0c2a1d3e4f5a6b7c801".
Definition bob : string := "64b7f0c2a1d3e4f5a6b7c802".
Definition alice_id : ObjectId.t := default 0%N (ObjectId.ofString alice).
Definition bob_id : ObjectId.t := default 0%N (ObjectId.ofString bob).

Definition client_key : string := "64b7f0c2a1d3e4f5a6b7c810".
Definition client_id : ObjectId.t := default 0%N (ObjectId.ofString client_key).
Definition invoice_key : string := "64b7f0c2a1d3e4f5a6b7c820".
Definition invoice_id : ObjectId.t := default 0%N (ObjectId.ofString invoice_key).
Definition task_key : string := "64b7f0c2a1d3e4f5a6b7c830".
Definition task_id : ObjectId.t := default 0%N (ObjectId.ofString task_key).
Definition case_id : ObjectId.t :=
  default 0%N (ObjectId.ofString "64b7f0c2a1d3e4f5a6b7c840").
Definition new_id : ObjectId.t :=
  default 0%N (ObjectId.ofString "64b7f0c2a1d3e4f5a6b7c8ff").

(** An invoice of 100 with nothing paid. *)
Definition invoice : Invoice.t :=
  {| Invoice.invoiceNo := "INV-000001";
     Invoice.clientId := client_id;
     Invoice.clientName := "Acme";
     Invoice.issueDate := of_Z 1700000000000;
     Invoice.dueDate := of_Z 1702592000000;
     Invoice.items :=
       [{| Invoice.service := None; Invoice.description := "Consult";
           Invoice.quantity := of_Z 1; Invoice.rate := of_Z 100;
           Invoice.amount := of_Z 100 |}];
     Invoice.subtotal := of_Z 100;
     Invoice.taxRate := zero;
     Invoice.taxAmount := zero;
     Invoice.total := of_Z 100;
     Invoice.paid := zero;
     Invoice.status := "Unpaid";
     Invoice.clientStatus := "Not Viewed";
     Invoice.notes := None;
     Invoice.createdBy := Some alice_id;
     Invoice.createdAt := of_Z 1700000000000;
     Invoice.updatedAt := of_Z 1700000000000 |}.

(** A pending task of Alice. *)
Definition task : Task.t :=
  {| Task.title := "File the brief";
     Task.description := "";
     Task.dueDate := of_Z 1702592000000;
     Task.startDate := of_Z 1700000000000;
     Task.status := "Pending";
     Task.priority := "Medium";
     Task.completed := false;
     Task.userId := alice_id;
     Task.relatedTo_name := None;
     Task.relatedTo_caseNumber := None;
     Task.createdAt := of_Z 1700000000000;
     Task.updatedAt := of_Z 1700000000000 |}.

(** An active client, with the given list of case references. *)
Definition client (cases : list ObjectId.t) : Client.t :=
  {| Client.name := "Acme";
     Client.email := "acme@example.com";
     Client.mobile := None;
     Client.address := None;
     Client.company := None;
     Client.notes := None;
     Client.status := true;
     Client.cases := cases;
     Client.createdBy := Some alice_id;
     Client.createdAt := of_Z 1700000000000;
     Client.updatedAt := of_Z 1700000000000 |}.

(** A user of role client, with the email of the client above. *)
Definition user : User.t :=
  {| User.name := "Acme";
     User.email := "acme@example.com";
     User.password := "hash-of-secret";
     User.role := "client";
     User.phone := None;
     User.clientId := Some client_id |}.

Definition db (cases : list ObjectId.t) : database :=
  {| users := {[ bob_id := user ]};
     clients := {[ client_id := client cases ]};
     cases := ∅;
     invoices := {[ invoice_id := invoice ]};
     appointments := ∅;
     tasks := {[ task_id := task ]} |}.

Definition later : JS.number := of_Z 1700000600000.

(** The same database after the client was deactivated. *)
Definition db_inactive : database :=
  with_clients (insert client_id (Clients.deactivate later (client []))) (db []).

Definition comparePassword (hash candidate : string) : bool :=
  String.eqb hash ("hash-of-" ++ candidate).

Definition sign (p : Auth.payload) : string :=
  "token-of-" ++ ObjectId.toString (Auth.payload_userId p).

(** A date constructor that knows one date. *)
Definition date (v : value) : JS.number :=
  match v with Str "2024-01-05" => of_Z 1704412800000 | _ => nan end.

Definition invoice_body : Invoices.create_body :=
  {| Invoices.clientId := Some client_key;
     Invoices.clientName := Some "Acme";
     Invoices.issueDate := Str "2024-01-05";
     Invoices.dueDate := Str "2024-01-05";
     Invoices.items :=
       Some [Some {| Invoices.in_description := Some "Consult";
                     Invoices.in_quantity := Num (of_Z 2);
                     Invoices.in_rate := Num (of_Z 100);
                     Invoices.in_amount := Num (of_Z 200) |}];
     Invoices.subtotal := Num (of_Z 200);
     Invoices.taxRate := Undefined;
     Invoices.taxAmount := Undefined;
     Invoices.total := Num (of_Z 200);
     Invoices.notes := None |}.

(** A case body with the given client name and a blank client number. *)
Definition case_body (clientName : value) : Cases.create_body :=
  {| Cases.clientName := clientName;
     Cases.clientNo := Str "   ";
     Cases.caseType := Str "Civil";
     Cases.court := Str "High Court";
     Cases.petitioner := Str "A";
     Cases.respondent := Undefined;
     Cases.courtNo := None;
     Cases.magistrate := None;
     Cases.nextDate := None;
     Cases.status := None;
     Cases.isImportant := None;
     Cases.isArchived := None;
     Cases.assignedTo := None;
     Cases.documents := [];
     Cases.body_appointments := [];
     Cases.timeline := [];
     Cases.notes := [] |}.

End Sample.

(** ** What the invoice routes keep *)

Module InvoiceFrames.

(** A document that passes the validators of its schema. *)
Definition schema_valid (i : Invoice.t) : Prop := Invoice.validate i = [].

(** Two invoices that differ at most in [paid], [status] and
    [updatedAt]. *)
Definition same_but_payment (i i' : Invoice.t) : Prop :=
  Invoice.invoiceNo i' = Invoice.invoiceNo i /\
  Invoice.clientId i' = Invoice.clientId i /\
  Invoice.clientName i' = Invoice.clientName i /\
  Invoice.issueDate i' = Invoice.issueDate i /\
  Invoice.dueDate i' = Invoice.dueDate i /\
  Invoice.items i' = Invoice.items i /\
  Invoice.subtotal i' = Invoice.subtotal i /\
  Invoice.taxRate i' = Invoice.taxRate i /\
  Invoice.taxAmount i' = Invoice.taxAmount i /\
  Invoice.total i' = Invoice.total i /\
  Invoice.clientStatus i' = Invoice.clientStatus i /\
  Invoice.notes i' = Invoice.notes i /\
  Invoice.createdBy i' = Invoice.createdBy i /\
  Invoice.createdAt i' = Invoice.createdAt i.

(** Two databases that differ at most in the invoices. *)
Definition same_but_invoices (db db' : database) : Prop :=
  users db' = users db /\ clients db' = clients db /\ cases db' = cases db /\
  appointments db' = appointments db /\ tasks db' = tasks db.

(** The body of a PUT request as it comes: the keys that name paths of
    the schema, which Mongoose puts under [$set] ([paths], after the
    cast), and the names of the update operators among its keys, the
    keys that start with [$]. *)
Record put_body : Type := PutBody {
  paths : Invoices.patch;
  operators : list string
}.

(** PUT /:id with the body as it comes.  The validators of the update
    run on the paths to set; they do not run on what [$inc], [$mul],
    [$min], [$max] and [$rename] change, so that a body with [$inc] on
    [paid] can store an amount below zero.  The result is [None] for a
    body with operators: what MongoDB does with them is not part of
    this model. *)
Definition put_invoice (ctx : Invoices.context) (db : database) (id : string)
    (b : put_body) : option (response Invoices.content * database) :=
  match operators b with
  | [] => Some (Invoices.update_invoice ctx db id (paths b))
  | _ :: _ => None
  end.

End InvoiceFrames.

(** ** routes/tasks.js: list, read, create *)

Module TaskRoutes.

Import JS Tasks.

(** What the list route answers. *)
Inductive listing : Type :=
| Listed (l : list (ObjectId.t * Task.t))
| NotListed (message : string) (e : error).

(** [sort({ dueDate: 1 })] *)
Fixpoint insert_asc (x : ObjectId.t * Task.t) (l : list (ObjectId.t * Task.t))
  : list (ObjectId.t * Task.t) :=
  match l with
  | [] => [x]
  | y :: l' =>
      if JS.le (Task.dueDate x.2) (Task.dueDate y.2)
      then x :: l else y :: insert_asc x l'
  end.

Definition sort_asc (l : list (ObjectId.t * Task.t)) : list (ObjectId.t * Task.t) :=
  foldr insert_asc [] l.

(** GET /: [Task.find({ userId: req.user.userId })], which casts the
    user id of the token to an ObjectId. *)
Definition list_tasks (ctx : context) (db : database) : response listing :=
  match ObjectId.ofString (userId ctx) with
  | None =>
      Response 500 (NotListed "Error fetching tasks"
                      (CastError "userId" (userId ctx)))
  | Some u =>
      Response 200
        (Listed (sort_asc (filter (fun kv => Task.userId kv.2 = u)
                             (map_to_list (tasks db)))))
  end.

(** GET /:id *)
Definition get_task (db : database) (id : string) : response content :=
  match findById (tasks db) id with
  | inl e => Response 500 (Failure "Error fetching task" e)
  | inr None => Response 404 (Message "Task not found")
  | inr (Some (o, task)) => Response 200 (One o task)
  end.

(** The body of a creation request.  [relatedTo] is [None] when the
    property is falsy. *)
Record create_body : Type := CreateBody {
  title : option string;
  description : option string;
  dueDate : value;
  status : option string;
  priority : option string;
  relatedTo : option (option string * option string)
}.

(** [s || d] on an optional string. *)
Definition or_default (s : option string) (d : string) : string :=
  if Invoices.truthy s then default "" s else d.

Section WithDate.

(** [new Date(v).getTime()], NaN when [v] gives no date; and the cast
    of Mongoose to the schema type Date, [None] when it fails. *)
Variable Date_new : value -> JS.number.
Variable Date_cast : value -> option JS.number.

(** [new Task(data).save()]: cast, defaults, validate, insert under the
    id [fresh] that the driver gives to the new document.  A path whose
    cast fails is a failing path of the validation. *)
Definition save_new (ctx : context) (fresh : ObjectId.t) (db : database)
    (b : create_body) : throwing (Task.t * database) :=
  let user := ObjectId.ofString (userId ctx) in
  let due := Date_cast (dueDate b) in
  let related := default (Some "", Some "") (relatedTo b) in
  let task :=
    {| Task.title := default "" (title b);
       Task.description := or_default (description b) "";
       Task.dueDate := default nan due;
       Task.startDate := now ctx;
       Task.status := or_default (status b) "Pending";
       Task.priority := or_default (priority b) "Medium";
       Task.completed := false;
       Task.userId := default 0%N user;
       Task.relatedTo_name := related.1;
       Task.relatedTo_caseNumber := related.2;
       Task.createdAt := now ctx;
       Task.updatedAt := now ctx |} in
  let paths :=
    (Task.validate_title (Task.title task) ++
     match due with
     | Some d => Task.validate_dueDate d
     | None => ["dueDate"]
     end ++
     Task.validate_status (Task.status task) ++
     Task.validate_priority (Task.priority task) ++
     match user with Some _ => [] | None => ["userId"] end)%list in
  match paths with
  | (_ :: _) as paths => inl (ValidationError paths)
  | [] =>
      match tasks db !! fresh with
      | Some _ => inl (DuplicateKey "_id")
      | None => inr (task, with_tasks (insert fresh task) db)
      end
  end.

(** POST / *)
Definition create_task (ctx : context) (fresh : ObjectId.t) (db : database)
    (b : create_body) : response content * database :=
  if String.eqb (userId ctx) "" then
    (Response 400 (Message "User ID not found in token"), db)
  else if negb (Invoices.truthy (title b)) then
    (Response 400 (Message "Title is required"), db)
  else if negb (ToBoolean (dueDate b)) then
    (Response 400 (Message "Due date is required"), db)
  else if is_nan (Date_new (dueDate b)) then
    (Response 400 (Message "Due date is in invalid format"), db)
  else
    match save_new ctx fresh db b with
    | inl e => (Response 400 (Failure "Error saving task to database" e), db)
    | inr (task, db') => (Response 201 (One fresh task), db')
    end.

End WithDate.

(** Two tasks that differ at most in [completed], [status] and
    [updatedAt]. *)
Definition same_but_completion (d d' : Task.t) : Prop :=
  Task.title d' = Task.title d /\
  Task.description d' = Task.description d /\
  Task.dueDate d' = Task.dueDate d /\
  Task.startDate d' = Task.startDate d /\
  Task.priority d' = Task.priority d /\
  Task.userId d' = Task.userId d /\
  Task.relatedTo_name d' = Task.relatedTo_name d /\
  Task.relatedTo_caseNumber d' = Task.relatedTo_caseNumber d /\
  Task.createdAt d' = Task.createdAt d.

(** Two databases that differ at most in the tasks. *)
Definition same_but_tasks (db db' : database) : Prop :=
  users db' = users db /\ clients db' = clients db /\ cases db' = cases db /\
  invoices db' = invoices db /\ appointments db' = appointments db.

End TaskRoutes.

(** ** routes/clients.js: the status of a client *)

Module ClientRoutes.

Import ApiResponse.

(** [{ isApproved, status }] *)
Record status_view : Type := StatusView {
  isApproved : bool;
  status : string
}.

(** GET /status/:id *)
Definition get_status (db : database) (id : string)
  : response (envelope status_view) :=
  if negb (ObjectId.isValid id) then errorResponse "Invalid Client ID" 400
  else
    match findById (clients db) id with
    | inl _ => errorResponse "Error fetching client status" 500
    | inr None => errorResponse "Client not found" 404
    | inr (Some (_, client)) =>
        successResponse
          {| isApproved := Client.status client;
             status := if Client.status client then "active" else "inactive" |}
          "Success" 200
    end.

End ClientRoutes.

(** ** middleware/auth.js *)

Module Middleware.

(** The payload that [jwt.verify] gives back: the properties that the
    middleware and the routes read, each [None] when it is missing. *)
Record claims : Type := Claims {
  userId : option string;
  role : option string
}.

(** What a middleware does with a request: it calls [next], with the
    user it has put on the request, or it answers. *)
Inductive outcome : Type :=
| Next (user : claims)
| Answer (r : response (string * option string)).

(** [s.split(sep)] for a separator of one character. *)
Fixpoint split (sep : ascii) (s : string) : list string :=
  match s with
  | EmptyString => [EmptyString]
  | String c s' =>
      if Ascii.eqb c sep then EmptyString :: split sep s'
      else match split sep s' with
           | x :: l => String c x :: l
           | [] => [String c EmptyString]
           end
  end.

(** A string in which [sep] does not occur. *)
Fixpoint free_of (sep : ascii) (s : string) : bool :=
  match s with
  | EmptyString => true
  | String c s' => negb (Ascii.eqb c sep) && free_of sep s'
  end.

Section WithJwt.

(** [jwt.verify(token, secret)]: the payload, or the message of the
    error it throws. *)
Variable verify : string -> string + claims.

(** [auth]; the header is [None] when the request has none. *)
Definition auth (authHeader : option string) : outcome :=
  match authHeader with
  | None =>
      Answer (Response 401 ("No authentication token, access denied", None))
  | Some h =>
      if negb (Invoices.truthy (Some h)) || negb (String.prefix "Bearer " h) then
        Answer (Response 401 ("No authentication token, access denied", None))
      else
        match nth_error (split " " h) 1 with
        | None | Some EmptyString =>
            Answer (Response 401 ("No authentication token, access denied", None))
        | Some token =>
            match verify token with
            | inl message =>
                Answer (Response 401 ("Token verification failed", Some message))
            | inr verified =>
                if negb (Invoices.truthy (userId verified)) then
                  Answer (Response 401
                            ("Invalid token structure",
                             Some "Token does not contain required userId field"))
                else Next verified
            end
        end
  end.

End WithJwt.

(** [authorize(roles)], after a middleware that has left [user] on the
    request, if any. *)
Definition authorize (roles : list string) (user : option claims) : outcome :=
  match user with
  | None => Answer (Response 401 ("Unauthorized", None))
  | Some u =>
      if negb (Nat.eqb (length roles) 0) &&
         negb (match role u with
               | Some r => existsb (String.eqb r) roles
               | None => false
               end)
      then Answer (Response 403 ("Forbidden - insufficient role", None))
      else Next u
  end.

End Middleware.

(** ** routes/cases.js: update, documents, archive *)

Module CaseRoutes.

Import JS ApiResponse Cases.

#[global] Instance number_eq_dec : EqDecision JS.number.
Proof. solve_decision. Defined.
#[global] Instance document_eq_dec : EqDecision Case.document.
Proof. solve_decision. Defined.
#[global] Instance event_eq_dec : EqDecision Case.event.
Proof. solve_decision. Defined.
#[global] Instance note_eq_dec : EqDecision Case.note.
Proof. solve_decision. Defined.
#[global] Instance case_eq_dec : EqDecision Case.t.
Proof. solve_decision. Defined.

(** [notFoundResponse(res, message)] *)
Definition notFoundResponse {D : Type} (message : string) : response (envelope D) :=
  Response 404 (Error message None).

(** The keys of the rest of the body of an update ([updateData]) that
    name the paths below, after the cast to the schema types: the paths
    to set. *)
Record patch : Type := Patch {
  p_clientNo : option string;
  p_clientName : option string;
  p_caseType : option string;
  p_court : option string;
  p_courtNo : option string;
  p_magistrate : option string;
  p_petitioner : option string;
  p_respondent : option string;
  p_nextDate : option JS.number;
  p_status : option string;
  p_isImportant : option bool;
  p_isArchived : option bool;
  p_assignedTo : option ObjectId.t;
  p_createdBy : option ObjectId.t;
  p_documents : option (list Case.document);
  p_appointments : option (list ObjectId.t)
}.

(** The body of an update.  [timeline] and [notes] are [None] when the
    property is falsy; otherwise they hold the [description] and the
    [content] that the new entry takes from the body, [None] when there
    is none.  [others] lists the keys of the body that are none of
    these and none of the paths of [patch]: [Object.assign] copies them
    onto the document as well, where they may be properties of the
    document itself ([isNew], [_id], [save], ...). *)
Record update_body : Type := UpdateBody {
  timeline : option (option string);
  notes : option (option string);
  updateData : patch;
  others : list string
}.

(** [Object.assign(caseData, updateData)], for the keys of [patch]. *)
Definition assign (p : patch) (d : Case.t) : Case.t :=
  {| Case.clientNo := default (Case.clientNo d) (p_clientNo p);
     Case.clientName := default (Case.clientName d) (p_clientName p);
     Case.caseType := default (Case.caseType d) (p_caseType p);
     Case.court := default (Case.court d) (p_court p);
     Case.courtNo := Tasks.or_else (p_courtNo p) (Case.courtNo d);
     Case.magistrate := Tasks.or_else (p_magistrate p) (Case.magistrate d);
     Case.petitioner := default (Case.petitioner d) (p_petitioner p);
     Case.respondent := default (Case.respondent d) (p_respondent p);
     Case.nextDate := Tasks.or_else (p_nextDate p) (Case.nextDate d);
     Case.status := default (Case.status d) (p_status p);
     Case.isImportant := default (Case.isImportant d) (p_isImportant p);
     Case.isArchived := default (Case.isArchived d) (p_isArchived p);
     Case.assignedTo := default (Case.assignedTo d) (p_assignedTo p);
     Case.createdBy := default (Case.createdBy d) (p_createdBy p);
     Case.documents := default (Case.documents d) (p_documents p);
     Case.appointments := default (Case.appointments d) (p_appointments p);
     Case.timeline := Case.timeline d;
     Case.notes := Case.notes d;
     Case.createdAt := Case.createdAt d;
     Case.updatedAt := Case.updatedAt d;
     Case.clientId := Case.clientId d |}.

Definition with_timeline (l : list Case.event) (d : Case.t) : Case.t :=
  {| Case.clientNo := Case.clientNo d; Case.clientName := Case.clientName d;
     Case.caseType := Case.caseType d; Case.court := Case.court d;
     Case.courtNo := Case.courtNo d; Case.magistrate := Case.magistrate d;
     Case.petitioner := Case.petitioner d; Case.respondent := Case.respondent d;
     Case.nextDate := Case.nextDate d; Case.status := Case.status d;
     Case.isImportant := Case.isImportant d; Case.isArchived := Case.isArchived d;
     Case.assignedTo := Case.assignedTo d; Case.createdBy := Case.createdBy d;
     Case.documents := Case.documents d; Case.appointments := Case.appointments d;
     Case.timeline := l;
     Case.notes := Case.notes d;
     Case.createdAt := Case.createdAt d; Case.updatedAt := Case.updatedAt d;
     Case.clientId := Case.clientId d |}.

Definition with_notes (l : list Case.note) (d : Case.t) : Case.t :=
  {| Case.clientNo := Case.clientNo d; Case.clientName := Case.clientName d;
     Case.caseType := Case.caseType d; Case.court := Case.court d;
     Case.courtNo := Case.courtNo d; Case.magistrate := Case.magistrate d;
     Case.petitioner := Case.petitioner d; Case.respondent := Case.respondent d;
     Case.nextDate := Case.nextDate d; Case.status := Case.status d;
     Case.isImportant := Case.isImportant d; Case.isArchived := Case.isArchived d;
     Case.assignedTo := Case.assignedTo d; Case.createdBy := Case.createdBy d;
     Case.documents := Case.documents d; Case.appointments := Case.appointments d;
     Case.timeline := Case.timeline d;
     Case.notes := l;
     Case.createdAt := Case.createdAt d; Case.updatedAt := Case.updatedAt d;
     Case.clientId := Case.clientId d |}.

Definition with_documents (l : list Case.document) (d : Case.t) : Case.t :=
  {| Case.clientNo := Case.clientNo d; Case.clientName := Case.clientName d;
     Case.caseType := Case.caseType d; Case.court := Case.court d;
     Case.courtNo := Case.courtNo d; Case.magistrate := Case.magistrate d;
     Case.petitioner := Case.petitioner d; Case.respondent := Case.respondent d;
     Case.nextDate := Case.nextDate d; Case.status := Case.status d;
     Case.isImportant := Case.isImportant d; Case.isArchived := Case.isArchived d;
     Case.assignedTo := Case.assignedTo d; Case.createdBy := Case.createdBy d;
     Case.documents := l; Case.appointments := Case.appointments d;
     Case.timeline := Case.timeline d;
     Case.notes := Case.notes d;
     Case.createdAt := Case.createdAt d; Case.updatedAt := Case.updatedAt d;
     Case.clientId := Case.clientId d |}.

Definition with_isArchived (b : bool) (d : Case.t) : Case.t :=
  {| Case.clientNo := Case.clientNo d; Case.clientName := Case.clientName d;
     Case.caseType := Case.caseType d; Case.court := Case.court d;
     Case.courtNo := Case.courtNo d; Case.magistrate := Case.magistrate d;
     Case.petitioner := Case.petitioner d; Case.respondent := Case.respondent d;
     Case.nextDate := Case.nextDate d; Case.status := Case.status d;
     Case.isImportant := Case.isImportant d; Case.isArchived := b;
     Case.assignedTo := Case.assignedTo d; Case.createdBy := Case.createdBy d;
     Case.documents := Case.documents d; Case.appointments := Case.appointments d;
     Case.timeline := Case.timeline d;
     Case.notes := Case.notes d;
     Case.createdAt := Case.createdAt d; Case.updatedAt := Case.updatedAt d;
     Case.clientId := Case.clientId d |}.

Definition with_updatedAt (t : JS.number) (d : Case.t) : Case.t :=
  {| Case.clientNo := Case.clientNo d; Case.clientName := Case.clientName d;
     Case.caseType := Case.caseType d; Case.court := Case.court d;
     Case.courtNo := Case.courtNo d; Case.magistrate := Case.magistrate d;
     Case.petitioner := Case.petitioner d; Case.respondent := Case.respondent d;
     Case.nextDate := Case.nextDate d; Case.status := Case.status d;
     Case.isImportant := Case.isImportant d; Case.isArchived := Case.isArchived d;
     Case.assignedTo := Case.assignedTo d; Case.createdBy := Case.createdBy d;
     Case.documents := Case.documents d; Case.appointments := Case.appointments d;
     Case.timeline := Case.timeline d;
     Case.notes := Case.notes d;
     Case.createdAt := Case.createdAt d; Case.updatedAt := t;
     Case.clientId := Case.clientId d |}.

(** [caseData.save()] of the loaded document [d] of id [o], changed to
    [d']: the validation of the whole document; nothing is written when
    nothing was modified; otherwise the unique index on [clientNo] is
    checked and the document is written with a new [updatedAt]. *)
Definition save (t : JS.number) (db : database) (o : ObjectId.t) (d d' : Case.t)
  : throwing (Case.t * database) :=
  match Case.validate d' with
  | (_ :: _) as paths => inl (ValidationError paths)
  | [] =>
      if decide (d' = d) then inr (d, db)
      else if negb (String.eqb (Case.clientNo d') (Case.clientNo d)) &&
              clientNo_taken (Case.clientNo d') (delete o (cases db))
      then inl (DuplicateKey "clientNo")
      else
        let d'' := with_updatedAt t d' in
        inr (d'', with_cases (insert o d'') db)
  end.

(** The entries that an update pushes; the cast of the user id of the
    token may fail. *)
Definition push_timeline (ctx : context) (entry : option (option string))
    (d : Case.t) : throwing Case.t :=
  match entry with
  | None => inr d
  | Some description =>
      match ObjectId.ofString (userId ctx) with
      | None => inl (ValidationError ["timeline.addedBy"])
      | Some u =>
          inr (with_timeline
                 (Case.timeline d ++
                  [{| Case.date := now ctx;
                      Case.event_description := default "" description;
                      Case.addedBy := u |}])%list d)
      end
  end.

Definition push_note (ctx : context) (entry : option (option string))
    (d : Case.t) : throwing Case.t :=
  match entry with
  | None => inr d
  | Some content =>
      match ObjectId.ofString (userId ctx) with
      | None => inl (ValidationError ["notes.createdBy"])
      | Some u =>
          inr (with_notes
                 (Case.notes d ++
                  [{| Case.content := default "" content;
                      Case.note_createdAt := now ctx;
                      Case.note_createdBy := u |}])%list d)
      end
  end.

(** PUT /:id, for a body without other keys. *)
Definition update_paths (ctx : context) (db : database) (id : string)
    (b : update_body) : response content * database :=
  match findById (cases db) id with
  | inl _ => (errorResponse "Error updating case" 400, db)
  | inr None => (notFoundResponse "Case not found", db)
  | inr (Some (o, caseData)) =>
      match (let* d1 := push_timeline ctx (timeline b) (assign (updateData b) caseData) in
             let* d2 := push_note ctx (notes b) d1 in
             save (now ctx) db o caseData d2) with
      | inl _ => (errorResponse "Error updating case" 400, db)
      | inr (d, db') => (successResponse (o, d) "Case updated successfully" 200, db')
      end
  end.

(** PUT /:id.  The result is [None] for a body with other keys: what
    the assignment of such a key does to the document and to its [save]
    is not part of this model (with [isNew] and a new [_id], [save]
    inserts a second case). *)
Definition update_case (ctx : context) (db : database) (id : string)
    (b : update_body) : option (response content * database) :=
  match others b with
  | [] => Some (update_paths ctx db id b)
  | _ :: _ => None
  end.

(** The body of a new document. *)
Record document_body : Type := DocumentBody {
  title : option string;
  fileUrl : option string
}.

(** POST /:id/documents *)
Definition add_document (ctx : context) (db : database) (id : string)
    (b : document_body) : response content * database :=
  match findById (cases db) id with
  | inl _ => (errorResponse "Error adding document" 400, db)
  | inr None => (notFoundResponse "Case not found", db)
  | inr (Some (o, caseData)) =>
      match ObjectId.ofString (userId ctx) with
      | None => (errorResponse "Error adding document" 400, db)
      | Some u =>
          let d1 :=
            with_documents
              (Case.documents caseData ++
               [{| Case.doc_title := default "" (title b);
                   Case.fileUrl := default "" (fileUrl b);
                   Case.uploadedAt := now ctx;
                   Case.uploadedBy := u |}])%list caseData in
          match save (now ctx) db o caseData d1 with
          | inl _ => (errorResponse "Error adding document" 400, db)
          | inr (d, db') =>
              (successResponse (o, d) "Document added successfully" 200, db')
          end
      end
  end.

(** DELETE /:id: the case is archived, not removed. *)
Definition archive_case (ctx : context) (db : database) (id : string)
  : response (envelope unit) * database :=
  match findById (cases db) id with
  | inl _ => (errorResponse "Error archiving case" 400, db)
  | inr None => (notFoundResponse "Case not found", db)
  | inr (Some (o, caseData)) =>
      match save (now ctx) db o caseData (with_isArchived true caseData) with
      | inl _ => (errorResponse "Error archiving case" 400, db)
      | inr (_, db') => (successResponse tt "Case archived successfully" 200, db')
      end
  end.

(** Two cases that agree on every path but [isArchived] and
    [updatedAt]. *)
Definition same_but_archived (d d' : Case.t) : Prop :=
  with_updatedAt (Case.updatedAt d) (with_isArchived (Case.isArchived d) d') = d.

(** Two databases that differ at most in the cases. *)
Definition same_but_cases (db db' : database) : Prop :=
  users db' = users db /\ clients db' = clients db /\
  invoices db' = invoices db /\ appointments db' = appointments db /\
  tasks db' = tasks db.

End CaseRoutes.

(** ** More documents, for the examples *)

Module Sample2.

Import JS.

Definition second_invoice_key : string := "64b7f0c2a1d3e4f5a6b7c821".
Definition second_invoice_id : ObjectId.t :=
  default 0%N (ObjectId.ofString second_invoice_key).

(** A second invoice, numbered after the first. *)
Definition second_invoice : Invoice.t :=
  {| Invoice.invoiceNo := "INV-000002";
     Invoice.clientId := Sample.client_id;
     Invoice.clientName := "Acme";
     Invoice.issueDate := of_Z 1700000000000;
     Invoice.dueDate := of_Z 1702592000000;
     Invoice.items :=
       [{| Invoice.service := None; Invoice.description := "Brief";
           Invoice.quantity := of_Z 1; Invoice.rate := of_Z 50;
           Invoice.amount := of_Z 50 |}];
     Invoice.subtotal := of_Z 50;
     Invoice.taxRate := zero;
     Invoice.taxAmount := zero;
     Invoice.total := of_Z 50;
     Invoice.paid := zero;
     Invoice.status := "Unpaid";
     Invoice.clientStatus := "Not Viewed";
     Invoice.notes := None;
     Invoice.createdBy := Some Sample.alice_id;
     Invoice.createdAt := of_Z 1700000000000;
     Invoice.updatedAt := of_Z 1700000000000 |}.

(** The sample database with both invoices. *)
Definition db_two : database :=
  with_invoices (insert second_invoice_id second_invoice) (Sample.db []).

Definition invoice_ctx : Invoices.context :=
  Invoices.Context Sample.alice Sample.later Sample.new_id.

(** An update of the total alone, and the body that asks for it. *)
Definition total_patch : Invoices.patch :=
  {| Invoices.p_invoiceNo := None; Invoices.p_clientId := None;
     Invoices.p_clientName := None; Invoices.p_issueDate := None;
     Invoices.p_dueDate := None; Invoices.p_items := None;
     Invoices.p_subtotal := None; Invoices.p_taxRate := None;
     Invoices.p_taxAmount := None; Invoices.p_total := Some (of_Z 150);
     Invoices.p_paid := None; Invoices.p_status := None;
     Invoices.p_clientStatus := None; Invoices.p_notes := None;
     Invoices.p_createdBy := None |}.


(** Mongoose's cast to Date, on the strings of the examples. *)
Definition date_cast (v : value) : option JS.number :=
  match v with Str "2024-01-05" => Some (of_Z 1704412800000) | _ => None end.

Definition task_ctx : Tasks.context := Tasks.Context Sample.alice Sample.later.
Definition other_ctx : Tasks.context := Tasks.Context Sample.bob Sample.later.

Definition task_body : TaskRoutes.create_body :=
  {| TaskRoutes.title := Some "Call the court";
     TaskRoutes.description := None;
     TaskRoutes.dueDate := Str "2024-01-05";
     TaskRoutes.status := None;
     TaskRoutes.priority := Some "High";
     TaskRoutes.relatedTo := None |}.

(** The stored task with a priority that is none of the schema's, and
    the database that holds it in the place of the task. *)
Definition urgent_task : Task.t :=
  {| Task.title := Task.title Sample.task;
     Task.description := Task.description Sample.task;
     Task.dueDate := Task.dueDate Sample.task;
     Task.startDate := Task.startDate Sample.task;
     Task.status := Task.status Sample.task;
     Task.priority := "Urgent";
     Task.completed := Task.completed Sample.task;
     Task.userId := Task.userId Sample.task;
     Task.relatedTo_name := Task.relatedTo_name Sample.task;
     Task.relatedTo_caseNumber := Task.relatedTo_caseNumber Sample.task;
     Task.createdAt := Task.createdAt Sample.task;
     Task.updatedAt := Task.updatedAt Sample.task |}.

Definition db_urgent : database :=
  with_tasks (insert Sample.task_id urgent_task) (Sample.db []).

(** An update that gives the task to the second user. *)
Definition handover : Tasks.patch :=
  Tasks.Patch None None None None None None None (Some Sample.bob_id) None None.

Definition case_key : string := "64b7f0c2a1d3e4f5a6b7c840".

(** A stored case, created by the first user. *)
Definition stored_case : Case.t :=
  {| Case.clientNo := "C-1"; Case.clientName := "Acme";
     Case.caseType := "Civil"; Case.court := "High Court";
     Case.courtNo := None; Case.magistrate := None;
     Case.petitioner := "Acme"; Case.respondent := "Bolt";
     Case.nextDate := None; Case.status := "Pending";
     Case.isImportant := false; Case.isArchived := false;
     Case.assignedTo := Sample.alice_id; Case.createdBy := Sample.alice_id;
     Case.documents := []; Case.appointments := [];
     Case.timeline :=
       [{| Case.date := of_Z 1700000000000;
           Case.event_description := "Case created";
           Case.addedBy := Sample.alice_id |}];
     Case.notes := [];
     Case.createdAt := of_Z 1700000000000;
     Case.updatedAt := of_Z 1700000000000;
     Case.clientId := None |}.

Definition db_case : database :=
  with_cases (insert Sample.case_id stored_case) (Sample.db []).

(** The second user acts on the case. *)
Definition case_ctx : Cases.context :=
  Cases.Context Sample.bob Sample.later Sample.new_id.

Definition no_patch : CaseRoutes.patch :=
  CaseRoutes.Patch None None None None None None None None None None None None
    None None None None.

(** An update that adds a timeline entry and a note. *)
Definition hearing : CaseRoutes.update_body :=
  {| CaseRoutes.timeline := Some (Some "Hearing held");
     CaseRoutes.notes := Some (Some "Adjourned");
     CaseRoutes.updateData := no_patch;
     CaseRoutes.others := [] |}.

Definition brief : CaseRoutes.document_body :=
  {| CaseRoutes.title := Some "Brief";
     CaseRoutes.fileUrl := Some "https://files.example/brief.pdf" |}.

(** A complete body for a new case. *)
Definition new_case_body : Cases.create_body :=
  {| Cases.clientName := Str "Acme";
     Cases.clientNo := Str "C-2";
     Cases.caseType := Str "Civil";
     Cases.court := Str "High Court";
     Cases.petitioner := Str "Acme";
     Cases.respondent := Str "Bolt";
     Cases.courtNo := None;
     Cases.magistrate := None;
     Cases.nextDate := None;
     Cases.status := None;
     Cases.isImportant := None;
     Cases.isArchived := None;
     Cases.assignedTo := None;
     Cases.documents := [];
     Cases.body_appointments := [];
     Cases.timeline := [];
     Cases.notes := [] |}.

(** The same body with the number of the stored case. *)
Definition same_number_body : Cases.create_body :=
  {| Cases.clientName := Str "Acme";
     Cases.clientNo := Str "C-1";
     Cases.caseType := Str "Civil";
     Cases.court := Str "High Court";
     Cases.petitioner := Str "Acme";
     Cases.respondent := Str "Bolt";
     Cases.courtNo := None;
     Cases.magistrate := None;
     Cases.nextDate := None;
     Cases.status := None;
     Cases.isImportant := None;
     Cases.isArchived := None;
     Cases.assignedTo := None;
     Cases.documents := [];
     Cases.body_appointments := [];
     Cases.timeline := [];
     Cases.notes := [] |}.

End Sample2.

(** * Properties *)

(** ** Numbers *)

Module NumberFacts.
Import JS.

(** The conversions on a few strings, as a JavaScript engine gives them. *)

Example number_of_hex_string : ToNumber (Str "0x10") = of_Z 16.
Proof. reflexivity. Qed.

Example parseFloat_of_hex_string : parseFloat (Str "0x10") = zero.
Proof. reflexivity. Qed.

Example number_of_decimal_string : ToNumber (Str " 12.5e1 ") = of_Z 125.
Proof. reflexivity. Qed.

Example parseFloat_reads_a_prefix :
  parseFloat (Str "12.5 euros") = ToNumber (Str "12.5") /\
  isNaN (Str "12.5 euros") = true.
Proof. split; reflexivity. Qed.

Example number_of_blank_string : ToNumber (Str "  ") = zero.
Proof. reflexivity. Qed.

Example parseFloat_of_true : is_nan (parseFloat (Boolean true)) = true.
Proof. reflexivity. Qed.

Example tenth_plus_fifth :
  add (ToNumber (Str "0.1")) (ToNumber (Str "0.2")) =
    ToNumber (Str "0.30000000000000004") /\
  JS.eq (add (ToNumber (Str "0.1")) (ToNumber (Str "0.2"))) (ToNumber (Str "0.3")) = false.
Proof. split; vm_compute; reflexivity. Qed.

Example trim_spaces : trim "  a b  " = "a b".
Proof. reflexivity. Qed.

(** *** Rounding keeps a positive sum positive *)

Lemma digits2_pos_size (m : positive) : digits2_pos m = Pos.size m.
Proof. induction m as [m IH|m IH|]; simpl; congruence. Qed.

Lemma digits_log2 (m : positive) : (Zpos (digits2_pos m) = Z.log2 (Zpos m) + 1)%Z.
Proof.
  rewrite digits2_pos_size.
  destruct m as [m|m|]; simpl; try reflexivity; lia.
Qed.

Lemma shr_1_div2 (mrs : shr_record) :
  (0 <= shr_m mrs)%Z -> shr_m (shr_1 mrs) = Z.div2 (shr_m mrs).
Proof.
  destruct mrs as [m r s]; simpl.
  destruct m as [|[p|p|]|p]; simpl; intros H; try reflexivity; lia.
Qed.

Lemma shr_1_nonneg (mrs : shr_record) :
  (0 <= shr_m mrs)%Z -> (0 <= shr_m (shr_1 mrs))%Z.
Proof.
  intros H. rewrite shr_1_div2 by exact H. rewrite Z.div2_nonneg. exact H.
Qed.

Lemma iter_shr_1 (p : positive) : forall mrs,
  (0 <= shr_m mrs)%Z ->
  shr_m (SpecFloat.iter_pos shr_1 p mrs) = Z.shiftr (shr_m mrs) (Zpos p).
Proof.
  induction p as [p IH|p IH|]; intros mrs H; simpl.
  - assert (H1 : (0 <= shr_m (shr_1 mrs))%Z) by (apply shr_1_nonneg; exact H).
    assert (H2 : (0 <= shr_m (SpecFloat.iter_pos shr_1 p (shr_1 mrs)))%Z).
    { rewrite IH by exact H1. apply Z.shiftr_nonneg. exact H1. }
    rewrite IH by exact H2. rewrite IH by exact H1.
    rewrite shr_1_div2 by exact H.
    rewrite Z.div2_spec.
    rewrite !Z.shiftr_shiftr by lia.
    f_equal. lia.
  - assert (H2 : (0 <= shr_m (SpecFloat.iter_pos shr_1 p mrs))%Z).
    { rewrite IH by exact H. apply Z.shiftr_nonneg. exact H. }
    rewrite IH by exact H2. rewrite IH by exact H.
    rewrite Z.shiftr_shiftr by lia. f_equal. lia.
  - rewrite shr_1_div2 by exact H. apply Z.div2_spec.
Qed.


Lemma gt_zero_positive (x : number) : gt x zero = positive_number x.
Proof. destruct x as [[]|[]| |[] m e]; reflexivity. Qed.

Lemma lt_zero_gt (x : number) : lt zero x = gt x zero.
Proof. destruct x as [[]|[]| |[] m e]; reflexivity. Qed.

Lemma positive_not_nan (x : number) : positive_number x = true -> is_nan x = false.
Proof. destruct x as [[]|[]| |[] m e]; cbn; intros H; first [reflexivity | discriminate H]. Qed.

Lemma positive_not_zero (x : number) : positive_number x = true -> JS.eq x zero = false.
Proof. destruct x as [[]|[]| |[] m e]; cbn; intros H; first [reflexivity | discriminate H]. Qed.

Local Abbreviation emin := (SpecFloat.emin prec emax).

Lemma shr_record_of_loc_m (m : Z) (l : location) : shr_m (shr_record_of_loc m l) = m.
Proof. destruct l as [|[]]; reflexivity. Qed.

(** Rounding a positive mantissa whose exponent is not below [emin]
    never shifts all of its digits out. *)
Lemma shr_fexp_positive (m : positive) (e : Z) (l : location) :
  (emin <= e)%Z ->
  exists mrs e' m',
    shr_fexp prec emax (Zpos m) e l = (mrs, e') /\
    shr_m mrs = Zpos m' /\ (emin <= e')%Z.
Proof.
  intros He. unfold shr_fexp, shr.
  pose proof (digits_log2 m) as Hd.
  pose proof (Z.log2_nonneg (Zpos m)) as Hl.
  destruct (fexp prec emax (Zdigits2 (Zpos m) + e) - e)%Z as [|p|p] eqn:Hn.
  - exists (shr_record_of_loc (Zpos m) l), e, m.
    rewrite shr_record_of_loc_m. auto.
  - assert (Hs : (0 <= shr_m (shr_record_of_loc (Zpos m) l))%Z)
      by (rewrite shr_record_of_loc_m; lia).
    pose proof (iter_shr_1 p _ Hs) as Hi.
    rewrite shr_record_of_loc_m in Hi.
    assert (Hp : (Zpos p <= Z.log2 (Zpos m))%Z).
    { revert Hn. unfold fexp, SpecFloat.emin, Zdigits2 in *.
      unfold prec, emax in *. lia. }
    assert (Hnz : Z.shiftr (Zpos m) (Zpos p) <> 0%Z).
    { rewrite Z.shiftr_eq_0_iff. intros [H|[_ H]]; [discriminate|lia]. }
    assert (Hnn : (0 <= Z.shiftr (Zpos m) (Zpos p))%Z)
      by (apply Z.shiftr_nonneg; lia).
    destruct (Z.shiftr (Zpos m) (Zpos p)) as [|q|q] eqn:Hq; try lia.
    exists (SpecFloat.iter_pos shr_1 p (shr_record_of_loc (Zpos m) l)), (e + Zpos p)%Z, q.
    repeat split; [exact Hi|lia].
  - exists (shr_record_of_loc (Zpos m) l), e, m.
    rewrite shr_record_of_loc_m. auto.
Qed.

Lemma round_nearest_even_positive (m : positive) (l : location) :
  exists m', round_nearest_even (Zpos m) l = Zpos m'.
Proof.
  destruct l as [|[]]; simpl; eauto.
  destruct m; simpl; eauto.
Qed.

Lemma binary_round_aux_positive (m : positive) (e : Z) (l : location) :
  (emin <= e)%Z ->
  positive_number (binary_round_aux prec emax false (Zpos m) e l) = true.
Proof.
  intros He. unfold binary_round_aux.
  destruct (shr_fexp_positive m e l He) as (mrs & e' & m' & -> & -> & He').
  destruct (round_nearest_even_positive m' (loc_of_shr_record mrs)) as (m2 & ->).
  destruct (shr_fexp_positive m2 e' loc_Exact He') as (mrs2 & e2 & m3 & -> & -> & _).
  destruct (e2 <=? emax - prec)%Z; reflexivity.
Qed.

Lemma binary_round_positive (m : positive) (e : Z) :
  (emin <= e)%Z -> positive_number (binary_round prec emax false m e) = true.
Proof.
  intros He. unfold binary_round, shl_align.
  destruct (fexp prec emax (Zpos (digits2_pos m) + e) - e)%Z eqn:Hn;
    apply binary_round_aux_positive; try exact He.
  unfold fexp. lia.
Qed.

Lemma valid_exponent (s : bool) (m : positive) (e : Z) :
  valid (S754_finite s m e) = true -> (emin <= e)%Z.
Proof.
  unfold valid, valid_binary, bounded, canonical_mantissa.
  rewrite andb_true_iff, Z.eqb_eq. unfold fexp. lia.
Qed.

(** The sum of a number that is not negative and a positive number is
    positive: no rounding brings it down to zero. *)
Lemma add_positive (p a : number) :
  valid p = true -> valid a = true ->
  ge p zero = true -> gt a zero = true ->
  gt (add p a) zero = true.
Proof.
  rewrite !gt_zero_positive.
  intros Vp Va Hp Ha.
  destruct a as [sa|[]| |[] ma ea]; try discriminate Ha;
    destruct p as [sp|[]| |[] mp ep]; try discriminate Hp;
    try reflexivity.
  unfold add, SFadd, binary_normalize. simpl cond_Zopp.
  apply valid_exponent in Vp, Va.
  apply binary_round_positive. lia.
Qed.

End NumberFacts.

Module InvoiceFacts.
Import JS Invoices NumberFacts.

Lemma amount_accepted (a : number) :
  gt a zero = true ->
  negb (ToBoolean (Num a)) || isNaN (Num a) || le (ToNumber (Num a)) zero = false.
Proof.
  rewrite gt_zero_positive.
  destruct a as [[]|[]| |[] m e]; cbn; intros H; first [reflexivity | discriminate H].
Qed.

Lemma parseFloat_number (a : number) :
  gt a zero = true -> parseFloat (Num a) = a.
Proof.
  rewrite gt_zero_positive.
  destruct a as [[]|[]| |[] m e]; cbn; intros H; first [reflexivity | discriminate H].
Qed.

(** What the payment route does once the amount is accepted and the
    invoice is found, for a new paid amount that is a number. *)
Lemma record_payment_found (ctx : context) (db : database) (id : string)
    (o : ObjectId.t) (inv : Invoice.t) (amount : value) :
  negb (ToBoolean amount) || isNaN amount || le (ToNumber amount) zero = false ->
  ObjectId.ofString id = Some o ->
  invoices db !! o = Some inv ->
  is_nan (add (Invoice.paid inv) (parseFloat amount)) = false ->
  let newPaidAmount := add (Invoice.paid inv) (parseFloat amount) in
  let inv' :=
    apply_patch (now ctx)
      (payment_patch newPaidAmount (payment_status newPaidAmount (Invoice.total inv)))
      inv in
  record_payment ctx db id amount =
    (Response 200 (One (Invoice.toJSON o inv')),
     with_invoices (insert o inv') db).
Proof.
  intros Hok Hid Hinv Hnan. cbv zeta.
  unfold record_payment. rewrite Hok.
  unfold findById. rewrite Hid, Hinv.
  unfold findByIdAndUpdate. rewrite Hid. cbn [omap p_subtotal p_taxRate p_taxAmount p_total p_paid].
  cbn. rewrite Hnan. rewrite Hinv. reflexivity.
Qed.

(** C1: a payment of a positive number [a] on an invoice with paid
    amount [p] and total [t] is answered with the updated invoice, whose
    paid amount is [p + a] and whose status is "Paid" if [p + a >= t],
    "Partially Paid" if [0 < p + a < t] and "Unpaid" if [p + a == 0]. *)
Theorem record_payment_paid_and_status (ctx : context) (db : database)
    (id : string) (o : ObjectId.t) (inv : Invoice.t) (a : number) :
  ObjectId.ofString id = Some o ->
  invoices db !! o = Some inv ->
  valid (Invoice.paid inv) = true -> ge (Invoice.paid inv) zero = true ->
  valid a = true -> gt a zero = true ->
  let p := Invoice.paid inv in
  let t := Invoice.total inv in
  exists inv',
    record_payment ctx db id (Num a) =
      (Response 200 (One (Invoice.toJSON o inv')),
       with_invoices (insert o inv') db) /\
    Invoice.paid inv' = add p a /\
    Invoice.total inv' = t /\
    (ge (add p a) t = true -> Invoice.status inv' = "Paid") /\
    (lt zero (add p a) = true -> lt (add p a) t = true ->
     Invoice.status inv' = "Partially Paid") /\
    (JS.eq (add p a) zero = true -> Invoice.status inv' = "Unpaid").
Proof.
  intros Hid Hinv Vp Hp Va Ha p t.
  pose proof (add_positive _ _ Vp Va Hp Ha) as Hpos. fold p in Hpos.
  pose proof (record_payment_found ctx db id o inv (Num a)
                (amount_accepted a Ha) Hid Hinv) as Hrun.
  rewrite (parseFloat_number a Ha) in Hrun. fold p t in Hrun.
  eexists. split.
  - apply Hrun. apply positive_not_nan. rewrite <- gt_zero_positive. exact Hpos.
  - cbn [apply_patch payment_patch Invoice.paid Invoice.total Invoice.status
           p_paid p_total p_status default from_option].
    repeat split.
    + unfold payment_status. intros ->. reflexivity.
    + unfold payment_status, lt, ge. intros _ Hlt. rewrite Hpos.
      destruct (SFcompare (add p a) t) as [[]|]; first [discriminate Hlt | reflexivity].
    + intros Hz. rewrite positive_not_zero in Hz; [discriminate Hz|].
      rewrite <- gt_zero_positive. exact Hpos.
Qed.

Lemma record_payment_paid_and_status_witness :
  ObjectId.ofString Sample.invoice_key = Some Sample.invoice_id /\
  invoices (Sample.db []) !! Sample.invoice_id = Some Sample.invoice /\
  gt (of_Z 40) zero = true /\
  exists inv',
    record_payment (Context Sample.alice Sample.later Sample.new_id)
      (Sample.db []) Sample.invoice_key (Num (of_Z 40)) =
      (Response 200 (One (Invoice.toJSON Sample.invoice_id inv')),
       with_invoices (insert Sample.invoice_id inv') (Sample.db [])) /\
    Invoice.paid inv' = add zero (of_Z 40) /\
    Invoice.total inv' = of_Z 100 /\
    (ge (add zero (of_Z 40)) (of_Z 100) = true -> Invoice.status inv' = "Paid") /\
    (lt zero (add zero (of_Z 40)) = true ->
     lt (add zero (of_Z 40)) (of_Z 100) = true ->
     Invoice.status inv' = "Partially Paid") /\
    (JS.eq (add zero (of_Z 40)) zero = true -> Invoice.status inv' = "Unpaid").
Proof.
  split; [reflexivity|]. split; [reflexivity|]. split; [reflexivity|].
  apply (record_payment_paid_and_status
           (Context Sample.alice Sample.later Sample.new_id)
           (Sample.db []) Sample.invoice_key Sample.invoice_id Sample.invoice
           (of_Z 40)); reflexivity.
Defined.

(** A payment of a positive number never leaves the invoice "Unpaid". *)
Lemma record_payment_number_not_unpaid (ctx : context) (db : database)
    (id : string) (o : ObjectId.t) (inv : Invoice.t) (a : number) :
  ObjectId.ofString id = Some o ->
  invoices db !! o = Some inv ->
  valid (Invoice.paid inv) = true -> ge (Invoice.paid inv) zero = true ->
  valid a = true -> gt a zero = true ->
  forall j, (record_payment ctx db id (Num a)).1 = Response 200 (One j) ->
            Invoice.status (Invoice.doc j) <> "Unpaid".
Proof.
  intros Hid Hinv Vp Hp Va Ha j.
  pose proof (add_positive _ _ Vp Va Hp Ha) as Hpos.
  pose proof (record_payment_found ctx db id o inv (Num a)
                (amount_accepted a Ha) Hid Hinv) as Hrun.
  rewrite (parseFloat_number a Ha) in Hrun.
  rewrite Hrun by (apply positive_not_nan; rewrite <- gt_zero_positive; exact Hpos).
  cbv zeta. cbn [fst]. intros Hj. injection Hj as <-.
  cbn [Invoice.toJSON Invoice.doc apply_patch payment_patch Invoice.status
         p_status default from_option].
  unfold payment_status. rewrite Hpos.
  unfold Datatypes.id.
  destruct (ge (add (Invoice.paid inv) a) (Invoice.total inv)); intros H. all: discriminate H.
Qed.

(** C9: the amount "0x10" passes the validation of the payment route
    ([Number("0x10")] is 16) and adds [parseFloat("0x10")], which is 0:
    the invoice of 100 with nothing paid is answered with status
    "Unpaid" and still nothing paid. *)
Theorem record_payment_hex_amount_unpaid :
  negb (ToBoolean (Str "0x10")) || isNaN (Str "0x10")
    || le (ToNumber (Str "0x10")) zero = false /\
  ToNumber (Str "0x10") = of_Z 16 /\
  parseFloat (Str "0x10") = zero /\
  exists j,
    (record_payment (Context Sample.alice Sample.later Sample.new_id)
       (Sample.db []) Sample.invoice_key (Str "0x10")).1 =
      Response 200 (One j) /\
    Invoice.status (Invoice.doc j) = "Unpaid" /\
    Invoice.paid (Invoice.doc j) = zero.
Proof.
  split; [reflexivity|]. split; [reflexivity|]. split; [reflexivity|].
  eexists. split; [vm_compute; reflexivity|]. split; reflexivity.
Qed.

(** *** The balance due *)

Lemma toJSON_consistent (o : ObjectId.t) (i : Invoice.t) :
  consistent (Invoice.toJSON o i).
Proof. reflexivity. Qed.

Lemma all_json_consistent (m : gmap ObjectId.t Invoice.t) :
  Forall consistent (all_json m).
Proof.
  unfold all_json. apply Forall_map, Forall_forall.
  intros kv _. apply toJSON_consistent.
Qed.

Lemma insert_desc_consistent (j : Invoice.json) (l : list Invoice.json) :
  consistent j -> Forall consistent l -> Forall consistent (insert_desc j l).
Proof.
  intros Hj Hl. induction Hl as [|k l Hk Hl IH]; simpl.
  - constructor; [exact Hj|constructor].
  - destruct (ge _ _); repeat constructor; assumption.
Qed.

Lemma sort_desc_consistent (l : list Invoice.json) :
  Forall consistent l -> Forall consistent (sort_desc l).
Proof.
  intros Hl. induction Hl as [|k l Hk Hl IH]; simpl.
  - constructor.
  - apply insert_desc_consistent; assumption.
Qed.

Lemma create_catch_views (e : error) : views (body (create_catch e)) = [].
Proof. destruct e; reflexivity. Qed.

Lemma save_new_id (Date_new : value -> number) (ctx : context) (db : database)
    (no : string) (b : create_body) (l : list (option item_input))
    (d : Invoice.t) (db' : database) :
  save_new Date_new ctx db no b l = inr (d, db') ->
  Invoice.invoiceNo d = no /\
  invoices db !! fresh ctx = None /\
  db' = with_invoices (insert (fresh ctx) d) db.
Proof.
  unfold save_new. intros H.
  repeat case_match; try discriminate H.
  injection H as <- <-. auto.
Qed.

Ltac shown :=
  cbn [fst body views];
  first [ constructor; fail
        | constructor; [apply toJSON_consistent|constructor] ].

(** C2: every invoice that a response of the invoice routes shows has a
    [balanceDue] equal to its [total] minus its [paid]. *)
Theorem balanceDue_is_total_minus_paid (Date_new : value -> number)
    (db : database) (r : response content) :
  answer Date_new db r ->
  forall j, j ∈ views (body r) ->
    Invoice.json_balanceDue j =
      sub (Invoice.total (Invoice.doc j)) (Invoice.paid (Invoice.doc j)).
Proof.
  intros Hr. apply Forall_forall. change (Forall consistent (views (body r))).
  revert Hr.
  intros [ | id | id | ctx b | ctx id p | id | ctx id st | ctx id | ctx id a ].
  - apply all_json_consistent.
  - unfold get_invoice. repeat case_match; shown.
  - unfold get_client_invoices. case_match; [|shown].
    cbn [body views]. apply sort_desc_consistent.
    apply Forall_forall. intros j Hj.
    apply list_elem_of_filter in Hj as [_ Hj].
    revert j Hj. apply Forall_forall, all_json_consistent.
  - unfold create_invoice.
    repeat case_match; try shown;
      cbn [fst]; rewrite ?create_catch_views; constructor.
  - unfold update_invoice. repeat case_match; shown.
  - unfold delete_invoice. repeat case_match; shown.
  - unfold update_status. repeat case_match; shown.
  - unfold mark_viewed. repeat case_match; shown.
  - unfold record_payment. repeat case_match; shown.
Qed.

Lemma balanceDue_is_total_minus_paid_witness :
  Invoice.json_balanceDue (Invoice.toJSON Sample.invoice_id Sample.invoice) =
    sub (Invoice.total Sample.invoice) (Invoice.paid Sample.invoice).
Proof.
  apply (balanceDue_is_total_minus_paid Sample.date (Sample.db [])
           (get_invoice (Sample.db []) Sample.invoice_key)).
  - apply answer_get.
  - vm_compute. left.
Defined.

Example balanceDue_after_payment :
  exists j,
    (record_payment (Context Sample.alice Sample.later Sample.new_id)
       (Sample.db []) Sample.invoice_key (Num (of_Z 40))).1 = Response 200 (One j) /\
    Invoice.json_balanceDue j = of_Z 60.
Proof. eexists. split; vm_compute; reflexivity. Qed.

(** *** The invoice number *)

Lemma create_catch_code (e : error) : code (create_catch e) = 400.
Proof. destruct e; reflexivity. Qed.

Example invoiceNo_first : invoiceNo_of 0 = "INV-000001".
Proof. reflexivity. Qed.

(** Padding never shortens: a seventh digit stays. *)
Example padStart_wide : padStart 6 "0" "1234567" = "1234567".
Proof. reflexivity. Qed.

(** The digits of [decimal n] read back as [n]. *)
Lemma decimal_reads_back (n : nat) :
  option_map Nat.of_uint (NilEmpty.uint_of_string (decimal n)) = Some n.
Proof.
  unfold decimal. rewrite NilEmpty.usu. simpl. f_equal.
  apply DecimalNat.Unsigned.of_to.
Qed.

(** C7: a creation that succeeds (201) while [n] invoices are stored
    answers with, and stores, an invoice whose number is "INV-" followed
    by the decimal digits of [n + 1] padded on the left with zeros to
    six characters. *)
Theorem create_invoice_number (Date_new : value -> number) (ctx : context)
    (db : database) (b : create_body) :
  code (create_invoice Date_new ctx db b).1 = 201 ->
  exists j,
    body (create_invoice Date_new ctx db b).1 = One j /\
    Invoice.invoiceNo (Invoice.doc j) =
      "INV-" ++ padStart 6 "0" (decimal (size (invoices db) + 1)) /\
    invoices (create_invoice Date_new ctx db b).2 !! Invoice._id j =
      Some (Invoice.doc j).
Proof.
  unfold create_invoice.
  repeat case_match; cbn [fst snd code body];
    rewrite ?create_catch_code; intros Hcode; try discriminate Hcode.
  match goal with H : save_new _ _ _ _ _ _ = inr _ |- _ =>
    apply save_new_id in H as (Hno & _ & ->) end.
  eexists. split; [reflexivity|].
  cbn [Invoice.toJSON Invoice.doc Invoice._id]. split.
  - rewrite Hno. reflexivity.
  - cbn [with_invoices invoices]. apply lookup_insert_eq.
Qed.

Lemma create_invoice_number_witness :
  code (create_invoice Sample.date
          (Context Sample.alice Sample.later Sample.new_id)
          (Sample.db []) Sample.invoice_body).1 = 201 /\
  exists j,
    body (create_invoice Sample.date
            (Context Sample.alice Sample.later Sample.new_id)
            (Sample.db []) Sample.invoice_body).1 = One j /\
    Invoice.invoiceNo (Invoice.doc j) =
      "INV-" ++ padStart 6 "0" (decimal (size (invoices (Sample.db [])) + 1)) /\
    invoices (create_invoice Sample.date
                (Context Sample.alice Sample.later Sample.new_id)
                (Sample.db []) Sample.invoice_body).2 !! Invoice._id j =
      Some (Invoice.doc j).
Proof.
  split; [vm_compute; reflexivity|].
  apply (create_invoice_number Sample.date
           (Context Sample.alice Sample.later Sample.new_id)
           (Sample.db []) Sample.invoice_body).
  vm_compute. reflexivity.
Defined.

Example create_invoice_second :
  exists j,
    body (create_invoice Sample.date
            (Context Sample.alice Sample.later Sample.new_id)
            (Sample.db []) Sample.invoice_body).1 = One j /\
    Invoice.invoiceNo (Invoice.doc j) = "INV-000002".
Proof. eexists. split; vm_compute; reflexivity. Qed.

End InvoiceFacts.

Module CaseFacts.
Import JS ApiResponse Cases.



(** A creation that is not answered 201 stores nothing. *)
Lemma create_case_failure_stores_nothing (ctx : context) (db : database)
    (b : create_body) :
  code (create_case ctx db b).1 <> 201 -> (create_case ctx db b).2 = db.
Proof.
  unfold create_case. repeat case_match; cbn [fst snd code]; try reflexivity.
  intros Hcode. exfalso. apply Hcode. reflexivity.
Qed.


Example create_case_blank_keys :
  missing_fields (Sample.case_body (Str "Acme")) = ["clientNo"; "respondent"].
Proof. reflexivity. Qed.



End CaseFacts.

Module TaskFacts.
Import Tasks.

Lemma findById_found {A : Type} (m : gmap ObjectId.t A) (id : string)
    (o : ObjectId.t) (d : A) :
  ObjectId.ofString id = Some o -> m !! o = Some d ->
  findById m id = inr (Some (o, d)).
Proof. intros Hid Hd. unfold findById. rewrite Hid, Hd. reflexivity. Qed.

Lemma not_owner (task : Task.t) (caller : string) :
  caller <> ObjectId.toString (Task.userId task) ->
  negb (String.eqb (ObjectId.toString (Task.userId task)) caller) = true.
Proof.
  intros H. apply negb_true_iff, String.eqb_neq. congruence.
Qed.

(** C4: for a task and a caller whose user id is not that of the task's
    owner, update, delete and toggle are each answered 403 and leave the
    database as it was. *)
Theorem not_owner_is_forbidden (ctx : context) (db : database) (id : string)
    (o : ObjectId.t) (task : Task.t) (p : patch) :
  ObjectId.ofString id = Some o ->
  tasks db !! o = Some task ->
  userId ctx <> ObjectId.toString (Task.userId task) ->
  update_task ctx db id p =
    (Response 403 (Message "Not authorized to update this task"), db) /\
  delete_task ctx db id =
    (Response 403 (Message "Not authorized to delete this task"), db) /\
  toggle_task ctx db id =
    (Response 403 (Message "Not authorized to modify this task"), db).
Proof.
  intros Hid Htask Hother.
  unfold update_task, delete_task, toggle_task.
  rewrite (findById_found _ _ _ _ Hid Htask).
  rewrite (not_owner _ _ Hother). auto.
Qed.

Lemma not_owner_is_forbidden_witness :
  update_task (Context Sample.bob Sample.later) (Sample.db []) Sample.task_key
    (Patch (Some "Mine now") None None None None None None None None None) =
    (Response 403 (Message "Not authorized to update this task"), Sample.db []) /\
  delete_task (Context Sample.bob Sample.later) (Sample.db []) Sample.task_key =
    (Response 403 (Message "Not authorized to delete this task"), Sample.db []) /\
  toggle_task (Context Sample.bob Sample.later) (Sample.db []) Sample.task_key =
    (Response 403 (Message "Not authorized to modify this task"), Sample.db []).
Proof.
  apply (not_owner_is_forbidden (Context Sample.bob Sample.later) (Sample.db [])
           Sample.task_key Sample.task_id Sample.task).
  - reflexivity.
  - reflexivity.
  - intros H. vm_compute in H. discriminate H.
Defined.


(** The save of the toggle validates the whole document: a stored task
    whose priority is none of the schema's is not toggled, also by its
    owner; the answer is 400 and nothing is written. *)
Lemma toggle_of_invalid_priority (ctx : context) (db : database) (id : string)
    (o : ObjectId.t) (task : Task.t) :
  ObjectId.ofString id = Some o ->
  tasks db !! o = Some task ->
  userId ctx = ObjectId.toString (Task.userId task) ->
  Task.validate_priority (Task.priority task) <> [] ->
  code (toggle_task ctx db id).1 = 400 /\ (toggle_task ctx db id).2 = db.
Proof.
  intros Hid Htask Hown Hpri.
  unfold toggle_task. rewrite (findById_found _ _ _ _ Hid Htask).
  rewrite Hown, String.eqb_refl. cbn [negb].
  unfold save, Task.validate.
  cbn [flip Task.priority].
  destruct (_ ++ _ ++ _)%list as [|x l] eqn:Hv; [|split; reflexivity].
  apply app_nil in Hv as [_ [_ Hv]%app_nil]. contradiction.
Qed.

Example toggle_of_urgent_task :
  Task.priority Sample2.urgent_task = "Urgent" /\
  toggle_task (Context Sample.alice Sample.later) Sample2.db_urgent
    Sample.task_key =
    (Response 400 (Failure "Error toggling task" (ValidationError ["priority"])),
     Sample2.db_urgent).
Proof. split; vm_compute; reflexivity. Qed.



End TaskFacts.

Module ClientFacts.
Import ApiResponse Clients.

Lemma hard_delete (ctx : context) (db : database) (id : string)
    (o : ObjectId.t) (client : Client.t) (soft : option string) :
  ObjectId.ofString id = Some o ->
  clients db !! o = Some client ->
  soft <> Some "true" ->
  delete_client ctx db id soft =
    match Client.cases client with
    | _ :: _ => (errorResponse active_cases_message 409, db)
    | [] =>
        match first_blocker (related_counts db id o) with
        | Some (e, n) => (errorResponse (conflict_message e n) 409, db)
        | None =>
            (successResponse tt "Client deleted successfully" 200,
             with_clients (delete o) db)
        end
    end.
Proof.
  intros Hid Hc Hsoft. unfold delete_client, ObjectId.isValid, findById.
  rewrite Hid, Hc. cbn [negb].
  assert (Hs : match soft with Some s => String.eqb s "true" | None => false end = false).
  { destruct soft as [s|]; [|reflexivity].
    apply String.eqb_neq. congruence. }
  rewrite Hs.
  destruct (Client.cases client); [|reflexivity].
  unfold first_blocker, related_counts. cbn [List.find snd].
  repeat (case_match; try reflexivity).
Qed.

(** C5, with the check that comes first: a hard delete of a client whose
    own list of cases is not empty is answered 409 with a message that
    gives no count; otherwise the counts of the Cases, Invoices and
    Appointments that refer to the client are taken in this order, and
    the first that is not zero is answered 409 with a message that names
    the entity and the count.  In both cases nothing is removed: a client
    with a case in its list, or with a Case that the count finds, stays. *)
Theorem hard_delete_conflict (ctx : context) (db : database) (id : string)
    (o : ObjectId.t) (client : Client.t) (soft : option string) :
  ObjectId.ofString id = Some o ->
  clients db !! o = Some client ->
  soft <> Some "true" ->
  (Client.cases client <> [] ->
   delete_client ctx db id soft =
     (Response 409 (Error active_cases_message None), db)) /\
  (Client.cases client = [] ->
   forall e n, first_blocker (related_counts db id o) = Some (e, n) ->
     delete_client ctx db id soft =
       (Response 409
          (Error ("Cannot delete client with " ++ JS.decimal n ++ " related " ++
                  entity_name e ++ ". " ++ advice e) None), db)) /\
  (Client.cases client <> [] \/ 0 < relatedCases db id ->
   code (delete_client ctx db id soft).1 = 409 /\
   clients (delete_client ctx db id soft).2 !! o = Some client).
Proof.
  intros Hid Hc Hsoft.
  rewrite (hard_delete ctx db id o client soft Hid Hc Hsoft).
  split; [|split].
  - destruct (Client.cases client); [congruence|reflexivity].
  - intros -> e n ->. reflexivity.
  - intros H. destruct (Client.cases client) as [|c l].
    + destruct H as [H|H]; [congruence|].
      unfold first_blocker, related_counts. cbn [List.find snd].
      apply Nat.ltb_lt in H. rewrite H. auto.
    + auto.
Qed.

Lemma hard_delete_conflict_witness :
  ObjectId.ofString Sample.client_key = Some Sample.client_id /\
  clients (Sample.db []) !! Sample.client_id = Some (Sample.client []) /\
  first_blocker (related_counts (Sample.db []) Sample.client_key Sample.client_id)
    = Some (InvoiceEntity, 1) /\
  delete_client (Context Sample.later) (Sample.db []) Sample.client_key None =
    (Response 409
       (Error ("Cannot delete client with " ++ JS.decimal 1 ++ " related " ++
               entity_name InvoiceEntity ++ ". " ++ advice InvoiceEntity) None),
     Sample.db []).
Proof.
  split; [reflexivity|]. split; [reflexivity|].
  split; [vm_compute; reflexivity|].
  destruct (hard_delete_conflict (Context Sample.later) (Sample.db [])
              Sample.client_key Sample.client_id (Sample.client []) None
              eq_refl eq_refl) as (_ & H & _).
  - intros E. discriminate E.
  - apply (H eq_refl InvoiceEntity 1). vm_compute. reflexivity.
Defined.

Example hard_delete_blocked_by_invoice :
  (delete_client (Context Sample.later) (Sample.db []) Sample.client_key None).1 =
    Response 409
      (Error "Cannot delete client with 1 related invoices. Please remove all invoices first."
         None).
Proof. vm_compute. reflexivity. Qed.

(** With a case in the client's own list the answer is the message
    without a count, whatever the counts are. *)
Example hard_delete_blocked_by_own_list :
  first_blocker
    (related_counts (Sample.db [Sample.case_id]) Sample.client_key Sample.client_id)
    = Some (InvoiceEntity, 1) /\
  (delete_client (Context Sample.later) (Sample.db [Sample.case_id])
     Sample.client_key None).1 =
    Response 409
      (Error "Cannot delete client with active cases. Please remove or reassign all cases first."
         None).
Proof. split; vm_compute; reflexivity. Qed.

(** C5 as stated fails: the first count that is not zero does not always
    decide the message. *)
Lemma hard_delete_message_not_always_counted :
  ~ (forall (ctx : context) (db : database) (id : string) (o : ObjectId.t)
            (client : Client.t),
       ObjectId.ofString id = Some o ->
       clients db !! o = Some client ->
       forall e n, first_blocker (related_counts db id o) = Some (e, n) ->
         (delete_client ctx db id None).1 =
           Response 409 (Error (conflict_message e n) None)).
Proof.
  intros H.
  destruct hard_delete_blocked_by_own_list as [Hfirst Hrun].
  specialize (H (Context Sample.later) (Sample.db [Sample.case_id])
                Sample.client_key Sample.client_id (Sample.client [Sample.case_id])
                eq_refl eq_refl InvoiceEntity 1 Hfirst).
  rewrite Hrun in H. vm_compute in H. discriminate H.
Qed.

Lemma soft_delete (ctx : context) (db : database) (id : string)
    (o : ObjectId.t) (client : Client.t) :
  ObjectId.ofString id = Some o ->
  clients db !! o = Some client ->
  delete_client ctx db id (Some "true") =
    (Response 200 (Success "Client deactivated successfully" tt),
     with_clients (insert o (deactivate (now ctx) client)) db).
Proof.
  intros Hid Hc. unfold delete_client, ObjectId.isValid, findById.
  rewrite Hid, Hc. reflexivity.
Qed.

(** C6, with the timestamp: a soft delete of a stored client is answered
    200, leaves the client with [status] false and with every other path
    as it was except [updatedAt], which is set to the time of the request
    when the status changed; every other document is as it was. *)
Theorem soft_delete_deactivates (ctx : context) (db : database) (id : string)
    (o : ObjectId.t) (client : Client.t) :
  ObjectId.ofString id = Some o ->
  clients db !! o = Some client ->
  exists client',
    (delete_client ctx db id (Some "true")).1 =
      Response 200 (Success "Client deactivated successfully" tt) /\
    clients (delete_client ctx db id (Some "true")).2 !! o = Some client' /\
    Client.status client' = false /\
    same_profile client client' /\
    Client.updatedAt client' =
      (if Client.status client then now ctx else Client.updatedAt client) /\
    same_but_client o db (delete_client ctx db id (Some "true")).2.
Proof.
  intros Hid Hc. rewrite (soft_delete ctx db id o client Hid Hc).
  exists (deactivate (now ctx) client). cbn [fst snd with_clients clients].
  split; [reflexivity|]. split; [apply lookup_insert_eq|].
  unfold deactivate, same_profile, same_but_client.
  cbn [users cases invoices appointments tasks clients].
  destruct (Client.status client) eqn:Hs; cbn; rewrite ?Hs;
    repeat split; try reflexivity;
    intros o' Ho'; apply lookup_insert_ne; congruence.
Qed.

Lemma soft_delete_deactivates_witness :
  exists client',
    (delete_client (Context Sample.later) (Sample.db []) Sample.client_key
       (Some "true")).1 =
      Response 200 (Success "Client deactivated successfully" tt) /\
    clients (delete_client (Context Sample.later) (Sample.db []) Sample.client_key
               (Some "true")).2 !! Sample.client_id = Some client' /\
    Client.status client' = false /\
    same_profile (Sample.client []) client' /\
    Client.updatedAt client' =
      (if Client.status (Sample.client []) then now (Context Sample.later)
       else Client.updatedAt (Sample.client [])) /\
    same_but_client Sample.client_id (Sample.db [])
      (delete_client (Context Sample.later) (Sample.db []) Sample.client_key
         (Some "true")).2.
Proof.
  apply (soft_delete_deactivates (Context Sample.later) (Sample.db [])
           Sample.client_key Sample.client_id (Sample.client [])); reflexivity.
Defined.

(** C6 as stated fails: the update timestamp of an active client does
    not stay. *)
Lemma soft_delete_touches_updatedAt :
  ~ (forall (ctx : context) (db : database) (id : string) (o : ObjectId.t)
            (client : Client.t),
       ObjectId.ofString id = Some o ->
       clients db !! o = Some client ->
       exists client',
         clients (delete_client ctx db id (Some "true")).2 !! o = Some client' /\
         Client.status client' = false /\
         same_profile client client' /\
         Client.updatedAt client' = Client.updatedAt client).
Proof.
  intros H.
  destruct (H (Context Sample.later) (Sample.db []) Sample.client_key
              Sample.client_id (Sample.client []) eq_refl eq_refl)
    as (client' & Hc & _ & _ & Hstamp).
  rewrite (soft_delete (Context Sample.later) (Sample.db []) Sample.client_key
             Sample.client_id (Sample.client []) eq_refl eq_refl) in Hc.
  cbn [snd with_clients clients] in Hc.
  rewrite lookup_insert_eq in Hc. injection Hc as <-.
  vm_compute in Hstamp. discriminate Hstamp.
Qed.

End ClientFacts.

Module AuthFacts.
Import Auth.

Section WithCrypto.

Variable comparePassword : string -> string -> bool.
Variable sign : payload -> string.

(** C8: when a user of role "client" gives the right password, the
    login looks the Client up by the user's email, and when that
    Client's status is false it answers 403 with the inactive-account
    message; the answer carries no token. *)
Theorem inactive_client_cannot_login (db : database) (b : login_body)
    (e pw : string) (uid cid : ObjectId.t) (user : User.t) (client : Client.t) :
  email b = Some e -> e <> "" ->
  password b = Some pw -> pw <> "" ->
  findOne User.email e (users db) = Some (uid, user) ->
  comparePassword (User.password user) pw = true ->
  User.role user = "client" ->
  findOne Client.email (User.email user) (clients db) = Some (cid, client) ->
  Client.status client = false ->
  login comparePassword sign db b =
    Response 403
      (Message "Your account is currently inactive. Please contact support.") /\
  forall token user', body (login comparePassword sign db b) <> Session token user'.
Proof.
  intros He Hne Hp Hnp Hu Hpw Hrole Hc Hs.
  assert (Hrun : login comparePassword sign db b =
            Response 403
              (Message "Your account is currently inactive. Please contact support.")).
  { unfold login. rewrite He, Hp. cbn [Invoices.truthy default from_option].
    unfold Datatypes.id.
    apply String.eqb_neq in Hne, Hnp. rewrite Hne, Hnp. cbn [negb orb].
    rewrite Hu, Hpw. cbn [negb]. rewrite Hrole. cbn [String.eqb].
    rewrite ?String.eqb_refl. cbn. rewrite Hc, Hs. reflexivity. }
  split; [exact Hrun|]. rewrite Hrun. intros token user' H. discriminate H.
Qed.

End WithCrypto.

Lemma inactive_client_cannot_login_witness :
  login Sample.comparePassword Sample.sign Sample.db_inactive
    (LoginBody (Some "acme@example.com") (Some "secret")) =
    Response 403
      (Message "Your account is currently inactive. Please contact support.") /\
  forall token user',
    body (login Sample.comparePassword Sample.sign Sample.db_inactive
            (LoginBody (Some "acme@example.com") (Some "secret")))
    <> Session token user'.
Proof.
  apply (inactive_client_cannot_login Sample.comparePassword Sample.sign
           Sample.db_inactive (LoginBody (Some "acme@example.com") (Some "secret"))
           "acme@example.com" "secret" Sample.bob_id Sample.client_id Sample.user
           (Clients.deactivate Sample.later (Sample.client [])));
    first [reflexivity | intros H; discriminate H].
Defined.

(** The same user logs in while the Client is active. *)
Example active_client_logs_in :
  code (login Sample.comparePassword Sample.sign (Sample.db [])
          (LoginBody (Some "acme@example.com") (Some "secret"))) = 200.
Proof. vm_compute. reflexivity. Qed.

End AuthFacts.

(** ** More on routes/invoices.js *)

Module InvoiceMore.
Import JS Invoices InvoiceFrames NumberFacts InvoiceFacts.

Lemma save_new_initial (Date_new : value -> number) (ctx : context) (db : database)
    (no : string) (b : create_body) (l : list (option item_input))
    (d : Invoice.t) (db' : database) :
  save_new Date_new ctx db no b l = inr (d, db') ->
  Invoice.paid d = zero /\ Invoice.status d = "Unpaid" /\
  Invoice.clientStatus d = "Not Viewed" /\
  Invoice.total d = ToNumber (total b) /\
  Invoice.createdAt d = now ctx /\
  invoiceNo_taken no (invoices db) = false.
Proof.
  unfold save_new. intros H.
  repeat case_match; try discriminate H.
  injection H as <- <-. cbn. repeat split; try reflexivity; assumption.
Qed.

Lemma sub_zero (t : number) : sub t zero = t.
Proof. destruct t as [[]|[]| |s m e]; reflexivity. Qed.

(** X1: A creation answered 201 stores exactly one more invoice, under the new
    id, and leaves every other document as it was; any other answer stores
    nothing. *)
Theorem create_invoice_stores_one_or_nothing (Date_new : value -> number)
    (ctx : context) (db : database) (b : create_body) :
  let r := (create_invoice Date_new ctx db b).1 in
  let db' := (create_invoice Date_new ctx db b).2 in
  (code r <> 201 -> db' = db) /\
  (code r = 201 ->
     invoices db !! fresh ctx = None /\
     size (invoices db') = S (size (invoices db)) /\
     (forall o, o <> fresh ctx -> invoices db' !! o = invoices db !! o) /\
     users db' = users db /\ clients db' = clients db /\ cases db' = cases db /\
     appointments db' = appointments db /\ tasks db' = tasks db).
Proof.
  cbv zeta. unfold create_invoice.
  repeat case_match; cbn [fst snd code]; rewrite ?create_catch_code;
    (split; [intros Hc; try reflexivity; exfalso; apply Hc; reflexivity
            |intros Hc; try discriminate Hc]).
  match goal with H : save_new _ _ _ _ _ _ = inr _ |- _ =>
    apply save_new_id in H as (_ & Hfresh & ->) end.
  cbn [with_invoices invoices users clients cases appointments tasks].
  split; [exact Hfresh|]. split.
  - apply map_size_insert_None. exact Hfresh.
  - split; [|auto 10]. intros k Hk. apply lookup_insert_ne. congruence.
Qed.

(** X2: A new invoice starts with nothing paid, status "Unpaid", not yet
    viewed, and a balance due equal to its total. *)
Theorem create_invoice_initial_state (Date_new : value -> number)
    (ctx : context) (db : database) (b : create_body) (j : Invoice.json) :
  (create_invoice Date_new ctx db b).1 = Response 201 (One j) ->
  Invoice.paid (Invoice.doc j) = zero /\
  Invoice.status (Invoice.doc j) = "Unpaid" /\
  Invoice.clientStatus (Invoice.doc j) = "Not Viewed" /\
  Invoice.total (Invoice.doc j) = ToNumber (total b) /\
  Invoice.json_balanceDue j = ToNumber (total b).
Proof.
  unfold create_invoice.
  repeat case_match; cbn [fst]; intros Hrun;
    try discriminate Hrun;
    try (match type of Hrun with create_catch ?e = _ =>
           destruct e; discriminate Hrun end).
  injection Hrun as <-.
  match goal with H : save_new _ _ _ _ _ _ = inr _ |- _ =>
    apply save_new_initial in H as (Hp & Hs & Hc & Ht & _) end.
    cbn [Invoice.toJSON Invoice.doc Invoice.json_balanceDue].
    unfold Invoice.balanceDue. rewrite Hp, Ht, sub_zero. auto.
Qed.

Lemma create_invoice_stores_one_or_nothing_witness :
  code (create_invoice Sample.date Sample2.invoice_ctx (Sample.db [])
          Sample.invoice_body).1 = 201 /\
  size (invoices (create_invoice Sample.date Sample2.invoice_ctx (Sample.db [])
                    Sample.invoice_body).2) = S (size (invoices (Sample.db []))).
Proof.
  split; [vm_compute; reflexivity|].
  destruct (create_invoice_stores_one_or_nothing Sample.date Sample2.invoice_ctx
              (Sample.db []) Sample.invoice_body) as [_ H].
  apply H. vm_compute. reflexivity.
Defined.

Lemma create_invoice_initial_state_witness :
  exists j,
    (create_invoice Sample.date Sample2.invoice_ctx (Sample.db [])
       Sample.invoice_body).1 = Response 201 (One j) /\
    Invoice.paid (Invoice.doc j) = zero /\
    Invoice.status (Invoice.doc j) = "Unpaid" /\
    Invoice.json_balanceDue j = of_Z 200.
Proof.
  eexists. split; [vm_compute; reflexivity|].
  match goal with |- Invoice.paid (Invoice.doc ?j) = _ /\ _ =>
    destruct (create_invoice_initial_state Sample.date Sample2.invoice_ctx
                (Sample.db []) Sample.invoice_body j) as (Hp & Hs & _ & _ & Hb) end.
  - vm_compute. reflexivity.
  - split; [exact Hp|]. split; [exact Hs|exact Hb].
Defined.

(** X3: The number of a new invoice comes from the count of the stored ones:
    when a stored invoice already carries that number (as after a
    deletion), no creation succeeds, whatever the body. *)
Theorem create_invoice_number_taken (Date_new : value -> number)
    (ctx : context) (db : database) (b : create_body) :
  invoiceNo_taken (invoiceNo_of (size (invoices db))) (invoices db) = true ->
  code (create_invoice Date_new ctx db b).1 = 400 /\
  (create_invoice Date_new ctx db b).2 = db.
Proof.
  intros Htaken. unfold create_invoice.
  repeat case_match; cbn [fst snd code]; rewrite ?create_catch_code;
    try (split; reflexivity).
  match goal with H : save_new _ _ _ _ _ _ = inr _ |- _ =>
    apply save_new_initial in H as (_ & _ & _ & _ & _ & Hfree) end.
  unfold countDocuments in Hfree. congruence.
Qed.

Lemma create_invoice_number_taken_witness :
  (delete_invoice Sample2.db_two Sample.invoice_key).1 =
    Response 200 (Message "Invoice deleted successfully") /\
  code (create_invoice Sample.date Sample2.invoice_ctx
          (delete_invoice Sample2.db_two Sample.invoice_key).2
          Sample.invoice_body).1 = 400 /\
  (create_invoice Sample.date Sample2.invoice_ctx
     (delete_invoice Sample2.db_two Sample.invoice_key).2
     Sample.invoice_body).2 = (delete_invoice Sample2.db_two Sample.invoice_key).2.
Proof.
  split; [vm_compute; reflexivity|].
  apply (create_invoice_number_taken Sample.date Sample2.invoice_ctx
           (delete_invoice Sample2.db_two Sample.invoice_key).2
           Sample.invoice_body).
  vm_compute. reflexivity.
Defined.

Lemma findByIdAndUpdate_frame (rv : bool) (t : number) (db : database)
    (id : string) (p : patch) (r : option (ObjectId.t * Invoice.t)) (db' : database) :
  findByIdAndUpdate rv t db id p = inr (r, db') ->
  (r = None /\ db' = db /\
   forall o, ObjectId.ofString id = Some o -> invoices db !! o = None) \/
  (exists o i, ObjectId.ofString id = Some o /\ invoices db !! o = Some i /\
               r = Some (o, apply_patch t p i) /\
               db' = with_invoices (insert o (apply_patch t p i)) db).
Proof.
  unfold findByIdAndUpdate. intros H.
  repeat case_match; try discriminate H; injection H as <- <-.
  all: first
    [ right; eexists _, _; repeat split; eassumption
    | left; split; [reflexivity|]; split; [reflexivity|];
      intros o' [= <-]; assumption ].
Qed.


(** X4: A payment request changes nothing but the addressed invoice, and of
    it only [paid], [status] and [updatedAt]; the status it stores is
    Paid, Partially Paid or Unpaid; no invoice is added or removed; an
    answer other than 200 leaves the database as it was. *)
Theorem record_payment_frame (ctx : context) (db : database) (id : string)
    (amount : value) :
  let r := (record_payment ctx db id amount).1 in
  let db' := (record_payment ctx db id amount).2 in
  same_but_invoices db db' /\
  (code r <> 200 -> db' = db) /\
  (forall o, ObjectId.ofString id <> Some o ->
             invoices db' !! o = invoices db !! o) /\
  (forall o, invoices db' !! o = None <-> invoices db !! o = None) /\
  (forall o i i', invoices db !! o = Some i -> invoices db' !! o = Some i' ->
     i' = i \/
     (same_but_payment i i' /\ Invoice.updatedAt i' = now ctx /\
      Invoice.status i' ∈ ["Paid"; "Partially Paid"; "Unpaid"])).
Proof.
  cbv zeta. unfold record_payment.
  destruct (negb (ToBoolean amount) || isNaN amount || le (ToNumber amount) zero).
  { cbn [fst snd]. repeat split; auto. intros ? ? ? -> [= ->]. left; reflexivity. }
  destruct (findById (invoices db) id) as [e|[[o0 inv]|]];
    try (cbn [fst snd]; repeat split; auto; intros ? ? ? -> [= ->]; left; reflexivity).
  destruct (findByIdAndUpdate _ _ _ _ _) as [e|[r db']] eqn:Hupd;
    try (cbn [fst snd]; repeat split; auto; intros ? ? ? -> [= ->]; left; reflexivity).
  apply findByIdAndUpdate_frame in Hupd as [(-> & -> & _)|(o & i & Hid & Hi & -> & ->)].
  { cbn [fst snd]. repeat split; auto. intros ? ? ? -> [= ->]. left; reflexivity. }
  cbn [fst snd code]. split; [repeat split|]. split; [intros Hc; contradiction Hc; reflexivity|].
  split; [|split].
  - intros o' Hne. destruct db. cbn. apply lookup_insert_ne. congruence.
  - intros o'. destruct db. cbn in *. destruct (decide (o = o')) as [<-|Hne].
    + rewrite lookup_insert_eq, Hi. split; discriminate.
    + rewrite lookup_insert_ne by assumption. reflexivity.
  - intros o' j j' Hj Hj'. destruct db. cbn in *.
    destruct (decide (o = o')) as [<-|Hne].
    + rewrite lookup_insert_eq in Hj'. injection Hj' as <-.
      assert (j = i) as -> by congruence.
      right. split; [repeat split|]. split; [reflexivity|].
      cbn. unfold Datatypes.id, payment_status.
      repeat case_match; set_solver.
    + rewrite lookup_insert_ne in Hj' by assumption. left. congruence.
Qed.

Lemma gt_finite_zero (m : positive) (e : Z) :
  gt (S754_finite false m e) zero = true.
Proof. reflexivity. Qed.

Lemma ge_finite_refl (m : positive) (e : Z) :
  ge (S754_finite false m e) (S754_finite false m e) = true.
Proof.
  unfold ge. cbn. rewrite Z.compare_refl, Pos.compare_cont_refl. reflexivity.
Qed.

Lemma sub_finite_diag (m : positive) (e : Z) :
  sub (S754_finite false m e) (S754_finite false m e) = zero.
Proof.
  unfold sub. cbn. rewrite Z.sub_diag. reflexivity.
Qed.

(** X5: Paying the whole total of an invoice on which nothing is paid yet
    settles it: the answer is 200, the status is Paid, the paid amount is
    the total and the balance due is zero. *)
Theorem record_payment_of_total_settles (ctx : context) (db : database)
    (id : string) (o : ObjectId.t) (inv : Invoice.t) (m : positive) (e : Z) :
  ObjectId.ofString id = Some o ->
  invoices db !! o = Some inv ->
  is_zero (Invoice.paid inv) = true ->
  Invoice.total inv = S754_finite false m e ->
  exists j,
    (record_payment ctx db id (Num (Invoice.total inv))).1 = Response 200 (One j) /\
    Invoice._id j = o /\
    Invoice.status (Invoice.doc j) = "Paid" /\
    Invoice.paid (Invoice.doc j) = Invoice.total inv /\
    Invoice.total (Invoice.doc j) = Invoice.total inv /\
    Invoice.json_balanceDue j = zero.
Proof.
  intros Hid Hinv Hz Ht.
  pose proof (record_payment_found ctx db id o inv (Num (Invoice.total inv))) as Hrun.
  rewrite Ht in *. rewrite (parseFloat_number _ (gt_finite_zero m e)) in Hrun.
  assert (add (Invoice.paid inv) (S754_finite false m e) = S754_finite false m e) as Hadd.
  { destruct (Invoice.paid inv) as [s| | |]; try discriminate Hz. reflexivity. }
  rewrite Hadd in Hrun.
  specialize (Hrun (amount_accepted _ (gt_finite_zero m e)) Hid Hinv eq_refl).
  cbv zeta in Hrun. rewrite Hrun. cbn [fst].
  eexists. split; [reflexivity|].
  cbn [Invoice.toJSON Invoice._id Invoice.doc Invoice.json_balanceDue
       Invoice.balanceDue apply_patch payment_patch Invoice.status Invoice.paid
       Invoice.total p_status p_paid p_total default from_option].
  unfold Datatypes.id, payment_status, Invoice.balanceDue.
  cbn [apply_patch payment_patch Invoice.paid Invoice.total p_paid p_total
       default from_option].
  unfold Datatypes.id. rewrite Ht, ge_finite_refl, sub_finite_diag.
  repeat split.
Qed.

Lemma record_payment_of_total_settles_witness :
  exists j,
    (record_payment Sample2.invoice_ctx (Sample.db []) Sample.invoice_key
       (Num (of_Z 100))).1 = Response 200 (One j) /\
    Invoice.status (Invoice.doc j) = "Paid" /\
    Invoice.json_balanceDue j = zero.
Proof.
  destruct (record_payment_of_total_settles Sample2.invoice_ctx (Sample.db [])
              Sample.invoice_key Sample.invoice_id Sample.invoice
              (Pos.of_nat 100 * 2 ^ 46)%positive (-46)%Z)
    as (j & Hrun & _ & Hs & _ & _ & Hb); try (vm_compute; reflexivity).
  exists j. split; [exact Hrun|]. split; [exact Hs|exact Hb].
Defined.

Lemma amount_refused (a : number) :
  gt a zero = false ->
  negb (ToBoolean (Num a)) || isNaN (Num a) || le (ToNumber (Num a)) zero = true.
Proof.
  rewrite gt_zero_positive.
  destruct a as [[]|[]| |[] m e]; cbn; intros Hp;
    first [reflexivity | discriminate Hp].
Qed.

(** X6: A payment whose amount is a number is refused with the answer
    "Valid payment amount is required" exactly when the number is not
    greater than zero (NaN included); the refusal changes nothing. *)
Theorem record_payment_amount_refused (ctx : context) (db : database)
    (id : string) (a : number) :
  ((record_payment ctx db id (Num a)).1 =
     Response 400 (Message "Valid payment amount is required") <->
   gt a zero = false) /\
  (gt a zero = false -> (record_payment ctx db id (Num a)).2 = db).
Proof.
  destruct (gt a zero) eqn:Hgt.
  - split; [|discriminate]. split; [|discriminate].
    unfold record_payment. rewrite (amount_accepted a Hgt).
    repeat case_match; cbn [fst]; intros Hr; discriminate Hr.
  - unfold record_payment. rewrite (amount_refused a Hgt). repeat split.
Qed.

Lemma validate_nil (i : Invoice.t) :
  Invoice.validate i = [] <->
  Invoice.validate_invoiceNo (Invoice.invoiceNo i) = [] /\
  Invoice.validate_clientName (Invoice.clientName i) = [] /\
  Invoice.validate_issueDate (Invoice.issueDate i) = [] /\
  Invoice.validate_dueDate (Invoice.dueDate i) = [] /\
  Invoice.validate_items (Invoice.items i) = [] /\
  Invoice.validate_subtotal (Invoice.subtotal i) = [] /\
  Invoice.validate_taxRate (Invoice.taxRate i) = [] /\
  Invoice.validate_taxAmount (Invoice.taxAmount i) = [] /\
  Invoice.validate_total (Invoice.total i) = [] /\
  Invoice.validate_paid (Invoice.paid i) = [] /\
  Invoice.validate_status (Invoice.status i) = [] /\
  Invoice.validate_clientStatus (Invoice.clientStatus i) = [].
Proof. unfold Invoice.validate. rewrite !app_nil. reflexivity. Qed.



Lemma validate_status_enum (s : string) :
  Invoice.validate_status s = [] <-> s ∈ Invoice.status_enum.
Proof.
  unfold Invoice.validate_status, Invoice.check, Invoice.one_of.
  rewrite list_elem_of_In.
  destruct (existsb (String.eqb s) Invoice.status_enum) eqn:Hex.
  - apply existsb_exists in Hex as (x & Hin & Heq).
    apply String.eqb_eq in Heq as ->. split; auto.
  - split; [discriminate|]. intros Hin.
    assert (existsb (String.eqb s) Invoice.status_enum = true) as Hex'.
    { apply existsb_exists. exists s. split; [exact Hin|apply String.eqb_refl]. }
    congruence.
Qed.

(** X7: The status route stores whatever non-empty status it is given,
    whether or not the schema lists it, and leaves the amounts as they
    are: of a valid invoice it makes an invalid one exactly when the
    status is none of the schema's. *)
Theorem update_status_stores_any_status (ctx : context) (db : database)
    (id : string) (o : ObjectId.t) (inv : Invoice.t) (s : string) :
  ObjectId.ofString id = Some o ->
  invoices db !! o = Some inv ->
  s <> "" ->
  exists inv',
    update_status ctx db id (Some s) =
      (Response 200 (One (Invoice.toJSON o inv')),
       with_invoices (insert o inv') db) /\
    Invoice.status inv' = s /\
    Invoice.paid inv' = Invoice.paid inv /\
    Invoice.total inv' = Invoice.total inv /\
    (schema_valid inv -> (schema_valid inv' <-> s ∈ Invoice.status_enum)).
Proof.
  intros Hid Hinv Hs. unfold update_status, findByIdAndUpdate.
  assert (truthy (Some s) = true) as ->.
  { cbn. apply negb_true_iff, String.eqb_neq. exact Hs. }
  rewrite Hid. cbn [negb status_patch p_subtotal p_taxRate p_taxAmount p_total
                    p_paid p_invoiceNo omap filter]. cbn. rewrite Hinv.
  eexists. split; [reflexivity|]. cbn. unfold Datatypes.id.
  do 3 (split; [reflexivity|]).
  unfold schema_valid. rewrite !validate_nil. cbn. unfold Datatypes.id.
  rewrite <- (validate_status_enum s). unfold Invoice.validate_items. tauto.
Qed.

Lemma update_status_stores_any_status_witness :
  exists inv',
    (update_status Sample2.invoice_ctx (Sample.db []) Sample.invoice_key
       (Some "Settled")).1 =
      Response 200 (One (Invoice.toJSON Sample.invoice_id inv')) /\
    Invoice.status inv' = "Settled" /\
    ~ schema_valid inv'.
Proof.
  destruct (update_status_stores_any_status Sample2.invoice_ctx (Sample.db [])
              Sample.invoice_key Sample.invoice_id Sample.invoice "Settled")
    as (inv' & Hrun & Hs & _ & _ & Hv);
    [vm_compute; reflexivity|vm_compute; reflexivity|discriminate|].
  exists inv'. split; [rewrite Hrun; reflexivity|]. split; [exact Hs|].
  intros Hvalid. apply Hv in Hvalid; [|vm_compute; reflexivity].
  apply list_elem_of_In in Hvalid. cbn in Hvalid.
  decompose [or] Hvalid; first [discriminate | contradiction].
Defined.





(** A body with an update operator is outside the model. *)
Example put_invoice_with_inc :
  put_invoice Sample2.invoice_ctx (Sample.db []) Sample.invoice_key
    (PutBody Sample2.total_patch ["$inc"]) = None.
Proof. reflexivity. Qed.

Lemma gt_ge (x y : number) : gt x y = true -> ge x y = true.
Proof. unfold gt, ge. destruct (SFcompare x y) as [[]|]; auto. Qed.

Lemma check_nil (path : string) (ok : bool) :
  Invoice.check path ok = [] <-> ok = true.
Proof. destruct ok; cbn; split; auto; discriminate. Qed.

(** X9: A payment of a number that is answered with 200 keeps a valid
    invoice valid: the new paid amount is above zero and the new status
    is one of the schema's. *)
Theorem record_payment_keeps_schema (ctx : context) (db : database)
    (id : string) (o : ObjectId.t) (inv : Invoice.t) (a : number)
    (j : Invoice.json) :
  ObjectId.ofString id = Some o ->
  invoices db !! o = Some inv ->
  schema_valid inv ->
  valid (Invoice.paid inv) = true -> valid a = true ->
  (record_payment ctx db id (Num a)).1 = Response 200 (One j) ->
  schema_valid (Invoice.doc j) /\ gt (Invoice.paid (Invoice.doc j)) zero = true.
Proof.
  intros Hid Hinv Hv Vp Va Hr.
  destruct (gt a zero) eqn:Ha.
  2:{ unfold record_payment in Hr. rewrite (amount_refused a Ha) in Hr.
      discriminate Hr. }
  apply validate_nil in Hv.
  destruct Hv as (?&?&?&?&?&?&?&?&?&Hpaid&?&?).
  apply check_nil in Hpaid.
  pose proof (add_positive _ _ Vp Va Hpaid Ha) as Hpos.
  pose proof (record_payment_found ctx db id o inv (Num a)
                (amount_accepted a Ha) Hid Hinv) as Hrun.
  rewrite (parseFloat_number a Ha) in Hrun.
  rewrite Hrun in Hr
    by (apply positive_not_nan; rewrite <- gt_zero_positive; exact Hpos).
  cbv zeta in Hr. cbn [fst] in Hr. injection Hr as <-.
  cbn [Invoice.toJSON Invoice.doc]. split.
  - apply validate_nil.
    cbn [apply_patch payment_patch Invoice.invoiceNo Invoice.clientName
         Invoice.issueDate Invoice.dueDate Invoice.items Invoice.subtotal
         Invoice.taxRate Invoice.taxAmount Invoice.total Invoice.paid
         Invoice.status Invoice.clientStatus p_invoiceNo p_clientName
         p_issueDate p_dueDate p_items p_subtotal p_taxRate p_taxAmount p_total
         p_paid p_status p_clientStatus default from_option].
    unfold Datatypes.id. repeat (split; [assumption|]).
    split; [apply check_nil, gt_ge, Hpos|]. split; [|assumption].
    apply validate_status_enum. unfold payment_status, Invoice.status_enum.
    repeat case_match; apply list_elem_of_In; cbn; auto.
  - cbn. exact Hpos.
Qed.

Lemma record_payment_keeps_schema_witness :
  exists j,
    (record_payment Sample2.invoice_ctx (Sample.db []) Sample.invoice_key
       (Num (of_Z 40))).1 = Response 200 (One j) /\
    schema_valid (Invoice.doc j) /\ Invoice.paid (Invoice.doc j) = of_Z 40.
Proof.
  eexists. split; [vm_compute; reflexivity|].
  match goal with |- schema_valid (Invoice.doc ?j) /\ _ =>
    destruct (record_payment_keeps_schema Sample2.invoice_ctx (Sample.db [])
                Sample.invoice_key Sample.invoice_id Sample.invoice (of_Z 40) j)
      as [Hv _] end; try (vm_compute; reflexivity).
  split; [exact Hv|reflexivity].
Defined.

(** X10: Deleting a stored invoice is answered with 200; afterwards the
    invoice is not found, there is one invoice less, and every other
    invoice and collection is as before. *)
Theorem delete_invoice_removes (db : database) (id : string) (o : ObjectId.t)
    (inv : Invoice.t) :
  ObjectId.ofString id = Some o ->
  invoices db !! o = Some inv ->
  let db' := (delete_invoice db id).2 in
  (delete_invoice db id).1 =
    Response 200 (Message "Invoice deleted successfully") /\
  get_invoice db' id = Response 404 (Message "Invoice not found") /\
  (delete_invoice db' id).1 = Response 404 (Message "Invoice not found") /\
  S (size (invoices db')) = size (invoices db) /\
  (forall o', o' <> o -> invoices db' !! o' = invoices db !! o') /\
  same_but_invoices db db'.
Proof.
  intros Hid Hinv. cbv zeta.
  assert (delete_invoice db id =
            (Response 200 (Message "Invoice deleted successfully"),
             with_invoices (delete o) db)) as ->.
  { unfold delete_invoice, findById. rewrite Hid, Hinv. reflexivity. }
  cbn [fst snd].
  unfold get_invoice, delete_invoice, findById. rewrite Hid.
  destruct db as [us cl cs ins ap ts]. cbn. rewrite lookup_delete_eq.
  repeat split.
  - cbn in Hinv. assert (is_Some (ins !! o)) as Hsome by (rewrite Hinv; eauto).
    rewrite (map_size_delete_Some _ _ Hsome).
    pose proof (map_size_ne_0_lookup_2 _ _ Hsome). lia.
  - intros o' Hne. apply lookup_delete_ne. congruence.
Qed.

Lemma delete_invoice_removes_witness :
  (delete_invoice (Sample.db []) Sample.invoice_key).1 =
    Response 200 (Message "Invoice deleted successfully") /\
  get_invoice (delete_invoice (Sample.db []) Sample.invoice_key).2
    Sample.invoice_key = Response 404 (Message "Invoice not found").
Proof.
  destruct (delete_invoice_removes (Sample.db []) Sample.invoice_key
              Sample.invoice_id Sample.invoice) as (H1 & H2 & _);
    try (vm_compute; reflexivity).
  split; [exact H1|exact H2].
Defined.

Lemma insert_desc_elem (j k : Invoice.json) (l : list Invoice.json) :
  k ∈ insert_desc j l <-> k = j \/ k ∈ l.
Proof.
  induction l as [|x l IH]; cbn.
  - rewrite list_elem_of_singleton. rewrite elem_of_nil. tauto.
  - destruct (ge _ _).
    + rewrite !elem_of_cons. tauto.
    + rewrite !elem_of_cons, IH. tauto.
Qed.

Lemma sort_desc_elem (k : Invoice.json) (l : list Invoice.json) :
  k ∈ sort_desc l <-> k ∈ l.
Proof.
  induction l as [|x l IH]; cbn; [reflexivity|].
  rewrite insert_desc_elem, elem_of_cons, IH. reflexivity.
Qed.

Lemma insert_desc_length (j : Invoice.json) (l : list Invoice.json) :
  length (insert_desc j l) = S (length l).
Proof.
  induction l as [|x l IH]; cbn; [reflexivity|].
  destruct (ge _ _); cbn; [reflexivity|]. rewrite IH. reflexivity.
Qed.

Lemma sort_desc_length (l : list Invoice.json) :
  length (sort_desc l) = length l.
Proof.
  unfold sort_desc. induction l as [|x l IH]; cbn; [reflexivity|].
  rewrite insert_desc_length, IH. reflexivity.
Qed.

(** X11: The invoices of a client: the answer shows an invoice exactly when
    it is stored and its [clientId] is the one asked for, and it shows
    as many as are stored for that client. *)
Theorem get_client_invoices_scoped (db : database) (clientId : string)
    (c : ObjectId.t) :
  ObjectId.ofString clientId = Some c ->
  exists l,
    get_client_invoices db clientId = Response 200 (Many l) /\
    (forall o i, Invoice.toJSON o i ∈ l <->
                 invoices db !! o = Some i /\ Invoice.clientId i = c) /\
    length l =
      countWhere (fun i => bool_decide (Invoice.clientId i = c)) (invoices db).
Proof.
  intros Hid. unfold get_client_invoices. rewrite Hid.
  eexists. split; [reflexivity|]. split.
  - intros o i. rewrite sort_desc_elem, list_elem_of_filter.
    unfold all_json. rewrite list_elem_of_fmap. cbn. split.
    + intros (Hc & [k v] & Heq & Hin). cbn in Heq.
      injection Heq as <- <- _. apply elem_of_map_to_list in Hin. auto.
    + intros (Hin & Hc). split; [exact Hc|].
      exists (o, i). split; [reflexivity|]. apply elem_of_map_to_list. exact Hin.
  - rewrite sort_desc_length. unfold countWhere, all_json.
    induction (map_to_list (invoices db)) as [|[k v] l IH]; [reflexivity|].
    cbn [map]. rewrite !filter_cons. cbn [Invoice.toJSON Invoice.doc fst snd].
    destruct (decide (Invoice.clientId v = c)) as [Hc|Hc].
    + rewrite decide_True by (apply bool_decide_eq_true; exact Hc).
      cbn. rewrite IH. reflexivity.
    + rewrite decide_False by (rewrite bool_decide_eq_true; exact Hc).
      exact IH.
Qed.

Lemma get_client_invoices_scoped_witness :
  exists l,
    get_client_invoices Sample2.db_two Sample.client_key = Response 200 (Many l) /\
    length l = 2.
Proof.
  destruct (get_client_invoices_scoped Sample2.db_two Sample.client_key
              Sample.client_id) as (l & Hrun & _ & Hlen);
    [vm_compute; reflexivity|].
  exists l. split; [exact Hrun|]. rewrite Hlen. vm_compute. reflexivity.
Defined.

End InvoiceMore.

(** ** More on routes/tasks.js *)

Module TaskMore.
Import JS Tasks TaskRoutes TaskFacts.

Lemma insert_asc_elem (x y : ObjectId.t * Task.t) (l : list (ObjectId.t * Task.t)) :
  y ∈ insert_asc x l <-> y = x \/ y ∈ l.
Proof.
  induction l as [|z l IH]; cbn.
  - rewrite list_elem_of_singleton, elem_of_nil. tauto.
  - destruct (le _ _).
    + rewrite !elem_of_cons. tauto.
    + rewrite !elem_of_cons, IH. tauto.
Qed.

Lemma sort_asc_elem (y : ObjectId.t * Task.t) (l : list (ObjectId.t * Task.t)) :
  y ∈ sort_asc l <-> y ∈ l.
Proof.
  induction l as [|x l IH]; cbn; [reflexivity|].
  rewrite insert_asc_elem, elem_of_cons, IH. reflexivity.
Qed.

Lemma list_tasks_listed (ctx : context) (db : database) (u : ObjectId.t) :
  ObjectId.ofString (userId ctx) = Some u ->
  exists l,
    list_tasks ctx db = Response 200 (Listed l) /\
    forall o d, (o, d) ∈ l <-> tasks db !! o = Some d /\ Task.userId d = u.
Proof.
  intros Hu. unfold list_tasks. rewrite Hu. eexists. split; [reflexivity|].
  intros o d. rewrite sort_asc_elem, list_elem_of_filter, elem_of_map_to_list.
  cbn. tauto.
Qed.

(** X12: The list route shows a task exactly when it is stored and its
    [userId] is the user of the token; a token whose user id is no
    ObjectId is answered 500. *)
Theorem list_tasks_scoped (ctx : context) (db : database) :
  match ObjectId.ofString (userId ctx) with
  | Some u =>
      exists l,
        list_tasks ctx db = Response 200 (Listed l) /\
        forall o d, (o, d) ∈ l <-> tasks db !! o = Some d /\ Task.userId d = u
  | None => code (list_tasks ctx db) = 500
  end.
Proof.
  destruct (ObjectId.ofString (userId ctx)) as [u|] eqn:Hu.
  - apply list_tasks_listed, Hu.
  - unfold list_tasks. rewrite Hu. reflexivity.
Qed.

Lemma list_tasks_scoped_witness :
  exists l,
    list_tasks Sample2.task_ctx (Sample.db []) = Response 200 (Listed l) /\
    (Sample.task_id, Sample.task) ∈ l.
Proof.
  pose proof (list_tasks_scoped Sample2.task_ctx (Sample.db [])) as H.
  change (ObjectId.ofString (Tasks.userId Sample2.task_ctx))
    with (Some Sample.alice_id) in H.
  destruct H as (l & Hrun & Hiff).
  exists l. split; [exact Hrun|]. apply Hiff. split; reflexivity.
Defined.

Lemma task_save_new_stored (Date_cast : value -> option number) (ctx : context)
    (fresh : ObjectId.t) (db : database) (b : create_body) (d : Task.t)
    (db' : database) :
  save_new Date_cast ctx fresh db b = inr (d, db') ->
  tasks db !! fresh = None /\
  db' = with_tasks (insert fresh d) db /\
  ObjectId.ofString (userId ctx) = Some (Task.userId d) /\
  Date_cast (dueDate b) = Some (Task.dueDate d) /\
  Task.title d = default "" (title b) /\
  Task.status d = or_default (status b) "Pending" /\
  Task.priority d = or_default (priority b) "Medium" /\
  Task.completed d = false /\
  Task.status d ∈ Task.status_enum /\
  Task.priority d ∈ Task.priority_enum /\
  Task.createdAt d = now ctx.
Proof.
  unfold save_new. cbv zeta.
  destruct (_ ++ _)%list eqn:Hpaths; [|discriminate].
  destruct (tasks db !! fresh) eqn:Hfresh; [discriminate|].
  intros [= <- <-].
  rewrite !app_nil in Hpaths. destruct Hpaths as (_ & Hd & Hs & Hp & Hu).
  cbn [Task.userId Task.dueDate Task.title Task.status Task.priority
       Task.completed Task.createdAt] in *.
  destruct (ObjectId.ofString (userId ctx)); [|discriminate Hu].
  destruct (Date_cast (dueDate b)); [|discriminate Hd].
  repeat split; try reflexivity.
  - apply list_elem_of_In.
    unfold Task.validate_status, Invoice.check, Invoice.one_of in Hs.
    destruct (existsb _ _) eqn:Hex in Hs; [|discriminate Hs].
    apply existsb_exists in Hex as (x & Hin & Heq).
    apply String.eqb_eq in Heq. rewrite Heq. exact Hin.
  - apply list_elem_of_In.
    unfold Task.validate_priority, Invoice.check, Invoice.one_of in Hp.
    destruct (existsb _ _) eqn:Hex in Hp; [|discriminate Hp].
    apply existsb_exists in Hex as (x & Hin & Heq).
    apply String.eqb_eq in Heq. rewrite Heq. exact Hin.
Qed.

(** X13: A creation that is answered with 201 stores one task under the new
    id and touches nothing else; the task belongs to the user of the
    token, is not completed, has a status and a priority of the schema
    (Pending and Medium when the body gives none); it can then be read
    by its id and is in the list of its owner.  Any other answer leaves
    the database as it was. *)
Theorem create_task_stores_own_task (Date_new : value -> number)
    (Date_cast : value -> option number) (ctx : context) (fresh : ObjectId.t)
    (db : database) (b : create_body) :
  let r := (create_task Date_new Date_cast ctx fresh db b).1 in
  let db' := (create_task Date_new Date_cast ctx fresh db b).2 in
  (code r <> 201 -> db' = db) /\
  (code r = 201 ->
   exists d,
     r = Response 201 (One fresh d) /\
     tasks db !! fresh = None /\
     db' = with_tasks (insert fresh d) db /\
     ObjectId.ofString (userId ctx) = Some (Task.userId d) /\
     Task.completed d = false /\
     Task.status d = or_default (status b) "Pending" /\
     Task.priority d = or_default (priority b) "Medium" /\
     Task.status d ∈ Task.status_enum /\
     Task.priority d ∈ Task.priority_enum /\
     (forall id, ObjectId.ofString id = Some fresh ->
                 get_task db' id = Response 200 (One fresh d)) /\
     (exists l, list_tasks ctx db' = Response 200 (Listed l) /\ (fresh, d) ∈ l)).
Proof.
  cbv zeta. unfold create_task.
  do 4 (case_match; [cbn [fst snd code]; split; [reflexivity|discriminate]|]).
  destruct (save_new _ _ _ _ _) as [e|[d db']] eqn:Hsave;
    [cbn [fst snd code]; split; [reflexivity|discriminate]|].
  cbn [fst snd code]. split; [intros Hc; contradiction Hc; reflexivity|intros _].
  apply task_save_new_stored in Hsave
    as (Hfresh & -> & Hu & _ & _ & Hs & Hp & Hc & Hse & Hpe & _).
  exists d. repeat split; try assumption.
  - intros id Hid. unfold get_task, findById. rewrite Hid.
    destruct db. cbn. rewrite lookup_insert_eq. reflexivity.
  - destruct (list_tasks_listed ctx (with_tasks (insert fresh d) db) _ Hu)
      as (l & Hrun & Hiff).
    exists l. split; [exact Hrun|]. apply Hiff. split; [|reflexivity].
    destruct db. cbn. apply lookup_insert_eq.
Qed.

Lemma create_task_stores_own_task_witness :
  exists d,
    (create_task Sample.date Sample2.date_cast Sample2.task_ctx Sample.new_id
       (Sample.db []) Sample2.task_body).1 = Response 201 (One Sample.new_id d) /\
    Task.status d = "Pending" /\ Task.priority d = "High" /\
    Task.completed d = false.
Proof.
  destruct (create_task_stores_own_task Sample.date Sample2.date_cast
              Sample2.task_ctx Sample.new_id (Sample.db []) Sample2.task_body)
    as [_ H].
  destruct H as (d & Hrun & _ & _ & _ & Hc & Hs & Hp & _);
    [vm_compute; reflexivity|].
  exists d. split; [exact Hrun|]. split; [exact Hs|]. split; [exact Hp|exact Hc].
Defined.

(** X14: Reading a task by its id does not look at its owner: a caller who is
    not the owner of a task, who is refused its toggle and in whose list
    the task is not shown, is still answered with the task itself. *)
Theorem get_task_not_scoped (ctx : context) (db : database) (id : string)
    (o : ObjectId.t) (task : Task.t) :
  ObjectId.ofString id = Some o ->
  tasks db !! o = Some task ->
  userId ctx <> ObjectId.toString (Task.userId task) ->
  get_task db id = Response 200 (One o task) /\
  code (toggle_task ctx db id).1 = 403 /\
  (forall u l, ObjectId.ofString (userId ctx) = Some u ->
               ObjectId.toString u = userId ctx ->
               list_tasks ctx db = Response 200 (Listed l) -> (o, task) ∉ l).
Proof.
  intros Hid Htask Hother. split; [|split].
  - unfold get_task. rewrite (findById_found _ _ _ _ Hid Htask). reflexivity.
  - unfold toggle_task. rewrite (findById_found _ _ _ _ Hid Htask).
    rewrite (not_owner _ _ Hother). reflexivity.
  - intros u l Hu Hcanon Hrun.
    destruct (list_tasks_listed ctx db u Hu) as (l' & Hrun' & Hiff).
    rewrite Hrun in Hrun'. injection Hrun' as <-.
    rewrite Hiff. intros [_ Hown]. apply Hother. rewrite Hown. symmetry. exact Hcanon.
Qed.

Lemma get_task_not_scoped_witness :
  get_task (Sample.db []) Sample.task_key =
    Response 200 (One Sample.task_id Sample.task) /\
  code (toggle_task Sample2.other_ctx (Sample.db []) Sample.task_key).1 = 403.
Proof.
  destruct (get_task_not_scoped Sample2.other_ctx (Sample.db []) Sample.task_key
              Sample.task_id Sample.task) as (H1 & H2 & _).
  - reflexivity.
  - reflexivity.
  - intros H. vm_compute in H. discriminate H.
  - split; [exact H1|exact H2].
Defined.

Lemma update_by_owner (ctx : context) (db : database) (id : string)
    (o : ObjectId.t) (task : Task.t) (p : patch) :
  ObjectId.ofString id = Some o ->
  tasks db !! o = Some task ->
  userId ctx = ObjectId.toString (Task.userId task) ->
  validate_patch p = [] ->
  update_task ctx db id p =
    (Response 200 (One o (apply_patch (now ctx) p task)),
     with_tasks (insert o (apply_patch (now ctx) p task)) db).
Proof.
  intros Hid Htask Hown Hp. unfold update_task, findByIdAndUpdate.
  rewrite (findById_found _ _ _ _ Hid Htask), Hown, String.eqb_refl, Hid, Hp, Htask.
  reflexivity.
Qed.

Lemma toString_inj_ne (u v : ObjectId.t) (s : string) :
  s = ObjectId.toString u -> ObjectId.toString v <> s -> s <> ObjectId.toString v.
Proof. intros -> H Heq. apply H. symmetry. exact Heq. Qed.

(** X15: The update route lets the owner set [userId]: once a task is given
    to another user, its former owner is refused the update, the
    deletion and the toggle of it. *)
Theorem update_task_hands_over (ctx : context) (db : database) (id : string)
    (o : ObjectId.t) (task : Task.t) (p : patch) (v : ObjectId.t) :
  ObjectId.ofString id = Some o ->
  tasks db !! o = Some task ->
  userId ctx = ObjectId.toString (Task.userId task) ->
  validate_patch p = [] ->
  p_userId p = Some v ->
  ObjectId.toString v <> userId ctx ->
  let db' := (update_task ctx db id p).2 in
  (exists d, (update_task ctx db id p).1 = Response 200 (One o d) /\
             Task.userId d = v /\ tasks db' !! o = Some d) /\
  (forall ctx' p', userId ctx' = userId ctx ->
     update_task ctx' db' id p' =
       (Response 403 (Message "Not authorized to update this task"), db') /\
     delete_task ctx' db' id =
       (Response 403 (Message "Not authorized to delete this task"), db') /\
     toggle_task ctx' db' id =
       (Response 403 (Message "Not authorized to modify this task"), db')).
Proof.
  intros Hid Htask Hown Hp Hv Hne. cbv zeta.
  rewrite (update_by_owner ctx db id o task p Hid Htask Hown Hp). cbn [fst snd].
  assert (tasks (with_tasks (insert o (apply_patch (now ctx) p task)) db) !! o =
          Some (apply_patch (now ctx) p task)) as Hnew
    by (destruct db; cbn; apply lookup_insert_eq).
  assert (Task.userId (apply_patch (now ctx) p task) = v) as Huser
    by (cbn; rewrite Hv; reflexivity).
  split.
  - eexists. split; [reflexivity|]. split; [exact Huser|exact Hnew].
  - intros ctx' p' Hsame.
    unfold update_task, delete_task, toggle_task.
    rewrite (findById_found _ _ _ _ Hid Hnew).
    rewrite not_owner by (rewrite Huser, Hsame; congruence).
    auto.
Qed.

Lemma update_task_hands_over_witness :
  code (update_task Sample2.task_ctx (Sample.db []) Sample.task_key
          Sample2.handover).1 = 200 /\
  code (toggle_task Sample2.task_ctx
          (update_task Sample2.task_ctx (Sample.db []) Sample.task_key
             Sample2.handover).2 Sample.task_key).1 = 403.
Proof.
  destruct (update_task_hands_over Sample2.task_ctx (Sample.db [])
              Sample.task_key Sample.task_id Sample.task Sample2.handover
              Sample.bob_id) as [(d & Hrun & _) Hlater];
    try reflexivity.
  - intros H. vm_compute in H. discriminate H.
  - split; [rewrite Hrun; reflexivity|].
    destruct (Hlater Sample2.task_ctx Sample2.handover eq_refl) as (_ & _ & ->).
    reflexivity.
Defined.

(** X16: The owner's deletion removes the task and nothing else: afterwards
    it is not found and is in no list, and every other task is as
    before. *)
Theorem delete_task_removes (ctx : context) (db : database) (id : string)
    (o : ObjectId.t) (task : Task.t) :
  ObjectId.ofString id = Some o ->
  tasks db !! o = Some task ->
  userId ctx = ObjectId.toString (Task.userId task) ->
  let db' := (delete_task ctx db id).2 in
  (delete_task ctx db id).1 = Response 200 (Message "Task deleted successfully") /\
  get_task db' id = Response 404 (Message "Task not found") /\
  (forall ctx' l d, list_tasks ctx' db' = Response 200 (Listed l) -> (o, d) ∉ l) /\
  (forall o', o' <> o -> tasks db' !! o' = tasks db !! o') /\
  same_but_tasks db db'.
Proof.
  intros Hid Htask Hown. cbv zeta.
  assert (delete_task ctx db id =
            (Response 200 (Message "Task deleted successfully"),
             with_tasks (delete o) db)) as ->.
  { unfold delete_task. rewrite (findById_found _ _ _ _ Hid Htask).
    rewrite Hown, String.eqb_refl. reflexivity. }
  cbn [fst snd].
  assert (tasks (with_tasks (delete o) db) !! o = None) as Hgone
    by (destruct db; cbn; apply lookup_delete_eq).
  split; [reflexivity|]. split; [|split; [|split]].
  - unfold get_task, findById. rewrite Hid, Hgone. reflexivity.
  - intros ctx' l d. unfold list_tasks.
    destruct (ObjectId.ofString (userId ctx')); [|discriminate].
    intros [= <-]. rewrite sort_asc_elem, list_elem_of_filter, elem_of_map_to_list.
    intros [_ Hc]. rewrite lookup_delete_eq in Hc. discriminate Hc.
  - intros o' Hne. destruct db. cbn. apply lookup_delete_ne. congruence.
  - destruct db. repeat split.
Qed.

Lemma delete_task_removes_witness :
  (delete_task Sample2.task_ctx (Sample.db []) Sample.task_key).1 =
    Response 200 (Message "Task deleted successfully") /\
  get_task (delete_task Sample2.task_ctx (Sample.db []) Sample.task_key).2
    Sample.task_key = Response 404 (Message "Task not found").
Proof.
  destruct (delete_task_removes Sample2.task_ctx (Sample.db []) Sample.task_key
              Sample.task_id Sample.task) as (H1 & H2 & _); try reflexivity.
  split; [exact H1|exact H2].
Defined.

(** X17: A toggle request changes nothing but the addressed task, and of it
    only [completed], [status] and [updatedAt]: the flag is negated and
    the status follows it; no task is added or removed; an answer other
    than 200 leaves the database as it was. *)
Theorem toggle_task_frame (ctx : context) (db : database) (id : string) :
  let r := (toggle_task ctx db id).1 in
  let db' := (toggle_task ctx db id).2 in
  same_but_tasks db db' /\
  (code r <> 200 -> db' = db) /\
  (forall o, tasks db' !! o = None <-> tasks db !! o = None) /\
  (forall o d d', tasks db !! o = Some d -> tasks db' !! o = Some d' ->
     d' = d \/
     (ObjectId.ofString id = Some o /\ code r = 200 /\
      same_but_completion d d' /\
      Task.completed d' = negb (Task.completed d) /\
      Task.status d' = (if Task.completed d' then "Completed" else "In Progress") /\
      Task.updatedAt d' = now ctx)).
Proof.
  cbv zeta. unfold toggle_task, findById.
  destruct (ObjectId.ofString id) as [o0|] eqn:Hid;
    [|cbn [fst snd]; repeat split; auto; intros ? ? ? -> [= ->]; left; reflexivity].
  destruct (tasks db !! o0) as [task|] eqn:Htask;
    [|cbn [fst snd]; repeat split; auto; intros ? ? ? -> [= ->]; left; reflexivity].
  destruct (negb _);
    [cbn [fst snd]; repeat split; auto; intros ? ? ? -> [= ->]; left; reflexivity|].
  unfold save.
  destruct (Task.validate _);
    [|cbn [fst snd]; repeat split; auto; intros ? ? ? -> [= ->]; left; reflexivity].
  cbn [fst snd code]. split; [destruct db; repeat split|].
  split; [intros Hc; contradiction Hc; reflexivity|]. split.
  - intros o. destruct db. cbn in *. destruct (decide (o0 = o)) as [<-|Hne].
    + rewrite lookup_insert_eq, Htask. split; discriminate.
    + rewrite lookup_insert_ne by assumption. reflexivity.
  - intros o d d' Hd Hd'. destruct db. cbn in *.
    destruct (decide (o0 = o)) as [<-|Hne].
    + rewrite lookup_insert_eq in Hd'. injection Hd' as <-.
      assert (d = task) as -> by congruence.
      right. repeat split.
    + rewrite lookup_insert_ne in Hd' by assumption. left. congruence.
Qed.

End TaskMore.

(** ** More on routes/clients.js *)

Module ClientMore.
Import ApiResponse Clients ClientRoutes ClientFacts Auth.

(** X18: A deletion request touches no collection but the clients; an answer
    other than 200 leaves the database as it was; no client is added,
    and a client that stays is as it was or, on a soft delete, is the
    deactivated one. *)
Theorem delete_client_frame (ctx : context) (db : database) (id : string)
    (soft : option string) :
  let r := (delete_client ctx db id soft).1 in
  let db' := (delete_client ctx db id soft).2 in
  (users db' = users db /\ cases db' = cases db /\ invoices db' = invoices db /\
   appointments db' = appointments db /\ tasks db' = tasks db) /\
  (code r <> 200 -> db' = db) /\
  (forall o c', clients db' !! o = Some c' ->
     exists c, clients db !! o = Some c /\
               (c' = c \/
                (soft = Some "true" /\ ObjectId.ofString id = Some o /\
                 c' = deactivate (now ctx) c))).
Proof.
  cbv zeta. unfold delete_client, findById, ObjectId.isValid.
  destruct (ObjectId.ofString id) as [o0|] eqn:Hid; cbn [negb];
    [|cbn [fst snd]; repeat split; eauto].
  destruct (clients db !! o0) as [client|] eqn:Hc;
    [|cbn [fst snd]; repeat split; eauto].
  destruct soft as [s|].
  - destruct (String.eqb s "true") eqn:Hs.
    + apply String.eqb_eq in Hs as ->. cbn [fst snd code].
      split; [destruct db; repeat split|].
      split; [intros H; contradiction H; reflexivity|].
      intros o c' Hc'. destruct db. cbn in *.
      destruct (decide (o0 = o)) as [<-|Hne].
      * rewrite lookup_insert_eq in Hc'. injection Hc' as <-. eauto 10.
      * rewrite lookup_insert_ne in Hc' by assumption. eauto.
    + repeat case_match; cbn [fst snd code];
        (split; [destruct db; repeat split|]);
        (split; [first [reflexivity | intros Hcode; contradiction Hcode; reflexivity]|]);
        eauto.
      intros o c' Hc'. destruct db. cbn in *.
      apply lookup_delete_Some in Hc' as [_ Hc']. eauto.
  - repeat case_match; cbn [fst snd code];
      (split; [destruct db; repeat split|]);
      (split; [first [reflexivity | intros Hcode; contradiction Hcode; reflexivity]|]);
      eauto.
    intros o c' Hc'. destruct db. cbn in *.
    apply lookup_delete_Some in Hc' as [_ Hc']. eauto.
Qed.

(** X19: A hard delete of a stored client is answered with 200 exactly when
    the client's own list of cases is empty and no Case, Invoice or
    Appointment refers to the client; the client is then gone, and its
    status is no longer found. *)
Theorem hard_delete_removes_exactly (ctx : context) (db : database)
    (id : string) (o : ObjectId.t) (client : Client.t) (soft : option string) :
  ObjectId.ofString id = Some o ->
  clients db !! o = Some client ->
  soft <> Some "true" ->
  let r := (delete_client ctx db id soft).1 in
  let db' := (delete_client ctx db id soft).2 in
  (code r = 200 <->
   Client.cases client = [] /\ relatedCases db id = 0 /\
   relatedInvoices db o = 0 /\ relatedAppointments db o = 0) /\
  (code r = 200 ->
   r = Response 200 (Success "Client deleted successfully" tt) /\
   clients db' !! o = None /\
   get_status db' id = Response 404 (Error "Client not found" None)) /\
  (code r <> 200 -> code r = 409 /\ db' = db).
Proof.
  intros Hid Hc Hsoft. cbv zeta.
  rewrite (hard_delete ctx db id o client soft Hid Hc Hsoft).
  destruct (Client.cases client) as [|c0 l].
  2:{ cbn [fst snd code]. split; [split; [discriminate|intros [H _]; discriminate H]|].
      split; [discriminate|]. auto. }
  unfold first_blocker, related_counts. cbn [List.find snd].
  destruct (relatedCases db id) as [|n1]; cbn [Nat.ltb Nat.leb].
  2:{ cbn [fst snd code]. split; [split; [discriminate|intros (_ & H & _); discriminate H]|].
      split; [discriminate|]. auto. }
  destruct (relatedInvoices db o) as [|n2]; cbn [Nat.ltb Nat.leb].
  2:{ cbn [fst snd code].
      split; [split; [discriminate|intros (_ & _ & H & _); discriminate H]|].
      split; [discriminate|]. auto. }
  destruct (relatedAppointments db o) as [|n3]; cbn [Nat.ltb Nat.leb].
  2:{ cbn [fst snd code].
      split; [split; [discriminate|intros (_ & _ & _ & H); discriminate H]|].
      split; [discriminate|]. auto. }
  cbn [fst snd code]. split; [split; auto|].
  split; [|intros H; contradiction H; reflexivity].
  intros _. split; [reflexivity|].
  assert (clients (with_clients (delete o) db) !! o = None) as Hgone
    by (destruct db; cbn; apply lookup_delete_eq).
  split; [exact Hgone|].
  unfold get_status, ObjectId.isValid, findById. rewrite Hid, Hgone. reflexivity.
Qed.

Lemma hard_delete_removes_exactly_witness :
  (delete_client (Context Sample.later)
     (Invoices.delete_invoice (Sample.db []) Sample.invoice_key).2
     Sample.client_key None).1 =
    Response 200 (Success "Client deleted successfully" tt) /\
  get_status
    (delete_client (Context Sample.later)
       (Invoices.delete_invoice (Sample.db []) Sample.invoice_key).2
       Sample.client_key None).2 Sample.client_key =
    Response 404 (Error "Client not found" None).
Proof.
  destruct (hard_delete_removes_exactly (Context Sample.later)
              (Invoices.delete_invoice (Sample.db []) Sample.invoice_key).2
              Sample.client_key Sample.client_id (Sample.client []) None)
    as (_ & H & _); [reflexivity|reflexivity|discriminate|].
  destruct H as (H1 & _ & H2); [vm_compute; reflexivity|].
  split; [exact H1|exact H2].
Defined.

Lemma deactivate_status (t : JS.number) (c : Client.t) :
  Client.status (deactivate t c) = false.
Proof. unfold deactivate. destruct (Client.status c) eqn:Hs; [reflexivity|exact Hs]. Qed.

Lemma deactivate_email (t : JS.number) (c : Client.t) :
  Client.email (deactivate t c) = Client.email c.
Proof. unfold deactivate. destruct (Client.status c); reflexivity. Qed.

Lemma deactivate_inactive (t : JS.number) (c : Client.t) :
  Client.status c = false -> deactivate t c = c.
Proof. unfold deactivate. intros ->. reflexivity. Qed.

(** X20: After a soft delete the status route reports the client as
    inactive, and a second soft delete, at whatever time, is answered
    the same and writes nothing. *)
Theorem soft_delete_then_inactive (ctx : context) (db : database) (id : string)
    (o : ObjectId.t) (client : Client.t) :
  ObjectId.ofString id = Some o ->
  clients db !! o = Some client ->
  let db' := (delete_client ctx db id (Some "true")).2 in
  get_status db' id =
    Response 200 (Success "Success" (StatusView false "inactive")) /\
  (forall ctx', delete_client ctx' db' id (Some "true") =
     (Response 200 (Success "Client deactivated successfully" tt), db')).
Proof.
  intros Hid Hc. cbv zeta. rewrite (soft_delete ctx db id o client Hid Hc).
  cbn [snd].
  assert (clients (with_clients (insert o (deactivate (now ctx) client)) db) !! o =
          Some (deactivate (now ctx) client)) as Hnew
    by (destruct db; cbn; apply lookup_insert_eq).
  split.
  - unfold get_status, ObjectId.isValid, findById. rewrite Hid, Hnew.
    cbn [negb]. rewrite deactivate_status. reflexivity.
  - intros ctx'. rewrite (soft_delete ctx' _ id o _ Hid Hnew).
    rewrite (deactivate_inactive _ _ (deactivate_status _ _)).
    f_equal. destruct db. unfold with_clients. cbn. f_equal.
    apply insert_insert_eq.
Qed.

Lemma soft_delete_then_inactive_witness :
  get_status
    (delete_client (Context Sample.later) (Sample.db []) Sample.client_key
       (Some "true")).2 Sample.client_key =
    Response 200 (Success "Success" (StatusView false "inactive")) /\
  get_status (Sample.db []) Sample.client_key =
    Response 200 (Success "Success" (StatusView true "active")).
Proof.
  destruct (soft_delete_then_inactive (Context Sample.later) (Sample.db [])
              Sample.client_key Sample.client_id (Sample.client []))
    as [H _]; [reflexivity|reflexivity|].
  split; [exact H|reflexivity].
Defined.

Lemma findOne_unique {A : Type} (email_of : A -> string) (e : string)
    (m : gmap ObjectId.t A) (o : ObjectId.t) (d : A) :
  m !! o = Some d -> email_of d = e ->
  (forall o' d', m !! o' = Some d' -> email_of d' = e -> o' = o) ->
  findOne email_of e m = Some (o, d).
Proof.
  intros Hd He Huniq. unfold findOne.
  destruct (find _ _) as [[k v]|] eqn:Hfind.
  - apply find_some in Hfind as [Hin Heq]. cbn in Heq.
    apply String.eqb_eq in Heq.
    apply list_elem_of_In, elem_of_map_to_list in Hin.
    pose proof (Huniq k v Hin Heq) as ->. congruence.
  - assert (In (o, d) (map_to_list m)) as Hin
      by (apply list_elem_of_In, elem_of_map_to_list; exact Hd).
    pose proof (find_none _ _ Hfind (o, d) Hin) as Hno. cbn in Hno.
    rewrite He, String.eqb_refl in Hno. discriminate Hno.
Qed.

(** X21: Soft delete and login together: once the client record of a user of
    role "client" is deactivated, the login of that user with the right
    password is answered 403, where the email identifies the client
    record. *)
Theorem soft_delete_locks_out (comparePassword : string -> string -> bool)
    (sign : payload -> string) (ctx : context) (db : database) (id : string)
    (o : ObjectId.t) (client : Client.t) (b : login_body) (e pw : string)
    (uid : ObjectId.t) (user : User.t) :
  ObjectId.ofString id = Some o ->
  clients db !! o = Some client ->
  email b = Some e -> e <> "" ->
  password b = Some pw -> pw <> "" ->
  findOne User.email e (users db) = Some (uid, user) ->
  comparePassword (User.password user) pw = true ->
  User.role user = "client" ->
  Client.email client = User.email user ->
  (forall o' c', clients db !! o' = Some c' ->
                 Client.email c' = User.email user -> o' = o) ->
  login comparePassword sign (delete_client ctx db id (Some "true")).2 b =
    Response 403
      (Message "Your account is currently inactive. Please contact support.").
Proof.
  intros Hid Hc He Hne Hp Hnp Hu Hpw Hrole Hmail Huniq.
  rewrite (soft_delete ctx db id o client Hid Hc). cbn [snd].
  assert (findOne Client.email (User.email user)
            (clients (with_clients (insert o (deactivate (now ctx) client)) db)) =
          Some (o, deactivate (now ctx) client)) as Hfound.
  { apply findOne_unique.
    - destruct db; cbn; apply lookup_insert_eq.
    - rewrite deactivate_email. exact Hmail.
    - intros o' c' Hc' Hmail'. destruct (decide (o' = o)) as [->|Hneq]; [reflexivity|].
      destruct db; cbn in *. rewrite lookup_insert_ne in Hc' by congruence.
      exact (Huniq o' c' Hc' Hmail'). }
  unfold login. rewrite He, Hp. cbn [Invoices.truthy default from_option].
  unfold Datatypes.id.
  apply String.eqb_neq in Hne, Hnp. rewrite Hne, Hnp. cbn [negb orb].
  replace (users (with_clients (insert o (deactivate (now ctx) client)) db))
    with (users db) by (destruct db; reflexivity).
  rewrite Hu, Hpw. cbn [negb]. rewrite Hrole. cbn [String.eqb].
  rewrite ?String.eqb_refl. cbn [Ascii.eqb Bool.eqb].
  rewrite Hfound, deactivate_status. reflexivity.
Qed.

Lemma soft_delete_locks_out_witness :
  code (login Sample.comparePassword Sample.sign (Sample.db [])
          (LoginBody (Some "acme@example.com") (Some "secret"))) = 200 /\
  login Sample.comparePassword Sample.sign
    (delete_client (Context Sample.later) (Sample.db []) Sample.client_key
       (Some "true")).2
    (LoginBody (Some "acme@example.com") (Some "secret")) =
    Response 403
      (Message "Your account is currently inactive. Please contact support.").
Proof.
  split; [vm_compute; reflexivity|].
  apply (soft_delete_locks_out Sample.comparePassword Sample.sign
           (Context Sample.later) (Sample.db []) Sample.client_key
           Sample.client_id (Sample.client [])
           (LoginBody (Some "acme@example.com") (Some "secret"))
           "acme@example.com" "secret" Sample.bob_id Sample.user);
    try first [reflexivity | discriminate].
  intros o' c' Hc' _. unfold Sample.db in Hc'. cbn [clients] in Hc'.
  apply lookup_singleton_Some in Hc' as [<- _]. reflexivity.
Defined.

End ClientMore.

(** ** middleware/auth.js *)

Module MiddlewareFacts.
Import Middleware.

Lemma split_head (sep : ascii) (s : string) :
  exists t l,
    split sep s = t :: l /\ free_of sep t = true /\
    ((s = t /\ l = []) \/ (exists r, s = t ++ String sep r /\ l = split sep r)).
Proof.
  induction s as [|c s IH].
  - exists "", []. cbn -[Ascii.eqb]. auto.
  - cbn [split]. destruct (Ascii.eqb c sep) eqn:Hc.
    + apply Ascii.eqb_eq in Hc as ->.
      exists "", (split sep s). cbn -[Ascii.eqb]. eauto 10.
    + destruct IH as (t & l & -> & Hfree & Hs).
      exists (String c t), l. cbn -[Ascii.eqb]. rewrite Hc, Hfree.
      split; [reflexivity|]. split; [reflexivity|].
      destruct Hs as [[-> ->]|(r & -> & ->)]; eauto.
Qed.

Lemma split_free (sep : ascii) (t : string) :
  free_of sep t = true -> split sep t = [t].
Proof.
  induction t as [|c t IH]; cbn -[Ascii.eqb]; [reflexivity|].
  intros [Hc Hfree]%andb_true_iff. apply negb_true_iff in Hc.
  rewrite Hc, (IH Hfree). reflexivity.
Qed.

Lemma split_free_app (sep : ascii) (t r : string) :
  free_of sep t = true ->
  split sep (t ++ String sep r) = t :: split sep r.
Proof.
  induction t as [|c t IH].
  - intros _. change (split sep (String sep r) = "" :: split sep r).
    cbn [split]. rewrite Ascii.eqb_refl. reflexivity.
  - cbn [free_of]. intros [Hc Hfree]%andb_true_iff. apply negb_true_iff in Hc.
    change (split sep (String c (t ++ String sep r)) = String c t :: split sep r).
    cbn [split]. rewrite Hc, (IH Hfree). reflexivity.
Qed.

Lemma prefix_Bearer (h : string) :
  String.prefix "Bearer " h = true <-> exists x, h = "Bearer " ++ x.
Proof.
  split.
  - intros H.
    do 7 (destruct h as [|? h]; [discriminate H|];
          cbn [String.prefix] in H;
          match type of H with
          | (if ?d then _ else _) = _ => destruct d; [subst|discriminate H]
          end).
    exists h. reflexivity.
  - intros [x ->]. destruct x; reflexivity.
Qed.

Lemma append_empty (s : string) : s ++ "" = s.
Proof.
  induction s as [|c s IH]; [reflexivity|].
  change (String c (s ++ "") = String c s). rewrite IH. reflexivity.
Qed.

Lemma split_Bearer (x : string) :
  split " " ("Bearer " ++ x) = "Bearer" :: split " " x.
Proof. reflexivity. Qed.

(** X22: The middleware lets a request through exactly when the header is
    "Bearer ", a token without a space that is not empty, and then
    nothing or a space and anything; when the token verifies; and when
    its payload has a user id that is not empty.  The user put on the
    request is that payload. *)
Theorem auth_next_iff (verify : string -> string + claims)
    (authHeader : option string) (c : claims) :
  auth verify authHeader = Next c <->
  exists t rest,
    authHeader = Some ("Bearer " ++ t ++ rest) /\
    t <> "" /\ free_of " " t = true /\
    (rest = "" \/ exists r, rest = String " " r) /\
    verify t = inr c /\
    exists u, userId c = Some u /\ u <> "".
Proof.
  split.
  - unfold auth. destruct authHeader as [h|]; [|discriminate].
    destruct (negb (Invoices.truthy (Some h))); [discriminate|]. cbn [orb].
    destruct (String.prefix "Bearer " h) eqn:Hpre; [|discriminate]. cbn [negb].
    apply prefix_Bearer in Hpre as [x ->]. rewrite split_Bearer. cbn [nth_error].
    destruct (split_head " " x) as (t & l & Hsplit & Hfree & Hx). rewrite Hsplit.
    destruct t as [|a t]; [discriminate|].
    destruct (verify (String a t)) as [m|v] eqn:Hv; [discriminate|].
    destruct (userId v) as [u|] eqn:Hu; [|discriminate]. cbn [Invoices.truthy].
    destruct (String.eqb u "") eqn:Hne; [discriminate|]. cbn [negb].
    intros [= <-]. apply String.eqb_neq in Hne.
    destruct Hx as [[-> _]|(r & -> & _)].
    + exists (String a t), "". rewrite append_empty.
      repeat split; eauto; try discriminate.
    + exists (String a t), (String " " r). repeat split; eauto; try discriminate.
  - intros (t & rest & -> & Ht & Hfree & Hrest & Hv & u & Hu & Hne).
    unfold auth. cbn [Invoices.truthy String.append String.eqb negb orb].
    assert (String.prefix "Bearer " ("Bearer " ++ (t ++ rest)) = true) as ->
      by (apply prefix_Bearer; eauto).
    cbn [negb]. rewrite split_Bearer. cbn [nth_error].
    assert (exists l, split " " (t ++ rest) = t :: l) as [l ->].
    { destruct Hrest as [->|[r ->]].
      - exists []. rewrite append_empty. apply split_free, Hfree.
      - eexists. apply split_free_app, Hfree. }
    destruct t as [|a t]; [contradiction Ht; reflexivity|].
    rewrite Hv, Hu. cbn [Invoices.truthy].
    apply String.eqb_neq in Hne. rewrite Hne. reflexivity.
Qed.

(** What follows the token in the header is not looked at, and a second
    space before the token makes the request fail. *)
Example auth_ignores_the_rest :
  let verify := fun t => if String.eqb t "abc" then inr (Claims (Some "u1") None)
                         else inl "jwt malformed" in
  auth verify (Some "Bearer abc") = Next (Claims (Some "u1") None) /\
  auth verify (Some "Bearer abc and more") = Next (Claims (Some "u1") None) /\
  auth verify (Some "Bearer  abc") =
    Answer (Response 401 ("No authentication token, access denied", None)) /\
  auth verify (Some "bearer abc") =
    Answer (Response 401 ("No authentication token, access denied", None)).
Proof. repeat split. Qed.

(** X23: The role check lets a request through exactly when a user is on the
    request and either no role is asked for or the user's role is one
    of those asked for; the user is passed on as it is. *)
Theorem authorize_next_iff (roles : list string) (user : option claims)
    (c : claims) :
  authorize roles user = Next c <->
  user = Some c /\ (roles = [] \/ exists r, role c = Some r /\ r ∈ roles).
Proof.
  unfold authorize. destruct user as [u|]; [|split; [discriminate|intros [H _]; discriminate H]].
  destruct roles as [|r0 roles].
  - cbn. split; [intros [= ->]; auto|intros [[= ->] _]; reflexivity].
  - cbn [length Nat.eqb negb andb].
    destruct (role u) as [r|] eqn:Hr.
    + destruct (existsb (String.eqb r) (r0 :: roles)) eqn:Hex; cbn [negb].
      * apply existsb_exists in Hex as (x & Hin & Heq).
        apply String.eqb_eq in Heq as <-. apply list_elem_of_In in Hin.
        split; [intros [= ->]; eauto|intros [[= ->] _]; reflexivity].
      * split; [discriminate|]. intros [[= <-] [Hnil|(r' & Hr' & Hin)]];
          [discriminate Hnil|].
        assert (r' = r) as -> by congruence.
        assert (existsb (String.eqb r) (r0 :: roles) = true) as Hex'.
        { apply existsb_exists. exists r. split; [apply list_elem_of_In, Hin|].
          apply String.eqb_refl. }
        congruence.
    + cbn [negb]. split; [discriminate|].
      intros [[= <-] [Hnil|(r' & Hr' & _)]]; [discriminate Hnil|congruence].
Qed.

End MiddlewareFacts.

(** ** More on routes/cases.js *)

Module CaseMore.
Import JS ApiResponse Cases CaseRoutes CaseFacts.

Lemma save_result (t : number) (db : database) (o : ObjectId.t) (d d' x : Case.t)
    (db' : database) :
  save t db o d d' = inr (x, db') ->
  Case.validate d' = [] /\
  ((d' = d /\ x = d /\ db' = db) \/
   (d' <> d /\ x = with_updatedAt t d' /\ db' = with_cases (insert o x) db)).
Proof.
  unfold save. destruct (Case.validate d'); [|discriminate].
  destruct (decide (d' = d)) as [->|Hne].
  - intros [= <- <-]. auto.
  - case_match; [discriminate|]. intros [= <- <-]. auto.
Qed.

Lemma cases_insert_frame (o : ObjectId.t) (x : Case.t) (db : database) :
  same_but_cases db (with_cases (insert o x) db).
Proof. destruct db. repeat split. Qed.

Lemma same_but_cases_refl (db : database) : same_but_cases db db.
Proof. repeat split. Qed.

Lemma update_paths_appends (ctx : context) (db : database) (id : string)
    (b : update_body) :
  let r := (update_paths ctx db id b).1 in
  let db' := (update_paths ctx db id b).2 in
  same_but_cases db db' /\
  (code r <> 200 -> db' = db) /\
  (forall o, cases db' !! o = None <-> cases db !! o = None) /\
  (forall o d d', cases db !! o = Some d -> cases db' !! o = Some d' ->
     Case.createdAt d' = Case.createdAt d /\
     exists es ns,
       Case.timeline d' = (Case.timeline d ++ es)%list /\
       Case.notes d' = (Case.notes d ++ ns)%list /\
       length es <= 1 /\ length ns <= 1 /\
       (forall e, e ∈ es ->
          Case.date e = now ctx /\
          ObjectId.ofString (userId ctx) = Some (Case.addedBy e)) /\
       (forall n, n ∈ ns ->
          Case.note_createdAt n = now ctx /\
          ObjectId.ofString (userId ctx) = Some (Case.note_createdBy n))).
Proof.
  cbv zeta.
  assert (forall o d d', cases db !! o = Some d -> cases db !! o = Some d' ->
     Case.createdAt d' = Case.createdAt d /\
     exists es ns,
       Case.timeline d' = (Case.timeline d ++ es)%list /\
       Case.notes d' = (Case.notes d ++ ns)%list /\
       length es <= 1 /\ length ns <= 1 /\
       (forall e, e ∈ es ->
          Case.date e = now ctx /\
          ObjectId.ofString (userId ctx) = Some (Case.addedBy e)) /\
       (forall n, n ∈ ns ->
          Case.note_createdAt n = now ctx /\
          ObjectId.ofString (userId ctx) = Some (Case.note_createdBy n))) as Hsame.
  { intros o d d' Hd Hd'. assert (d' = d) as -> by congruence.
    split; [reflexivity|]. exists [], [].
    rewrite !app_nil_r. cbn. repeat split; try lia;
      match goal with H : _ ∈ [] |- _ => inversion H end. }
  assert (same_but_cases db db /\
          (code (Response (B:=content) 200 (Error "" None)) <> 200 -> db = db) /\
          (forall o, cases db !! o = None <-> cases db !! o = None)) as Hrefl
    by (split; [apply same_but_cases_refl|]; split; reflexivity).
  destruct Hrefl as (Hr1 & _ & Hr3).
  unfold update_paths, findById.
  destruct (ObjectId.ofString id) as [o0|] eqn:Hid; [|cbn [fst snd]; auto].
  destruct (cases db !! o0) as [caseData|] eqn:Hcase; [|cbn [fst snd]; auto].
  unfold and_then.
  destruct (push_timeline _ _ _) as [e1|d1] eqn:H1; [cbn [fst snd]; auto|].
  destruct (push_note _ _ _) as [e2|d2] eqn:H2; [cbn [fst snd]; auto|].
  destruct (save _ _ _ _ _) as [e3|[x db']] eqn:Hrun; [cbn [fst snd]; auto|].
  cbn [fst snd code].
  apply save_result in Hrun as [_ [(_ & -> & ->)|(_ & -> & ->)]];
    [split; [exact Hr1|]; split; [reflexivity|]; split; [exact Hr3|exact Hsame]|].
  split; [apply cases_insert_frame|].
  split; [intros Hc; contradiction Hc; reflexivity|].
  split.
  - intros o. destruct db. cbn in *. destruct (decide (o0 = o)) as [<-|Hne].
    + rewrite lookup_insert_eq, Hcase. split; discriminate.
    + rewrite lookup_insert_ne by assumption. reflexivity.
  - intros o d d' Hd Hd'.
    destruct (decide (o0 = o)) as [<-|Hne].
    2:{ apply (Hsame o d d' Hd). destruct db. cbn in *.
        rewrite lookup_insert_ne in Hd' by assumption. exact Hd'. }
    assert (d = caseData) as -> by congruence.
    assert (d' = with_updatedAt (now ctx) d2) as ->.
    { destruct db. cbn in *. rewrite lookup_insert_eq in Hd'. congruence. }
    clear Hsame Hd Hd'.
    assert (exists es, Case.timeline d1 = (Case.timeline caseData ++ es)%list /\
                       Case.notes d1 = Case.notes caseData /\
                       Case.createdAt d1 = Case.createdAt caseData /\
                       length es <= 1 /\
                       forall e, e ∈ es ->
                         Case.date e = now ctx /\
                         ObjectId.ofString (userId ctx) = Some (Case.addedBy e))
      as (es & Ht1 & Hn1 & Hc1 & Hlen1 & Hes).
    { unfold push_timeline in H1. destruct (timeline b) as [description|].
      - destruct (ObjectId.ofString (userId ctx)) as [u|]; [|discriminate H1].
        injection H1 as <-. eexists. cbn. split; [reflexivity|].
        repeat split; try reflexivity; try (cbn; lia);
          match goal with H : _ ∈ [_] |- _ =>
            apply list_elem_of_singleton in H as ->; reflexivity end.
      - injection H1 as <-. exists []. cbn. rewrite app_nil_r.
        repeat split; try lia;
          match goal with H : _ ∈ [] |- _ => inversion H end. }
    assert (exists ns, Case.notes d2 = (Case.notes d1 ++ ns)%list /\
                       Case.timeline d2 = Case.timeline d1 /\
                       Case.createdAt d2 = Case.createdAt d1 /\
                       length ns <= 1 /\
                       forall n, n ∈ ns ->
                         Case.note_createdAt n = now ctx /\
                         ObjectId.ofString (userId ctx) = Some (Case.note_createdBy n))
      as (ns & Hn2 & Ht2 & Hc2 & Hlen2 & Hns).
    { unfold push_note in H2. destruct (notes b) as [content|].
      - destruct (ObjectId.ofString (userId ctx)) as [u|]; [|discriminate H2].
        injection H2 as <-. eexists. cbn. split; [reflexivity|].
        repeat split; try reflexivity; try (cbn; lia);
          match goal with H : _ ∈ [_] |- _ =>
            apply list_elem_of_singleton in H as ->; reflexivity end.
      - injection H2 as <-. exists []. cbn. rewrite app_nil_r.
        repeat split; try lia;
          match goal with H : _ ∈ [] |- _ => inversion H end. }
    cbn [with_updatedAt Case.createdAt Case.timeline Case.notes].
    split; [congruence|]. exists es, ns.
    split; [congruence|]. split; [congruence|]. auto.
Qed.

(** X24: What an update leaves in place, for a body whose keys are
    [timeline], [notes] and paths of the case to set (no other key, such
    as [isNew] or [_id]).  The request is answered; it touches no
    collection but the cases, adds and removes no case, and writes
    nothing unless it is answered 200.  Of a stored case it keeps
    [createdAt] and every entry of the timeline and of the notes: it can
    only append, at most one entry to each, and the appended entries
    carry the user of the token and the time of the request, whatever
    the body says. *)
Theorem update_case_appends (ctx : context) (db : database) (id : string)
    (b : update_body) :
  others b = [] ->
  exists r db',
    update_case ctx db id b = Some (r, db') /\
    same_but_cases db db' /\
    (code r <> 200 -> db' = db) /\
    (forall o, cases db' !! o = None <-> cases db !! o = None) /\
    (forall o d d', cases db !! o = Some d -> cases db' !! o = Some d' ->
       Case.createdAt d' = Case.createdAt d /\
       exists es ns,
         Case.timeline d' = (Case.timeline d ++ es)%list /\
         Case.notes d' = (Case.notes d ++ ns)%list /\
         length es <= 1 /\ length ns <= 1 /\
         (forall e, e ∈ es ->
            Case.date e = now ctx /\
            ObjectId.ofString (userId ctx) = Some (Case.addedBy e)) /\
         (forall n, n ∈ ns ->
            Case.note_createdAt n = now ctx /\
            ObjectId.ofString (userId ctx) = Some (Case.note_createdBy n))).
Proof.
  intros Hplain. unfold update_case. rewrite Hplain.
  exists (update_paths ctx db id b).1, (update_paths ctx db id b).2.
  split; [rewrite <- surjective_pairing; reflexivity|].
  apply update_paths_appends.
Qed.

Lemma update_case_appends_witness :
  exists d',
    update_case Sample2.case_ctx Sample2.db_case Sample2.case_key Sample2.hearing =
      Some (Response 200 (Success "Case updated successfully" (Sample.case_id, d')),
            with_cases (insert Sample.case_id d') Sample2.db_case) /\
    exists e n,
      Case.timeline d' = (Case.timeline Sample2.stored_case ++ [e])%list /\
      Case.notes d' = [n] /\
      Case.addedBy e = Sample.bob_id /\ Case.date e = Sample.later.
Proof.
  destruct (update_case_appends Sample2.case_ctx Sample2.db_case Sample2.case_key
              Sample2.hearing eq_refl) as (r & db' & Hrun & _).
  eexists. split; [vm_compute; reflexivity|].
  eexists _, _. repeat split; vm_compute; reflexivity.
Defined.

(** A body with another key is outside the model. *)
Example update_case_with_isNew :
  update_case Sample2.case_ctx Sample2.db_case Sample2.case_key
    (UpdateBody None None Sample2.no_patch ["isNew"; "_id"]) = None.
Proof. reflexivity. Qed.

Lemma required_nil (path value : string) :
  Case.required path value = [] <-> value <> "".
Proof.
  unfold Case.required, Invoice.check.
  destruct (String.eqb value "") eqn:Hv; cbn.
  - apply String.eqb_eq in Hv. split; [discriminate|congruence].
  - apply String.eqb_neq in Hv. tauto.
Qed.

Lemma imap_app_last {A B : Type} (f : nat -> A -> list B) (l : list A) (x : A) :
  concat (imap f (l ++ [x])) = [] -> f (length l) x = [].
Proof.
  rewrite imap_app, concat_app. intros [_ H]%app_nil.
  cbn in H. rewrite app_nil_r, Nat.add_0_r in H. exact H.
Qed.

(** X25: A document is added only with a title and a file URL that are not
    empty; it is appended to the documents of the case, with the user of
    the token as uploader and the time of the request as upload time;
    nothing else of the case changes but [updatedAt].  Any other answer
    than 200 leaves the database as it was. *)
Theorem add_document_appends (ctx : context) (db : database) (id : string)
    (b : document_body) (o : ObjectId.t) (d : Case.t) :
  ObjectId.ofString id = Some o ->
  cases db !! o = Some d ->
  let r := (add_document ctx db id b).1 in
  let db' := (add_document ctx db id b).2 in
  (code r <> 200 -> db' = db) /\
  (code r = 200 ->
   exists u t f,
     ObjectId.ofString (userId ctx) = Some u /\
     title b = Some t /\ t <> "" /\ fileUrl b = Some f /\ f <> "" /\
     cases db' !! o =
       Some (with_updatedAt (now ctx)
               (with_documents
                  (Case.documents d ++
                   [{| Case.doc_title := t; Case.fileUrl := f;
                       Case.uploadedAt := now ctx; Case.uploadedBy := u |}])%list d)) /\
     (forall o', o' <> o -> cases db' !! o' = cases db !! o') /\
     same_but_cases db db').
Proof.
  intros Hid Hd. cbv zeta. unfold add_document, findById. rewrite Hid, Hd.
  destruct (ObjectId.ofString (userId ctx)) as [u|];
    [|cbn [fst snd code]; split; [reflexivity|discriminate]].
  destruct (save _ _ _ _ _) as [e|[x db']] eqn:Hsave;
    [cbn [fst snd code]; split; [reflexivity|discriminate]|].
  cbn [fst snd code]. split; [intros Hc; contradiction Hc; reflexivity|intros _].
  apply save_result in Hsave as [Hvalid [(Heq & _)|(Hne & -> & ->)]].
  { apply (f_equal Case.documents) in Heq. cbn in Heq.
    apply (f_equal length) in Heq. rewrite length_app in Heq. cbn in Heq. lia. }
  unfold Case.validate in Hvalid. rewrite !app_nil in Hvalid.
  destruct Hvalid as (_ & _ & Hdocs & _).
  cbn [with_documents Case.documents] in Hdocs.
  apply imap_app_last in Hdocs. unfold Case.validate_document in Hdocs.
  apply app_nil in Hdocs as [Ht Hf]. apply required_nil in Ht, Hf.
  cbn [Case.doc_title Case.fileUrl] in Ht, Hf.
  destruct (title b) as [t|]; [|contradiction Ht; reflexivity].
  destruct (fileUrl b) as [f|]; [|contradiction Hf; reflexivity].
  exists u, t, f. cbn in Ht, Hf. unfold Datatypes.id in *.
  split; [reflexivity|]. split; [reflexivity|]. split; [exact Ht|].
  split; [reflexivity|]. split; [exact Hf|].
  split; [destruct db; cbn; apply lookup_insert_eq|].
  split; [|apply cases_insert_frame].
  intros o' Hne'. destruct db. cbn. apply lookup_insert_ne. congruence.
Qed.

Lemma add_document_appends_witness :
  code (add_document Sample2.case_ctx Sample2.db_case Sample2.case_key
          Sample2.brief).1 = 200 /\
  exists d',
    cases (add_document Sample2.case_ctx Sample2.db_case Sample2.case_key
             Sample2.brief).2 !! Sample.case_id = Some d' /\
    length (Case.documents d') = 1 /\
    (add_document Sample2.case_ctx Sample2.db_case Sample2.case_key
       (DocumentBody None (Some "https://files.example/brief.pdf"))).2 =
      Sample2.db_case.
Proof.
  split; [vm_compute; reflexivity|].
  destruct (add_document_appends Sample2.case_ctx Sample2.db_case Sample2.case_key
              Sample2.brief Sample.case_id Sample2.stored_case eq_refl eq_refl)
    as [_ H].
  destruct H as (u & t & f & _ & _ & _ & _ & _ & Hd' & _);
    [vm_compute; reflexivity|].
  eexists. split; [exact Hd'|]. split; [reflexivity|].
  apply (add_document_appends Sample2.case_ctx Sample2.db_case Sample2.case_key
           (DocumentBody None (Some "https://files.example/brief.pdf"))
           Sample.case_id Sample2.stored_case eq_refl eq_refl).
  vm_compute. discriminate.
Defined.

Lemma with_isArchived_same (d : Case.t) :
  Case.isArchived d = true -> with_isArchived true d = d.
Proof. destruct d. cbn. intros ->. reflexivity. Qed.

(** X26: The deletion route of the cases removes nothing.  It touches no
    collection but the cases and adds and removes no case; a stored case stays
    as it is, or, when it is the addressed one, becomes archived with a
    new [updatedAt] and every other path as before.  After an answer of
    200 the case is archived, and a repeated request is answered 200
    again and writes nothing.  Any other answer leaves the database as
    it was. *)
Theorem archive_case_keeps (ctx : context) (db : database) (id : string) :
  let r := (archive_case ctx db id).1 in
  let db' := (archive_case ctx db id).2 in
  same_but_cases db db' /\
  (code r <> 200 -> db' = db) /\
  (forall o, cases db' !! o = None <-> cases db !! o = None) /\
  (forall o d d', cases db !! o = Some d -> cases db' !! o = Some d' ->
     d' = d \/
     (ObjectId.ofString id = Some o /\ Case.isArchived d = false /\
      Case.isArchived d' = true /\ Case.updatedAt d' = now ctx /\
      same_but_archived d d')) /\
  (code r = 200 ->
   (forall o d', ObjectId.ofString id = Some o -> cases db' !! o = Some d' ->
                 Case.isArchived d' = true) /\
   (forall ctx', archive_case ctx' db' id =
                   (Response 200 (Success "Case archived successfully" tt), db'))).
Proof.
  cbv zeta.
  assert (forall o d d', cases db !! o = Some d -> cases db !! o = Some d' ->
     d' = d \/
     (ObjectId.ofString id = Some o /\ Case.isArchived d = false /\
      Case.isArchived d' = true /\ Case.updatedAt d' = now ctx /\
      same_but_archived d d')) as Hsame
    by (intros o d d' Hd Hd'; left; congruence).
  pose proof (same_but_cases_refl db) as Hr1.
  assert (forall o, cases db !! o = None <-> cases db !! o = None) as Hr3
    by reflexivity.
  destruct (archive_case ctx db id) as [r db1] eqn:Hrun. cbn [fst snd].
  unfold archive_case, findById in Hrun.
  destruct (ObjectId.ofString id) as [o0|] eqn:Hid;
    [|injection Hrun as <- <-; cbn [code];
      repeat (split; [solve [auto]|]); discriminate].
  destruct (cases db !! o0) as [caseData|] eqn:Hcase;
    [|injection Hrun as <- <-; cbn [code];
      repeat (split; [solve [auto]|]); discriminate].
  destruct (save _ _ _ _ _) as [e|[x db']] eqn:Hsave;
    [injection Hrun as <- <-; cbn [code];
     repeat (split; [solve [auto]|]); discriminate|].
  injection Hrun as <- <-. cbn [code].
  apply save_result in Hsave as [Hvalid [(Heq & -> & ->)|(Hne & -> & ->)]].
  - do 4 (split; [solve [auto]|]). intros _.
    assert (Case.isArchived caseData = true) as Harch
      by (rewrite <- Heq; reflexivity).
    split.
    + intros o d' Ho Hd'. assert (d' = caseData) as -> by congruence. exact Harch.
    + intros ctx'. unfold archive_case, findById. rewrite Hid, Hcase.
      unfold save. rewrite Hvalid.
      rewrite decide_True by exact Heq. reflexivity.
  - assert (Case.isArchived caseData = false) as Hwas.
    { destruct (Case.isArchived caseData) eqn:Ha; [|reflexivity].
      contradiction Hne. apply with_isArchived_same, Ha. }
    set (d1 := with_updatedAt (now ctx) (with_isArchived true caseData)).
    assert (cases (with_cases (insert o0 d1) db) !! o0 = Some d1) as Hnew
      by (destruct db; cbn; apply lookup_insert_eq).
    split; [apply cases_insert_frame|].
    split; [intros Hc; contradiction Hc; reflexivity|].
    split; [|split; [|intros _; split]].
    + intros o. destruct db. cbn in *. destruct (decide (o0 = o)) as [<-|Hneq].
      * rewrite lookup_insert_eq, Hcase. split; discriminate.
      * rewrite lookup_insert_ne by assumption. reflexivity.
    + intros o d d' Hd Hd'. destruct (decide (o0 = o)) as [<-|Hneq].
      * right. assert (d = caseData) as -> by congruence.
        assert (d' = d1) as -> by congruence.
        split; [reflexivity|]. split; [exact Hwas|].
        split; [reflexivity|]. split; [reflexivity|].
        unfold same_but_archived, d1. destruct caseData. reflexivity.
      * left. destruct db. cbn in *.
        rewrite lookup_insert_ne in Hd' by assumption. congruence.
    + intros o d' Ho Hd'. assert (o = o0) as -> by congruence.
      assert (d' = d1) as -> by congruence. reflexivity.
    + intros ctx'. unfold archive_case, findById. rewrite Hid, Hnew.
      unfold save.
      assert (with_isArchived true d1 = d1) as -> by reflexivity.
      assert (Case.validate d1 = []) as -> by exact Hvalid.
      rewrite decide_True by reflexivity. reflexivity.
Qed.

Lemma archive_case_keeps_witness :
  code (archive_case Sample2.case_ctx Sample2.db_case Sample2.case_key).1 = 200 /\
  size (cases (archive_case Sample2.case_ctx Sample2.db_case Sample2.case_key).2) = 1 /\
  forall o d',
    ObjectId.ofString Sample2.case_key = Some o ->
    cases (archive_case Sample2.case_ctx Sample2.db_case Sample2.case_key).2 !! o
      = Some d' ->
    Case.isArchived d' = true.
Proof.
  split; [vm_compute; reflexivity|]. split; [vm_compute; reflexivity|].
  destruct (archive_case_keeps Sample2.case_ctx Sample2.db_case Sample2.case_key)
    as (_ & _ & _ & _ & H).
  apply H. vm_compute. reflexivity.
Defined.

Lemma case_save_new_stored (ctx : context) (db : database) (b : create_body)
    (d : Case.t) (db' : database) :
  Cases.save_new ctx db b = inr (d, db') ->
  cases db !! fresh ctx = None /\
  db' = with_cases (insert (fresh ctx) d) db /\
  ObjectId.ofString (userId ctx) = Some (Case.createdBy d) /\
  Case.clientNo d = text (clientNo b) /\
  clientNo_taken (text (clientNo b)) (cases db) = false /\
  Invoice.one_of Case.status_enum (Case.status d) = true /\
  Case.isArchived d = default false (isArchived b) /\
  Case.createdAt d = now ctx.
Proof.
  unfold Cases.save_new. cbv zeta.
  destruct (_ ++ _)%list eqn:Hpaths; [|discriminate].
  cbn [Case.clientNo].
  destruct (clientNo_taken _ _) eqn:Hno; [discriminate|].
  destruct (cases db !! fresh ctx) eqn:Hfresh; [discriminate|].
  intros [= <- <-].
  rewrite !app_nil in Hpaths. destruct Hpaths as (Hu & _ & _ & Hv).
  unfold Case.validate in Hv. rewrite !app_nil in Hv.
  destruct Hv as (_ & Hs & _).
  cbn [Case.status Case.createdBy Case.clientNo Case.isArchived Case.createdAt]
    in *.
  destruct (ObjectId.ofString (userId ctx)) as [u|]; [|discriminate Hu].
  unfold Case.validate_status, Invoice.check in Hs.
  destruct (Invoice.one_of _ _) eqn:Hone; [|discriminate Hs].
  cbn. auto 10.
Qed.

(** X27: A creation that is answered 201 stores the case under the new id
    and touches nothing else.  The case names the user of the token as
    its creator, whatever the body says; its number was not in use; its
    status is one of the schema's; and the last entry of its timeline is
    "Case created", by that user at the time of the request. *)
Theorem create_case_created (ctx : context) (db : database) (b : create_body)
    (o : ObjectId.t) (d : Case.t) (message : string) :
  (create_case ctx db b).1 = Response 201 (Success message (o, d)) ->
  let db' := (create_case ctx db b).2 in
  o = fresh ctx /\ cases db !! o = None /\ cases db' !! o = Some d /\
  (forall o', o' <> o -> cases db' !! o' = cases db !! o') /\
  same_but_cases db db' /\
  ObjectId.ofString (userId ctx) = Some (Case.createdBy d) /\
  clientNo_taken (Case.clientNo d) (cases db) = false /\
  Case.status d ∈ Case.status_enum /\
  last (Case.timeline d) =
    Some {| Case.date := now ctx; Case.event_description := "Case created";
            Case.addedBy := Case.createdBy d |}.
Proof.
  cbv zeta. unfold create_case.
  destruct (validateCaseData b) as [e|[errors|]]; try discriminate.
  destruct (Cases.save_new ctx db b) as [e|[d0 db0]] eqn:Hsave; [discriminate|].
  cbn [fst snd]. intros [= <- <- <-].
  apply case_save_new_stored in Hsave as (Hfresh & -> & Hu & Hno & Hfree & Hs & _).
  split; [reflexivity|]. split; [exact Hfresh|].
  split; [destruct db; cbn; apply lookup_insert_eq|].
  split.
  { intros o' Hne. destruct db. cbn. rewrite lookup_insert_ne by congruence.
    apply lookup_insert_ne. congruence. }
  split; [destruct db; repeat split|].
  cbn [add_timeline Case.createdBy Case.clientNo Case.status Case.timeline].
  split; [exact Hu|]. split; [rewrite Hno; exact Hfree|].
  split.
  - apply list_elem_of_In. unfold Invoice.one_of in Hs.
    apply existsb_exists in Hs as (x & Hin & Heq).
    apply String.eqb_eq in Heq as ->. exact Hin.
  - apply last_snoc.
Qed.

Lemma create_case_created_witness :
  exists d,
    (create_case Sample2.case_ctx Sample2.db_case Sample2.new_case_body).1 =
      Response 201 (Success "Case created successfully" (Sample.new_id, d)) /\
    Case.createdBy d = Sample.bob_id /\
    Case.status d = "Pending" /\
    last (Case.timeline d) =
      Some {| Case.date := Sample.later; Case.event_description := "Case created";
              Case.addedBy := Case.createdBy d |}.
Proof.
  eexists. split; [vm_compute; reflexivity|].
  split; [vm_compute; reflexivity|]. split; [reflexivity|].
  match goal with |- last (Case.timeline ?d) = _ =>
    apply (create_case_created Sample2.case_ctx Sample2.db_case
             Sample2.new_case_body Sample.new_id d "Case created successfully")
  end.
  vm_compute. reflexivity.
Defined.

(** X28: No second case with a client number that is in use: the creation is
    then answered 400 and stores nothing. *)
Theorem create_case_number_taken (ctx : context) (db : database)
    (b : create_body) :
  validateCaseData b = inr None ->
  clientNo_taken (text (clientNo b)) (cases db) = true ->
  code (create_case ctx db b).1 = 400 /\ (create_case ctx db b).2 = db.
Proof.
  intros Hvalid Htaken. unfold create_case. rewrite Hvalid.
  destruct (Cases.save_new ctx db b) as [e|[d0 db0]] eqn:Hsave; [split; reflexivity|].
  apply case_save_new_stored in Hsave as (_ & _ & _ & _ & Hfree & _). congruence.
Qed.

Lemma create_case_number_taken_witness :
  code (create_case Sample2.case_ctx Sample2.db_case Sample2.same_number_body).1
    = 400 /\
  (create_case Sample2.case_ctx Sample2.db_case Sample2.same_number_body).2 =
    Sample2.db_case.
Proof.
  apply (create_case_number_taken Sample2.case_ctx Sample2.db_case
           Sample2.same_number_body); vm_compute; reflexivity.
Defined.

End CaseMore.
